(** * DCapture: capture session controller and frame encoders

    A shallow embedding of the JavaScript sources
      src/DCFrameEncoder.js, src/DCTarEncoder.js, src/DCPNGEncoder.js,
      src/DCJPEGEncoder.js, src/DCWhammyEncoder.js, src/DCGIFEncoder.js,
      src/DCMediaRecorderEncoder.js and src/DCapture.js.

    Conventions of the embedding.
    - A JavaScript object is a record; a method is a function from the
      record (the receiver, [this]) to an [Outcome]: the receiver after the
      call, the exception thrown if any, and the list of observable effects
      the call had, oldest first.
    - JavaScript numbers of the settings are exact rationals ([Q]); the
      counters ([frames], [count], [part]) are naturals.  Division by zero
      is written out where the source divides.
    - [eventListeners], a JavaScript object used as a map from event names
      to arrays of callbacks, is a [gmap string (list Handler)].  Event names
      are taken not to collide with the properties every object inherits
      (constructor, toString, ...).
    - Callbacks handed in by the caller are opaque identifiers; calling one
      is recorded as an effect.  They are taken to return normally.
    - Work the browser completes later (canvas.toBlob, FileReader, promise
      reactions, the recorder and the GIF renderer) is requested through an
      effect and run by the event loop of [Module Browser].
    - [console.*] calls change no state and are left out. *)

From Stdlib Require Import ZArith QArith Qround Lia Bool.
From Stdlib Require Import Strings.String Strings.Ascii Strings.Byte.
From Stdlib Require Import Numbers.DecimalString Numbers.DecimalNat Numbers.DecimalFacts.
From Stdlib Require Numbers.HexadecimalString.
From stdpp Require Import base option list gmap strings.

Local Open Scope string_scope.
Local Open Scope nat_scope.
Local Open Scope list_scope.

(** ** Values that cross the encoder interface *)

Definition Bytes := list Byte.byte.

(** What [canvas.toBlob(callback, type, quality)] does: it throws, or it
    later calls back with a blob, or with [null]. *)
Inductive ToBlobResult :=
| ToBlobThrows
| ToBlobCalls (blob : option Bytes).

Record Canvas := {
  width : nat;
  height : nat;
  toBlob : string -> option Q -> ToBlobResult;
  drawable : bool     (* drawImage and the encoding libraries accept it *)
}.

Definition canvas_width (c : Canvas) : nat := width c.
Definition canvas_height (c : Canvas) : nat := height c.

(** The binary object an encoder hands to a save callback. *)
Inductive Artifact :=
| TarArchive (entries : list (string * Bytes))
| WebMVideo (frames : list Canvas)
| RecordedChunks (chunks : list Bytes)
| GifImage (frames : list (Canvas * Q)).

(** The second argument of [emit]. *)
Inductive Payload :=
| Undefined
| Str (s : string)
| Num (q : Q)
| Blob (a : Artifact).

(** Functions registered with [on]. *)
Inductive Handler :=
| RelayProgress                (* DCapture.attachEncoderEvents, 'progress' *)
| LogEncoderError              (* DCapture.attachEncoderEvents, 'error' *)
| Listener (id : nat).         (* any other function of the caller *)

(** The [callback] argument of [save]: a function of the caller, or
    [undefined]. *)
Inductive Callback :=
| NoCallback
| Fn (id : nat).

(** Work handed to the browser, completed by a later turn of the event
    loop. *)
Inductive Task :=
| ToBlobCallback (blob : option Bytes)   (* the callback given to canvas.toBlob *)
| FileReaderLoad (result : Bytes)        (* fileReader.onload *)
| FileReaderError                        (* fileReader.onerror *)
| RecorderStopped                        (* recorder.onstop *)
| GifFinished (blob : Artifact).         (* 'finished' of the GIF renderer *)

(** The stages of the promise chain built by [DCapture.stop], and by
    [capture] when a limit is reached. *)
Inductive Stage :=
| StopEncoder      (* first .then of stop(): this.encoder.stop() *)
| LogStopped       (* second .then of stop() *)
| Save.            (* .then(() => this.save()) *)

Inductive Effect :=
| Emitted (event : string) (data : Payload)     (* emit(event, data) ran *)
| Invoked (h : Handler) (data : Payload)        (* a listener was called *)
| Delivered (id : nat) (a : Artifact)           (* a save callback was called *)
| Downloaded (a : Artifact) (filename mime : string)
| Progress (id : nat) (p : Payload)             (* settings.onProgress *)
| Called (id : nat)                              (* the callback of start *)
| Requested (t : Task)
| Scheduled (chain : list Stage)
| Raised (msg : string)                         (* thrown to the caller *)
| Unhandled (msg : string)                      (* thrown inside a callback *)
| EncoderStart
| EncoderAdd (c : Canvas)                       (* this.encoder.add(canvas) *)
| EncoderStop
| EncoderSave (cb : Callback)
| EncoderDispose.

(** ** Outcome of a call *)

Record Outcome (S : Type) := mkOutcome {
  thrown : option string;
  final : S;
  effects : list Effect
}.
Arguments mkOutcome {S} _ _ _.
Arguments thrown {S} _.
Arguments final {S} _.
Arguments effects {S} _.

Definition ret {S} (s : S) : Outcome S := mkOutcome None s [].
Definition throw {S} (msg : string) (s : S) : Outcome S := mkOutcome (Some msg) s [].
Definition effect {S} (e : Effect) (s : S) : Outcome S := mkOutcome None s [e].

(** Sequencing: the rest of a method body runs unless a statement threw. *)
Definition andThen {S} (o : Outcome S) (k : S -> Outcome S) : Outcome S :=
  match thrown o with
  | Some _ => o
  | None =>
      let o' := k (final o) in
      mkOutcome (thrown o') (final o') (effects o ++ effects o')
  end.

(** [try { o } catch (e) { h }] *)
Definition catch {S} (o : Outcome S) (h : S -> Outcome S) : Outcome S :=
  match thrown o with
  | Some _ =>
      let o' := h (final o) in
      mkOutcome (thrown o') (final o') (effects o ++ effects o')
  | None => o
  end.

(** A method of a field, run on the enclosing object. *)
Definition lift {A S} (put : A -> S) (o : Outcome A) : Outcome S :=
  mkOutcome (thrown o) (put (final o)) (effects o).

Notation "o >>> k" := (andThen o k) (at level 61, left associativity).

(** ** Settings *)

Record Settings := {
  framerate : Q;
  verbose : bool;
  display : bool;
  motionBlurFrames : Q;
  quality : Q;
  format : string;
  workersPath : string;
  timeLimit : Q;
  frameLimit : Q;
  autoSaveTime : Q;
  onProgress : option nat
}.

(** The object merged over in the constructor of DCapture; [onProgress] is
    a function that does nothing. *)
Definition defaults : Settings := {|
  framerate := 60;
  verbose := false;
  display := false;
  motionBlurFrames := 0;
  quality := 100;
  format := "webm";
  workersPath := EmptyString;
  timeLimit := 0;
  frameLimit := 0;
  autoSaveTime := 0;
  onProgress := None
|}.

(** [settings.quality], [settings.display] and [settings.framerate], for the
    classes that have a field of the same name. *)
Definition settings_quality (s : Settings) : Q := quality s.
Definition settings_display (s : Settings) : bool := display s.
Definition settings_framerate (s : Settings) : Q := framerate s.

(** The globals the encoders look up when they run. *)
Record Globals := {
  hasTar : bool;              (* new Tar() works *)
  hasDownload : bool;         (* typeof download === 'function' *)
  hasWhammy : bool;           (* typeof Whammy !== 'undefined' *)
  hasGIF : bool;              (* typeof GIF !== 'undefined' *)
  hasMediaRecorder : bool;    (* typeof MediaRecorder !== 'undefined' *)
  isTypeSupported : string -> bool   (* MediaRecorder.isTypeSupported *)
}.

(** [x || d] for numbers: [d] replaces zero. *)
Definition Qor (x d : Q) : Q := if Qeq_bool x 0 then d else x.

Definition Qltb (a b : Q) : bool := negb (Qle_bool b a).

(** [x / y >= z] for a counter [x] and numbers [y], [z]: with [y] zero the
    quotient is NaN for [x = 0] (every comparison is false) and +Infinity
    otherwise. *)
Definition quotient_reaches (x : nat) (y z : Q) : bool :=
  if Qeq_bool y 0 then negb (Nat.eqb x 0)
  else Qle_bool z (inject_Z (Z.of_nat x) / y).

(** ** DCFrameEncoder.js: the base class, [pad] *)

Module DCFrameEncoder.

Record t := {
  settings : Settings;
  state : string;
  eventListeners : gmap string (list Handler)
}.

Definition constructor (s : Settings) : t :=
  {| settings := s; state := "idle"; eventListeners := ∅ |}.

Definition set_state (v : string) (e : t) : t :=
  {| settings := settings e; state := v; eventListeners := eventListeners e |}.

Definition set_eventListeners (v : gmap string (list Handler)) (e : t) : t :=
  {| settings := settings e; state := state e; eventListeners := v |}.

(** on(event, callback) *)
Definition on (event : string) (callback : Handler) (e : t) : t :=
  let listeners :=
    match eventListeners e !! event with
    | Some _ => eventListeners e
    | None => <[event := []]> (eventListeners e)
    end in
  set_eventListeners (alter (fun l => l ++ [callback]) event listeners) e.

(** The calls made by emit(event, data), in order. *)
Definition calls (event : string) (data : Payload) (e : t) : list Effect :=
  match eventListeners e !! event with
  | Some l => map (fun callback => Invoked callback data) l
  | None => []
  end.

(** emit(event, data) *)
Definition emit (event : string) (data : Payload) (e : t) : Outcome t :=
  mkOutcome None e (Emitted event data :: calls event data e).

Definition start (e : t) : Outcome t := ret (set_state "recording" e).
Definition stop (e : t) : Outcome t := ret (set_state "finished" e).
Definition add (canvas : Canvas) (e : t) : Outcome t := ret e.
Definition save (callback : Callback) (e : t) : Outcome t := ret e.
Definition step (e : t) : Outcome t := emit "step" Undefined e.
Definition dispose (e : t) : Outcome t := ret (set_eventListeners ∅ e).

End DCFrameEncoder.

(** n + '' for a counter *)
Definition toString (n : nat) : string :=
  NilZero.string_of_uint (Nat.to_uint n).

(** new Array(len).join(sep): [len] empty slots joined by [sep]. *)
Fixpoint join_empty (len : nat) (sep : string) : string :=
  match len with
  | 0 | 1 => EmptyString
  | S n => sep +:+ join_empty n sep
  end.

(** pad(n, width = 6) *)
Definition pad (n : nat) (width : nat) : string :=
  let s := toString n in
  if width <=? String.length s then s
  else join_empty (width - String.length s + 1) "0" +:+ s.

(** A value of string or undefined, in a string concatenation. *)
Definition js_str (s : option string) : string :=
  match s with Some v => v | None => "undefined" end.

(** ** The archive writer (the global [Tar], an external library) *)

Module Tar.

(** The entries appended so far, oldest first. *)
Definition t := list (string * Bytes).

Definition new : t := [].
Definition append (name : string) (data : Bytes) (tape : t) : t :=
  tape ++ [(name, data)].
Definition save (tape : t) : Artifact := TarArchive tape.

End Tar.

(** ** DCTarEncoder.js *)

Module DCTarEncoder.

Record t := {
  base : DCFrameEncoder.t;
  extension : string;
  mimeType : string;
  fileExtension : string;
  baseFilename : option string;
  filename : option string;
  tape : option Tar.t;
  count : nat;
  part : nat;
  frames : nat
}.

Definition settings (e : t) : Settings := DCFrameEncoder.settings (base e).

Definition set_base (v : DCFrameEncoder.t) (e : t) : t :=
  {| base := v; extension := extension e; mimeType := mimeType e;
     fileExtension := fileExtension e; baseFilename := baseFilename e;
     filename := filename e; tape := tape e; count := count e;
     part := part e; frames := frames e |}.

Definition set_fileExtension (v : string) (e : t) : t :=
  {| base := base e; extension := extension e; mimeType := mimeType e;
     fileExtension := v; baseFilename := baseFilename e;
     filename := filename e; tape := tape e; count := count e;
     part := part e; frames := frames e |}.

Definition set_filename (v : option string) (e : t) : t :=
  {| base := base e; extension := extension e; mimeType := mimeType e;
     fileExtension := fileExtension e; baseFilename := baseFilename e;
     filename := v; tape := tape e; count := count e;
     part := part e; frames := frames e |}.

Definition set_tape (v : option Tar.t) (e : t) : t :=
  {| base := base e; extension := extension e; mimeType := mimeType e;
     fileExtension := fileExtension e; baseFilename := baseFilename e;
     filename := filename e; tape := v; count := count e;
     part := part e; frames := frames e |}.

Definition set_count (v : nat) (e : t) : t :=
  {| base := base e; extension := extension e; mimeType := mimeType e;
     fileExtension := fileExtension e; baseFilename := baseFilename e;
     filename := filename e; tape := tape e; count := v;
     part := part e; frames := frames e |}.

Definition set_part (v : nat) (e : t) : t :=
  {| base := base e; extension := extension e; mimeType := mimeType e;
     fileExtension := fileExtension e; baseFilename := baseFilename e;
     filename := filename e; tape := tape e; count := count e;
     part := v; frames := frames e |}.

Definition set_frames (v : nat) (e : t) : t :=
  {| base := base e; extension := extension e; mimeType := mimeType e;
     fileExtension := fileExtension e; baseFilename := baseFilename e;
     filename := filename e; tape := tape e; count := count e;
     part := part e; frames := v |}.

(** constructor(settings): [this.filename] is not set yet when it is
    copied to [baseFilename]. *)
Definition constructor (s : Settings) : t :=
  {| base := DCFrameEncoder.constructor s;
     extension := ".tar";
     mimeType := "application/x-tar";
     fileExtension := EmptyString;
     baseFilename := None;
     filename := None;
     tape := None;
     count := 0;
     part := 1;
     frames := 0 |}.

(** The inherited on, emit and step. *)
Definition on (event : string) (callback : Handler) (e : t) : t :=
  set_base (DCFrameEncoder.on event callback (base e)) e.

Definition emit (event : string) (data : Payload) (e : t) : Outcome t :=
  lift (fun b => set_base b e) (DCFrameEncoder.emit event data (base e)).

Definition step (e : t) : Outcome t := emit "step" Undefined e.

(** dispose(): [new Tar()] throws a ReferenceError when the library is
    not loaded, before anything is assigned. *)
Definition dispose (G : Globals) (e : t) : Outcome t :=
  catch
    (if hasTar G then ret (set_count 0 (set_tape (Some Tar.new) e))
     else throw "ReferenceError: Tar is not defined" e)
    (fun e => emit "error" (Str "Could not create Tar instance") e).

(** start() *)
Definition start (G : Globals) (e : t) : Outcome t := dispose G e.

(** save(callback), for a callback given as a function of the blob that
    may use the encoder. *)
Definition save (callback : Artifact -> t -> Outcome t) (e : t) : Outcome t :=
  match tape e with
  | None => emit "error" (Str "No tape available for saving") e
  | Some tp => callback (Tar.save tp) e
  end.

(** A callback of the caller, or [undefined], as the argument of save. *)
Definition call (callback : Callback) (blob : Artifact) (e : t) : Outcome t :=
  match callback with
  | Fn id => effect (Delivered id blob) e
  | NoCallback => throw "TypeError: callback is not a function" e
  end.

(** The function passed to save by the onload handler of add. *)
Definition rotate (G : Globals) (blob : Artifact) (e : t) : Outcome t :=
  let e := set_filename
             (Some (js_str (baseFilename e) +:+ "-part-" +:+ pad (part e) 6)) e in
  (if hasDownload G
   then effect (Downloaded blob (js_str (filename e) +:+ extension e) (mimeType e)) e
   else emit "error" (Str "Download function not available") e) >>> fun e =>
  let count0 := count e in
  dispose G e >>> fun e =>
  let e := set_count (count0 + 1) e in
  let e := set_part (part e + 1) e in
  let e := set_filename
             (Some (js_str (baseFilename e) +:+ "-part-" +:+ pad (part e) 6)) e in
  let e := set_frames 0 e in
  step e.

(** fileReader.onload of add(blob) *)
Definition onload (G : Globals) (result : Bytes) (e : t) : Outcome t :=
  match tape e with
  | None => throw "TypeError: Cannot read properties of null (reading 'append')" e
  | Some tp =>
      let e := set_tape
                 (Some (Tar.append (pad (count e) 6 +:+ fileExtension e) result tp)) e in
      if Qltb 0 (autoSaveTime (settings e))
         && quotient_reaches (frames e) (framerate (settings e))
                             (autoSaveTime (settings e))
      then save (rotate G) e
      else
        let e := set_count (count e + 1) e in
        let e := set_frames (frames e + 1) e in
        step e
  end.

(** fileReader.onerror of add(blob) *)
Definition onerror (e : t) : Outcome t :=
  emit "error" (Str "Error reading blob") e.

(** add(blob): the read is handed to the browser; onload or onerror runs
    when it completes. *)
Definition add (blob : Bytes) (e : t) : Outcome t :=
  effect (Requested (FileReaderLoad blob)) e.

(** The names of the entries of the archive being written. *)
Definition names (e : t) : list string :=
  match tape e with
  | Some tp => map fst tp
  | None => []
  end.

End DCTarEncoder.

(** ** DCPNGEncoder.js *)

Module DCPNGEncoder.

Record t := {
  super : DCTarEncoder.t;
  type : string
}.

Definition set_super (v : DCTarEncoder.t) (e : t) : t :=
  {| super := v; type := type e |}.

Definition constructor (s : Settings) : t :=
  {| super := DCTarEncoder.set_fileExtension ".png" (DCTarEncoder.constructor s);
     type := "image/png" |}.

Definition emit (event : string) (data : Payload) (e : t) : Outcome t :=
  lift (fun b => set_super b e) (DCTarEncoder.emit event data (super e)).

(** add(canvas) *)
Definition add (canvas : Canvas) (e : t) : Outcome t :=
  catch
    (match toBlob canvas (type e) None with
     | ToBlobThrows => throw "toBlob failed" e
     | ToBlobCalls blob => effect (Requested (ToBlobCallback blob)) e
     end)
    (fun e => emit "error" (Str "Error capturing canvas as PNG") e).

(** The function given to canvas.toBlob by add. *)
Definition toBlob_callback (blob : option Bytes) (e : t) : Outcome t :=
  match blob with
  | None => emit "error" (Str "Failed to create blob from canvas") e
  | Some b => lift (fun b => set_super b e) (DCTarEncoder.add b (super e))
  end.

End DCPNGEncoder.

(** ** DCJPEGEncoder.js *)

Module DCJPEGEncoder.

Record t := {
  super : DCTarEncoder.t;
  type : string;
  quality : Q
}.

Definition set_super (v : DCTarEncoder.t) (e : t) : t :=
  {| super := v; type := type e; quality := quality e |}.

Definition constructor (s : Settings) : t :=
  {| super := DCTarEncoder.set_fileExtension ".jpg" (DCTarEncoder.constructor s);
     type := "image/jpeg";
     quality := if Qeq_bool (settings_quality s) 0 then 95 # 100
                else settings_quality s / 100 |}.

Definition emit (event : string) (data : Payload) (e : t) : Outcome t :=
  lift (fun b => set_super b e) (DCTarEncoder.emit event data (super e)).

(** add(canvas) *)
Definition add (canvas : Canvas) (e : t) : Outcome t :=
  catch
    (match toBlob canvas (type e) (Some (quality e)) with
     | ToBlobThrows => throw "toBlob failed" e
     | ToBlobCalls blob => effect (Requested (ToBlobCallback blob)) e
     end)
    (fun e => emit "error" (Str "Error capturing canvas as JPEG") e).

(** The function given to canvas.toBlob by add. *)
Definition toBlob_callback (blob : option Bytes) (e : t) : Outcome t :=
  match blob with
  | None => emit "error" (Str "Failed to create blob from canvas") e
  | Some b => lift (fun b => set_super b e) (DCTarEncoder.add b (super e))
  end.

End DCJPEGEncoder.

(** A constructor either builds its object or throws. *)
Inductive Constructed (T : Type) :=
| Built (obj : T)
| Failed (msg : string).
Arguments Built {T} _.
Arguments Failed {T} _.

(** ** DCWhammyEncoder.js *)

Module DCWhammyEncoder.

(** new Whammy.Video(framerate, quality), with the frames added so far. *)
Record Video := {
  video_framerate : Q;
  video_quality : Q;
  video_frames : list Canvas
}.

Record t := {
  base : DCFrameEncoder.t;
  extension : string;
  mimeType : string;
  quality : Q;
  encoder : option Video;
  frameCount : nat
}.

Definition settings (e : t) : Settings := DCFrameEncoder.settings (base e).

Definition set_base (v : DCFrameEncoder.t) (e : t) : t :=
  {| base := v; extension := extension e; mimeType := mimeType e;
     quality := quality e; encoder := encoder e; frameCount := frameCount e |}.

Definition set_encoder (v : option Video) (e : t) : t :=
  {| base := base e; extension := extension e; mimeType := mimeType e;
     quality := quality e; encoder := v; frameCount := frameCount e |}.

Definition set_frameCount (v : nat) (e : t) : t :=
  {| base := base e; extension := extension e; mimeType := mimeType e;
     quality := quality e; encoder := encoder e; frameCount := v |}.

(** constructor(settings) *)
Definition constructor (G : Globals) (s : Settings) : Constructed t :=
  if hasWhammy G then
    Built {| base := DCFrameEncoder.constructor s;
             extension := ".webm";
             mimeType := "video/webm";
             quality := Qor (settings_quality s / 100) (95 # 100);
             encoder := None;
             frameCount := 0 |}
  else Failed "Whammy is not loaded".

Definition emit (event : string) (data : Payload) (e : t) : Outcome t :=
  lift (fun b => set_base b e) (DCFrameEncoder.emit event data (base e)).

Definition step (e : t) : Outcome t := emit "step" Undefined e.

(** start() *)
Definition start (G : Globals) (e : t) : Outcome t :=
  catch
    (if hasWhammy G then
       let video := {| video_framerate := Qor (framerate (settings e)) 60;
                       video_quality := quality e;
                       video_frames := [] |} in
       ret (set_frameCount 0 (set_encoder (Some video) e))
     else throw "ReferenceError: Whammy is not defined" e)
    (fun e => emit "error" (Str "Error starting WebM encoder") e).

(** add(canvas) *)
Definition add (canvas : Canvas) (e : t) : Outcome t :=
  match encoder e with
  | None => ret e
  | Some video =>
      catch
        (if drawable canvas then
           let video := {| video_framerate := video_framerate video;
                           video_quality := video_quality video;
                           video_frames := video_frames video ++ [canvas] |} in
           step (set_frameCount (frameCount e + 1) (set_encoder (Some video) e))
         else throw "Whammy.Video.add failed" e)
        (fun e => emit "error" (Str "Error adding frame to WebM") e)
  end.

(** stop() *)
Definition stop (e : t) : Outcome t := ret e.

(** save(callback) *)
Definition save (callback : Callback) (e : t) : Outcome t :=
  match encoder e with
  | None => emit "error" (Str "No encoder available") e
  | Some video =>
      match callback with
      | Fn id => effect (Delivered id (WebMVideo (video_frames video))) e
      | NoCallback => ret e
      end
  end.

(** dispose() *)
Definition dispose (e : t) : Outcome t :=
  ret (set_frameCount 0 (set_encoder None e)).

End DCWhammyEncoder.

(** ** The GIF renderer (the global [GIF], an external library) *)

Module GIF.

(** The functions DCGIFEncoder registers on the renderer. *)
Inductive Listener :=
| RelayProgress                 (* progress => this.emit('progress', progress) *)
| RelayFinished                 (* blob => { this.emit('finished', blob); this.savedBlob = blob } *)
| DeliverTo (callback : Callback).   (* blob => callback(blob), registered by save *)

Record t := {
  workers : nat;
  quality : Z;
  workerScript : string;
  width : nat;
  height : nat;
  frames : list (Canvas * Q);
  running : bool;
  listeners : list (string * Listener)
}.

Definition new (workers : nat) (quality : Z) (workerScript : string) : t :=
  {| workers := workers; quality := quality; workerScript := workerScript;
     width := 150; height := 150; frames := []; running := false;
     listeners := [] |}.

Definition on (event : string) (l : Listener) (g : t) : t :=
  {| workers := workers g; quality := quality g; workerScript := workerScript g;
     width := width g; height := height g; frames := frames g;
     running := running g; listeners := listeners g ++ [(event, l)] |}.

Definition setSize (w h : nat) (g : t) : t :=
  {| workers := workers g; quality := quality g; workerScript := workerScript g;
     width := w; height := h; frames := frames g;
     running := running g; listeners := listeners g |}.

Definition addFrame (c : Canvas) (delay : Q) (g : t) : t :=
  {| workers := workers g; quality := quality g; workerScript := workerScript g;
     width := width g; height := height g; frames := frames g ++ [(c, delay)];
     running := running g; listeners := listeners g |}.

Definition set_running (v : bool) (g : t) : t :=
  {| workers := workers g; quality := quality g; workerScript := workerScript g;
     width := width g; height := height g; frames := frames g;
     running := v; listeners := listeners g |}.

Definition listening (event : string) (g : t) : list Listener :=
  map snd (filter (fun p => String.eqb (fst p) event) (listeners g)).

End GIF.

(** ** DCGIFEncoder.js *)

Module DCGIFEncoder.

Record t := {
  base : DCFrameEncoder.t;
  extension : string;
  mimeType : string;
  quality : Q;
  workers : nat;
  workerPath : string;
  canvas : option (nat * nat);     (* the temporary canvas and its context *)
  sizeSet : bool;
  encoder : option GIF.t;
  delay : Q;
  savedBlob : option Artifact
}.

Definition settings (e : t) : Settings := DCFrameEncoder.settings (base e).

Definition set_base (v : DCFrameEncoder.t) (e : t) : t :=
  {| base := v; extension := extension e; mimeType := mimeType e;
     quality := quality e; workers := workers e; workerPath := workerPath e;
     canvas := canvas e; sizeSet := sizeSet e; encoder := encoder e;
     delay := delay e; savedBlob := savedBlob e |}.

Definition set_canvas (v : option (nat * nat)) (e : t) : t :=
  {| base := base e; extension := extension e; mimeType := mimeType e;
     quality := quality e; workers := workers e; workerPath := workerPath e;
     canvas := v; sizeSet := sizeSet e; encoder := encoder e;
     delay := delay e; savedBlob := savedBlob e |}.

Definition set_sizeSet (v : bool) (e : t) : t :=
  {| base := base e; extension := extension e; mimeType := mimeType e;
     quality := quality e; workers := workers e; workerPath := workerPath e;
     canvas := canvas e; sizeSet := v; encoder := encoder e;
     delay := delay e; savedBlob := savedBlob e |}.

Definition set_encoder (v : option GIF.t) (e : t) : t :=
  {| base := base e; extension := extension e; mimeType := mimeType e;
     quality := quality e; workers := workers e; workerPath := workerPath e;
     canvas := canvas e; sizeSet := sizeSet e; encoder := v;
     delay := delay e; savedBlob := savedBlob e |}.

Definition set_delay (v : Q) (e : t) : t :=
  {| base := base e; extension := extension e; mimeType := mimeType e;
     quality := quality e; workers := workers e; workerPath := workerPath e;
     canvas := canvas e; sizeSet := sizeSet e; encoder := encoder e;
     delay := v; savedBlob := savedBlob e |}.

Definition set_savedBlob (v : option Artifact) (e : t) : t :=
  {| base := base e; extension := extension e; mimeType := mimeType e;
     quality := quality e; workers := workers e; workerPath := workerPath e;
     canvas := canvas e; sizeSet := sizeSet e; encoder := encoder e;
     delay := delay e; savedBlob := v |}.

(** constructor(settings); [settings.workers] is not a setting of DCapture,
    so the pool has 4 workers. *)
Definition constructor (s : Settings) : t :=
  {| base := DCFrameEncoder.constructor s;
     extension := ".gif";
     mimeType := "image/gif";
     quality := Qor (settings_quality s / 100) (8 # 10);
     workers := 4;
     workerPath := workersPath s +:+ "gif.worker.js";
     canvas := None;
     sizeSet := false;
     encoder := None;
     delay := 0;
     savedBlob := None |}.

Definition emit (event : string) (data : Payload) (e : t) : Outcome t :=
  lift (fun b => set_base b e) (DCFrameEncoder.emit event data (base e)).

Definition step (e : t) : Outcome t := emit "step" Undefined e.

(** Math.round *)
Definition round (x : Q) : Z := Qfloor (x + (1 # 2)).

(** start() *)
Definition start (G : Globals) (e : t) : Outcome t :=
  catch
    (if hasGIF G then
       let e := set_delay (1000 / Qor (framerate (settings e)) 60) e in
       let gif := GIF.new (workers e) (round ((1 - quality e) * 100)) (workerPath e) in
       let gif := GIF.on "progress" GIF.RelayProgress gif in
       let gif := GIF.on "finished" GIF.RelayFinished gif in
       let e := set_encoder (Some gif) e in
       let e := set_canvas (Some (300, 150)) e in
       ret (set_sizeSet false e)
     else throw "GIF.js is not loaded" e)
    (fun e => emit "error" (Str "Error starting GIF encoder") e).

(** add(inputCanvas) *)
Definition add (inputCanvas : Canvas) (e : t) : Outcome t :=
  match encoder e with
  | None => ret e
  | Some _ =>
      catch
        ((if sizeSet e then ret e
          else
            match canvas e, encoder e with
            | Some _, Some gif =>
                let e := set_canvas (Some (canvas_width inputCanvas, canvas_height inputCanvas)) e in
                let e := set_encoder
                           (Some (GIF.setSize (canvas_width inputCanvas)
                                              (canvas_height inputCanvas) gif)) e in
                ret (set_sizeSet true e)
            | _, _ => throw "TypeError: Cannot set properties of null" e
            end) >>> fun e =>
         match canvas e, encoder e with
         | Some _, Some gif =>
             if drawable inputCanvas then
               step (set_encoder (Some (GIF.addFrame inputCanvas (delay e) gif)) e)
             else throw "drawImage failed" e
         | _, _ => throw "TypeError: Cannot read properties of null" e
         end)
        (fun e => emit "error" (Str "Error adding frame to GIF") e)
  end.

(** stop(): render() throws when a rendering is already running. *)
Definition stop (e : t) : Outcome t :=
  match encoder e with
  | None => ret e
  | Some gif =>
      catch
        (if GIF.running gif then throw "Already running" e
         else
           mkOutcome None (set_encoder (Some (GIF.set_running true gif)) e)
                     [Requested (GifFinished (GifImage (GIF.frames gif)))])
        (fun e => emit "error" (Str "Error stopping GIF encoder") e)
  end.

(** A function of the caller or [undefined], called with the blob. *)
Definition call (callback : Callback) (blob : Artifact) (e : t) : Outcome t :=
  match callback with
  | Fn id => effect (Delivered id blob) e
  | NoCallback => throw "TypeError: callback is not a function" e
  end.

(** save(callback) *)
Definition save (callback : Callback) (e : t) : Outcome t :=
  match savedBlob e with
  | Some blob => call callback blob e
  | None =>
      match encoder e with
      | Some gif =>
          ret (set_encoder (Some (GIF.on "finished" (GIF.DeliverTo callback) gif)) e)
      | None => throw "TypeError: Cannot read properties of null (reading 'on')" e
      end
  end.

(** dispose(): abort() stops the rendering; its 'finished' never fires. *)
Definition dispose (e : t) : Outcome t :=
  let e := set_encoder None e in
  let e := set_canvas None e in
  let e := set_savedBlob None e in
  ret (set_sizeSet false e).

(** One listener of the renderer, called with [data]. *)
Definition listener (l : GIF.Listener) (data : Payload) (e : t) : Outcome t :=
  match l, data with
  | GIF.RelayProgress, _ => emit "progress" data e
  | GIF.RelayFinished, Blob blob =>
      emit "finished" data e >>> fun e => ret (set_savedBlob (Some blob) e)
  | GIF.RelayFinished, _ => emit "finished" data e
  | GIF.DeliverTo callback, Blob blob => call callback blob e
  | GIF.DeliverTo callback, _ => ret e
  end.

Fixpoint listeners (ls : list GIF.Listener) (data : Payload) (e : t) : Outcome t :=
  match ls with
  | [] => ret e
  | l :: ls => listener l data e >>> listeners ls data
  end.

(** The renderer fires 'progress' while it runs. *)
Definition on_progress (p : Q) (e : t) : Outcome t :=
  match encoder e with
  | Some gif =>
      if GIF.running gif then listeners (GIF.listening "progress" gif) (Num p) e
      else ret e
  | None => ret e
  end.

(** The renderer fires 'finished' with the blob when it is done, unless it
    was aborted. *)
Definition on_finished (blob : Artifact) (e : t) : Outcome t :=
  match encoder e with
  | Some gif =>
      if GIF.running gif then
        let e := set_encoder (Some (GIF.set_running false gif)) e in
        listeners (GIF.listening "finished" gif) (Blob blob) e
      else ret e
  | None => ret e
  end.

End DCGIFEncoder.

(** ** DCMediaRecorderEncoder.js *)

Module DCMediaRecorderEncoder.

(** new MediaRecorder(stream, options) *)
Record Recorder := {
  options_mimeType : string;
  videoBitsPerSecond : option Q;
  active : bool                     (* recorder.state !== 'inactive' *)
}.

Record t := {
  base : DCFrameEncoder.t;
  extension : string;
  mimeType : string;
  quality : Q;
  framerate : Q;
  supported : bool;
  stream : bool;                    (* this.stream !== null *)
  recorder : option Recorder;
  chunks : list Bytes;
  canvas : option (nat * nat);      (* the recorded canvas and its context *)
  firstFrame : bool
}.

Definition set_base (v : DCFrameEncoder.t) (e : t) : t :=
  {| base := v; extension := extension e; mimeType := mimeType e;
     quality := quality e; framerate := framerate e; supported := supported e;
     stream := stream e; recorder := recorder e; chunks := chunks e;
     canvas := canvas e; firstFrame := firstFrame e |}.

Definition set_stream (v : bool) (e : t) : t :=
  {| base := base e; extension := extension e; mimeType := mimeType e;
     quality := quality e; framerate := framerate e; supported := supported e;
     stream := v; recorder := recorder e; chunks := chunks e;
     canvas := canvas e; firstFrame := firstFrame e |}.

Definition set_recorder (v : option Recorder) (e : t) : t :=
  {| base := base e; extension := extension e; mimeType := mimeType e;
     quality := quality e; framerate := framerate e; supported := supported e;
     stream := stream e; recorder := v; chunks := chunks e;
     canvas := canvas e; firstFrame := firstFrame e |}.

Definition set_chunks (v : list Bytes) (e : t) : t :=
  {| base := base e; extension := extension e; mimeType := mimeType e;
     quality := quality e; framerate := framerate e; supported := supported e;
     stream := stream e; recorder := recorder e; chunks := v;
     canvas := canvas e; firstFrame := firstFrame e |}.

Definition set_canvas (v : option (nat * nat)) (e : t) : t :=
  {| base := base e; extension := extension e; mimeType := mimeType e;
     quality := quality e; framerate := framerate e; supported := supported e;
     stream := stream e; recorder := recorder e; chunks := chunks e;
     canvas := v; firstFrame := firstFrame e |}.

Definition set_firstFrame (v : bool) (e : t) : t :=
  {| base := base e; extension := extension e; mimeType := mimeType e;
     quality := quality e; framerate := framerate e; supported := supported e;
     stream := stream e; recorder := recorder e; chunks := chunks e;
     canvas := canvas e; firstFrame := v |}.

(** constructor(settings) *)
Definition constructor (G : Globals) (s : Settings) : t :=
  {| base := DCFrameEncoder.constructor s;
     extension := ".webm";
     mimeType := "video/webm";
     quality := Qor (settings_quality s) (95 # 100);
     framerate := Qor (settings_framerate s) 60;
     supported := hasMediaRecorder G;
     stream := false;
     recorder := None;
     chunks := [];
     canvas := None;
     firstFrame := true |}.

Definition emit (event : string) (data : Payload) (e : t) : Outcome t :=
  lift (fun b => set_base b e) (DCFrameEncoder.emit event data (base e)).

Definition step (e : t) : Outcome t := emit "step" Undefined e.

(** The options chosen by the inner try block of start. *)
Definition negotiate (G : Globals) (e : t) : Recorder :=
  if hasMediaRecorder G then
    let m := "video/webm;codecs=vp9" in
    let m := if isTypeSupported G m then m else "video/webm;codecs=vp8" in
    let m := if isTypeSupported G m then m else "video/webm" in
    {| options_mimeType := m;
       videoBitsPerSecond := Some (5000000 * quality e)%Q;
       active := false |}
  else
    {| options_mimeType := "video/webm"; videoBitsPerSecond := None; active := false |}.

(** start() *)
Definition start (G : Globals) (e : t) : Outcome t :=
  if negb (supported e) then emit "error" (Str "MediaRecorder not supported") e
  else
    catch
      (let e := set_canvas (Some (300, 150)) e in
       let e := set_stream true e in
       let options := negotiate G e in
       if hasMediaRecorder G then
         let e := set_recorder
                    (Some {| options_mimeType := options_mimeType options;
                             videoBitsPerSecond := videoBitsPerSecond options;
                             active := true |}) e in
         let e := set_chunks [] e in
         emit "start" Undefined e
       else throw "ReferenceError: MediaRecorder is not defined" e)
      (fun e => emit "error" (Str "Error starting MediaRecorder") e).

(** add(inputCanvas) *)
Definition add (inputCanvas : Canvas) (e : t) : Outcome t :=
  match recorder e with
  | Some _ =>
      if negb (supported e) then ret e
      else
        catch
          ((if firstFrame e then
              match canvas e with
              | Some _ =>
                  let e := set_canvas
                             (Some (canvas_width inputCanvas, canvas_height inputCanvas)) e in
                  ret (set_firstFrame false e)
              | None => throw "TypeError: Cannot set properties of null" e
              end
            else ret e) >>> fun e =>
           match canvas e with
           | Some _ =>
               if drawable inputCanvas then step e else throw "drawImage failed" e
           | None => throw "TypeError: Cannot read properties of null" e
           end)
          (fun e => emit "error" (Str "Error adding frame") e)
  | None => ret e
  end.

(** Whether stop() returns a promise. *)
Definition stop_returns_promise (e : t) : bool :=
  supported e && bool_decide (is_Some (recorder e)).

(** stop(): the executor of the promise sets recorder.onstop and calls
    recorder.stop(), which fires 'stop' later unless the recorder was
    inactive already. *)
Definition stop (e : t) : Outcome t :=
  match recorder e with
  | Some r =>
      if negb (supported e) then ret e
      else if active r then
        mkOutcome None
          (set_recorder (Some {| options_mimeType := options_mimeType r;
                                 videoBitsPerSecond := videoBitsPerSecond r;
                                 active := false |}) e)
          [Requested RecorderStopped]
      else ret e
  | None => ret e
  end.

(** recorder.onstop, as set by stop; when it returns normally the promise
    of stop is resolved. *)
Definition onstop (e : t) : Outcome t :=
  match recorder e with
  | Some _ => emit "stop" Undefined e
  | None => throw "TypeError: Cannot read properties of null (reading 'requestData')" e
  end.

(** recorder.ondataavailable *)
Definition ondataavailable (data : Bytes) (e : t) : Outcome t :=
  match data with
  | [] => ret e
  | _ => ret (set_chunks (chunks e ++ [data]) e)
  end.

(** save(callback) *)
Definition save (callback : Callback) (e : t) : Outcome t :=
  match recorder e with
  | Some _ =>
      if negb (supported e) then emit "error" (Str "No recording available") e
      else
        catch
          (match chunks e with
           | [] => emit "error" (Str "No data recorded") e
           | _ =>
               match callback with
               | Fn id => effect (Delivered id (RecordedChunks (chunks e))) e
               | NoCallback => throw "TypeError: callback is not a function" e
               end
           end)
          (fun e => emit "error" (Str "Error saving recording") e)
  | None => emit "error" (Str "No recording available") e
  end.

(** dispose(): a recorder that is still active is stopped; it has no
    onstop handler, since stop() would have made it inactive. *)
Definition dispose (e : t) : Outcome t :=
  let e := set_recorder None e in
  let e := set_stream false e in
  let e := set_chunks [] e in
  let e := set_canvas None e in
  ret (set_firstFrame true e).

End DCMediaRecorderEncoder.

(** ** The encoder of a session: one of the five classes *)

Inductive Encoder :=
| MediaRecorderEncoder (e : DCMediaRecorderEncoder.t)
| PNGEncoder (e : DCPNGEncoder.t)
| JPEGEncoder (e : DCJPEGEncoder.t)
| GIFEncoder (e : DCGIFEncoder.t)
| WhammyEncoder (e : DCWhammyEncoder.t).

Module Encoder.

Definition base (enc : Encoder) : DCFrameEncoder.t :=
  match enc with
  | MediaRecorderEncoder e => DCMediaRecorderEncoder.base e
  | PNGEncoder e => DCTarEncoder.base (DCPNGEncoder.super e)
  | JPEGEncoder e => DCTarEncoder.base (DCJPEGEncoder.super e)
  | GIFEncoder e => DCGIFEncoder.base e
  | WhammyEncoder e => DCWhammyEncoder.base e
  end.

Definition set_base (b : DCFrameEncoder.t) (enc : Encoder) : Encoder :=
  match enc with
  | MediaRecorderEncoder e => MediaRecorderEncoder (DCMediaRecorderEncoder.set_base b e)
  | PNGEncoder e =>
      PNGEncoder (DCPNGEncoder.set_super (DCTarEncoder.set_base b (DCPNGEncoder.super e)) e)
  | JPEGEncoder e =>
      JPEGEncoder (DCJPEGEncoder.set_super (DCTarEncoder.set_base b (DCJPEGEncoder.super e)) e)
  | GIFEncoder e => GIFEncoder (DCGIFEncoder.set_base b e)
  | WhammyEncoder e => WhammyEncoder (DCWhammyEncoder.set_base b e)
  end.

(** encoder.on(event, callback): inherited from DCFrameEncoder by all. *)
Definition on (event : string) (callback : Handler) (enc : Encoder) : Encoder :=
  set_base (DCFrameEncoder.on event callback (base enc)) enc.

(** encoder.start() *)
Definition start (G : Globals) (enc : Encoder) : Outcome Encoder :=
  match enc with
  | MediaRecorderEncoder e => lift MediaRecorderEncoder (DCMediaRecorderEncoder.start G e)
  | PNGEncoder e =>
      lift (fun s => PNGEncoder (DCPNGEncoder.set_super s e))
           (DCTarEncoder.start G (DCPNGEncoder.super e))
  | JPEGEncoder e =>
      lift (fun s => JPEGEncoder (DCJPEGEncoder.set_super s e))
           (DCTarEncoder.start G (DCJPEGEncoder.super e))
  | GIFEncoder e => lift GIFEncoder (DCGIFEncoder.start G e)
  | WhammyEncoder e => lift WhammyEncoder (DCWhammyEncoder.start G e)
  end.

(** encoder.add(canvas) *)
Definition add (canvas : Canvas) (enc : Encoder) : Outcome Encoder :=
  match enc with
  | MediaRecorderEncoder e => lift MediaRecorderEncoder (DCMediaRecorderEncoder.add canvas e)
  | PNGEncoder e => lift PNGEncoder (DCPNGEncoder.add canvas e)
  | JPEGEncoder e => lift JPEGEncoder (DCJPEGEncoder.add canvas e)
  | GIFEncoder e => lift GIFEncoder (DCGIFEncoder.add canvas e)
  | WhammyEncoder e => lift WhammyEncoder (DCWhammyEncoder.add canvas e)
  end.

(** encoder.stop(); the archive encoders inherit it from DCFrameEncoder. *)
Definition stop (enc : Encoder) : Outcome Encoder :=
  match enc with
  | MediaRecorderEncoder e => lift MediaRecorderEncoder (DCMediaRecorderEncoder.stop e)
  | PNGEncoder _ | JPEGEncoder _ =>
      lift (fun b => set_base b enc) (DCFrameEncoder.stop (base enc))
  | GIFEncoder e => lift GIFEncoder (DCGIFEncoder.stop e)
  | WhammyEncoder e => lift WhammyEncoder (DCWhammyEncoder.stop e)
  end.

(** [encoder.stop() instanceof Promise] *)
Definition stop_returns_promise (enc : Encoder) : bool :=
  match enc with
  | MediaRecorderEncoder e => DCMediaRecorderEncoder.stop_returns_promise e
  | _ => false
  end.

(** encoder.save(callback) *)
Definition save (callback : Callback) (enc : Encoder) : Outcome Encoder :=
  match enc with
  | MediaRecorderEncoder e => lift MediaRecorderEncoder (DCMediaRecorderEncoder.save callback e)
  | PNGEncoder e =>
      lift (fun s => PNGEncoder (DCPNGEncoder.set_super s e))
           (DCTarEncoder.save (DCTarEncoder.call callback) (DCPNGEncoder.super e))
  | JPEGEncoder e =>
      lift (fun s => JPEGEncoder (DCJPEGEncoder.set_super s e))
           (DCTarEncoder.save (DCTarEncoder.call callback) (DCJPEGEncoder.super e))
  | GIFEncoder e => lift GIFEncoder (DCGIFEncoder.save callback e)
  | WhammyEncoder e => lift WhammyEncoder (DCWhammyEncoder.save callback e)
  end.

(** encoder.dispose() *)
Definition dispose (G : Globals) (enc : Encoder) : Outcome Encoder :=
  match enc with
  | MediaRecorderEncoder e => lift MediaRecorderEncoder (DCMediaRecorderEncoder.dispose e)
  | PNGEncoder e =>
      lift (fun s => PNGEncoder (DCPNGEncoder.set_super s e))
           (DCTarEncoder.dispose G (DCPNGEncoder.super e))
  | JPEGEncoder e =>
      lift (fun s => JPEGEncoder (DCJPEGEncoder.set_super s e))
           (DCTarEncoder.dispose G (DCJPEGEncoder.super e))
  | GIFEncoder e => lift GIFEncoder (DCGIFEncoder.dispose e)
  | WhammyEncoder e => lift WhammyEncoder (DCWhammyEncoder.dispose e)
  end.

(** A task of the browser completes: the callback it was given runs on the
    encoder that asked for it. *)
Definition complete (G : Globals) (task : Task) (enc : Encoder) : Outcome Encoder :=
  match task, enc with
  | ToBlobCallback blob, PNGEncoder e => lift PNGEncoder (DCPNGEncoder.toBlob_callback blob e)
  | ToBlobCallback blob, JPEGEncoder e => lift JPEGEncoder (DCJPEGEncoder.toBlob_callback blob e)
  | FileReaderLoad result, PNGEncoder e =>
      lift (fun s => PNGEncoder (DCPNGEncoder.set_super s e))
           (DCTarEncoder.onload G result (DCPNGEncoder.super e))
  | FileReaderLoad result, JPEGEncoder e =>
      lift (fun s => JPEGEncoder (DCJPEGEncoder.set_super s e))
           (DCTarEncoder.onload G result (DCJPEGEncoder.super e))
  | FileReaderError, PNGEncoder e =>
      lift (fun s => PNGEncoder (DCPNGEncoder.set_super s e))
           (DCTarEncoder.onerror (DCPNGEncoder.super e))
  | FileReaderError, JPEGEncoder e =>
      lift (fun s => JPEGEncoder (DCJPEGEncoder.set_super s e))
           (DCTarEncoder.onerror (DCJPEGEncoder.super e))
  | RecorderStopped, MediaRecorderEncoder e =>
      lift MediaRecorderEncoder (DCMediaRecorderEncoder.onstop e)
  | GifFinished blob, GIFEncoder e => lift GIFEncoder (DCGIFEncoder.on_finished blob e)
  | _, _ => ret enc
  end.

End Encoder.

(** ** DCapture.js *)

(** The settings argument of the constructor: every field is optional. *)
Record Options := {
  opt_framerate : option Q;
  opt_verbose : option bool;
  opt_display : option bool;
  opt_motionBlurFrames : option Q;
  opt_quality : option Q;
  opt_format : option string;
  opt_workersPath : option string;
  opt_timeLimit : option Q;
  opt_frameLimit : option Q;
  opt_autoSaveTime : option Q;
  opt_onProgress : option nat
}.

Definition no_options : Options := {|
  opt_framerate := None; opt_verbose := None; opt_display := None;
  opt_motionBlurFrames := None; opt_quality := None; opt_format := None;
  opt_workersPath := None; opt_timeLimit := None; opt_frameLimit := None;
  opt_autoSaveTime := None; opt_onProgress := None
|}.

(** Object.assign(target, source) *)
Definition assign (target : Settings) (source : Options) : Settings := {|
  framerate := default (framerate target) (opt_framerate source);
  verbose := default (verbose target) (opt_verbose source);
  display := default (display target) (opt_display source);
  motionBlurFrames := default (motionBlurFrames target) (opt_motionBlurFrames source);
  quality := default (quality target) (opt_quality source);
  format := default (format target) (opt_format source);
  workersPath := default (workersPath target) (opt_workersPath source);
  timeLimit := default (timeLimit target) (opt_timeLimit source);
  frameLimit := default (frameLimit target) (opt_frameLimit source);
  autoSaveTime := default (autoSaveTime target) (opt_autoSaveTime source);
  onProgress := match opt_onProgress source with
                | Some f => Some f
                | None => onProgress target
                end
|}.

Module DCapture.

(** What the status element shows. *)
Inductive Info :=
| Awaiting                                              (* 'Awaiting capture...' *)
| Status (format : string) (frames : nat) (elapsed : Z).  (* elapsed in ms *)

(** The elements made by createDisplay. *)
Record Display := {
  backgroundColor : string;
  info : Info;
  progress : Q;             (* width of the bar, in percent *)
  attached : bool           (* display.parentNode *)
}.

(** The fields the methods read; [date], [deltaTime], [totalFrames],
    [frameCount], [paused], [closed] and [stepCallback] are only ever
    initialised. *)
Record t := {
  settings : Settings;
  startTime : Z;
  frames : nat;
  startCallback : Callback;
  stopped : bool;
  encoder : option Encoder;
  display : option Display
}.

Definition set_startTime (v : Z) (d : t) : t :=
  {| settings := settings d; startTime := v; frames := frames d;
     startCallback := startCallback d; stopped := stopped d;
     encoder := encoder d; display := display d |}.

Definition set_frames (v : nat) (d : t) : t :=
  {| settings := settings d; startTime := startTime d; frames := v;
     startCallback := startCallback d; stopped := stopped d;
     encoder := encoder d; display := display d |}.

Definition set_startCallback (v : Callback) (d : t) : t :=
  {| settings := settings d; startTime := startTime d; frames := frames d;
     startCallback := v; stopped := stopped d;
     encoder := encoder d; display := display d |}.

Definition set_stopped (v : bool) (d : t) : t :=
  {| settings := settings d; startTime := startTime d; frames := frames d;
     startCallback := startCallback d; stopped := v;
     encoder := encoder d; display := display d |}.

Definition set_encoder (v : option Encoder) (d : t) : t :=
  {| settings := settings d; startTime := startTime d; frames := frames d;
     startCallback := startCallback d; stopped := stopped d;
     encoder := v; display := display d |}.

Definition set_display (v : option Display) (d : t) : t :=
  {| settings := settings d; startTime := startTime d; frames := frames d;
     startCallback := startCallback d; stopped := stopped d;
     encoder := encoder d; display := v |}.

(** attachEncoderEvents() *)
Definition attachEncoderEvents (enc : Encoder) : Encoder :=
  Encoder.on "error" LogEncoderError (Encoder.on "progress" RelayProgress enc).

(** createEncoder(): the encoder for [settings.format], listened to. *)
Definition createEncoder (G : Globals) (s : Settings) : Constructed Encoder :=
  let made :=
    if String.eqb (format s) "webm-mediarecorder" then
      Built (MediaRecorderEncoder (DCMediaRecorderEncoder.constructor G s))
    else if String.eqb (format s) "png" then
      Built (PNGEncoder (DCPNGEncoder.constructor s))
    else if String.eqb (format s) "jpg" || String.eqb (format s) "jpeg" then
      Built (JPEGEncoder (DCJPEGEncoder.constructor s))
    else if String.eqb (format s) "gif" then
      Built (GIFEncoder (DCGIFEncoder.constructor s))
    else
      match DCWhammyEncoder.constructor G s with
      | Built e => Built (WhammyEncoder e)
      | Failed msg => Failed msg
      end in
  match made with
  | Built enc => Built (attachEncoderEvents enc)
  | Failed msg => Failed msg
  end.

(** createDisplay() *)
Definition createDisplay : Display :=
  {| backgroundColor := "rgba(0, 0, 0, 0.5)"; info := Awaiting;
     progress := 0; attached := true |}.

(** constructor(settings = {}) *)
Definition constructor (G : Globals) (options : Options) : Constructed t :=
  let s := assign defaults options in
  match createEncoder G s with
  | Failed msg => Failed msg
  | Built enc =>
      Built {| settings := s; startTime := 0; frames := 0;
               startCallback := NoCallback; stopped := false;
               encoder := Some enc;
               display := if settings_display s then Some createDisplay else None |}
  end.

(** updateDisplayInfo(), with the reading of the clock *)
Definition updateDisplayInfo (now : Z) (d : t) : t :=
  match display d with
  | Some el =>
      set_display
        (Some {| backgroundColor := backgroundColor el;
                 info := Status (format (settings d)) (frames d) (now - startTime d);
                 progress := progress el; attached := attached el |}) d
  | None => d
  end.

(** updateProgress(progress) *)
Definition updateProgress (p : Q) (d : t) : t :=
  match display d with
  | Some el =>
      set_display
        (Some {| backgroundColor := backgroundColor el; info := info el;
                 progress := p * 100; attached := attached el |}) d
  | None => d
  end.

(** A method of the encoder called on [this.encoder]; a TypeError when the
    field is null. *)
Definition on_encoder (m : Encoder -> Outcome Encoder) (d : t) : Outcome t :=
  match encoder d with
  | Some enc => lift (fun enc => set_encoder (Some enc) d) (m enc)
  | None => throw "TypeError: Cannot read properties of null" d
  end.

(** start(callback), with the reading of the clock *)
Definition start (G : Globals) (now : Z) (callback : Callback) (d : t) : Outcome t :=
  let d := set_startTime now d in
  let d := set_frames 0 d in
  let d := set_startCallback callback d in
  on_encoder (fun enc => effect EncoderStart enc >>> Encoder.start G) d >>> fun d =>
  match callback with
  | Fn id => effect (Called id) d
  | NoCallback => ret d
  end.

(** stop(), followed by the reactions [rest] chained on the promise it
    returns. *)
Definition stop_then (rest : list Stage) (d : t) : Outcome t :=
  effect (Scheduled ([StopEncoder; LogStopped] ++ rest)) (set_stopped true d).

Definition stop (d : t) : Outcome t := stop_then [] d.

(** captureMotionBlur(canvas) *)
Definition captureMotionBlur (canvas : Canvas) (d : t) : Outcome t :=
  let d := set_frames (frames d + 1) d in
  on_encoder (fun enc => effect (EncoderAdd canvas) enc >>> Encoder.add canvas) d.

(** capture(canvas), with the reading of the clock *)
Definition capture (now : Z) (canvas : Canvas) (d : t) : Outcome t :=
  if stopped d then ret d
  else
    match encoder d with
    | None => throw "No encoder available" d
    | Some _ =>
        if Qltb 1 (motionBlurFrames (settings d)) then captureMotionBlur canvas d
        else
          let d := set_frames (frames d + 1) d in
          on_encoder (fun enc => effect (EncoderAdd canvas) enc >>> Encoder.add canvas) d
          >>> fun d =>
          let d := if settings_display (settings d) then updateDisplayInfo now d else d in
          (if Qltb 0 (timeLimit (settings d))
              && Qle_bool (timeLimit (settings d)) (inject_Z (now - startTime d) / 1000)
           then stop_then [Save] d else ret d) >>> fun d =>
          if Qltb 0 (frameLimit (settings d))
             && Qle_bool (frameLimit (settings d)) (inject_Z (Z.of_nat (frames d)))
          then stop_then [Save] d else ret d
    end.

(** save(callback) *)
Definition save (callback : Callback) (d : t) : Outcome t :=
  match encoder d with
  | None => throw "No encoder available" d
  | Some _ =>
      on_encoder (fun enc => effect (EncoderSave callback) enc >>> Encoder.save callback) d
  end.

(** dispose(), up to the point where the fields are cleared *)
Definition dispose_encoder (G : Globals) (d : t) : Outcome t :=
  let d :=
    match display d with
    | Some el =>
        set_display (Some {| backgroundColor := backgroundColor el; info := info el;
                             progress := progress el; attached := false |}) d
    | None => d
    end in
  match encoder d with
  | Some _ => on_encoder (fun enc => effect EncoderDispose enc >>> Encoder.dispose G) d
  | None => ret d
  end.

(** dispose() *)
Definition dispose (G : Globals) (d : t) : Outcome t :=
  dispose_encoder G d >>> fun d => ret (set_display None (set_encoder None d)).

(** One reaction of the promise chain of stop. *)
Definition react (stage : Stage) (d : t) : Outcome t :=
  match stage with
  | StopEncoder => on_encoder (fun enc => effect EncoderStop enc >>> Encoder.stop) d
  | LogStopped =>
      match display d with
      | Some el =>
          ret (set_display
                 (Some {| backgroundColor := "rgba(45, 145, 45, 0.5)"; info := info el;
                          progress := progress el; attached := attached el |}) d)
      | None => ret d
      end
  | Save => save NoCallback d
  end.

(** The listeners attached by attachEncoderEvents, run for the calls in
    the effects of an encoder. *)
Fixpoint relay (calls : list Effect) (d : t) : Outcome t :=
  match calls with
  | [] => ret d
  | Invoked RelayProgress (Num p) :: calls =>
      (match onProgress (settings d) with
       | Some f => effect (Progress f (Num p)) d
       | None => ret d
       end) >>> fun d => ret (updateProgress p d) >>> relay calls
  | _ :: calls => relay calls d
  end.

End DCapture.

(** ** The page: a capturer, the event loop, and what was observed *)

Module Browser.

Record World := {
  globals : Globals;
  capturer : DCapture.t;
  detached : option Encoder;        (* the encoder of a disposed capturer, still
                                       referred to by pending callbacks *)
  microtasks : list (list Stage);   (* promise chains whose next reaction is ready *)
  parked : option (list Stage);     (* the chain waiting for recorder.onstop *)
  tasks : list Task;                (* work the browser has not completed yet *)
  log : list Effect                 (* everything observed so far, oldest first *)
}.

(** What a script, a callback or the browser itself does next. *)
Inductive Action :=
| Start (now : Z) (callback : Callback)     (* capturer.start(callback) *)
| Capture (now : Z) (canvas : Canvas)       (* capturer.capture(canvas) *)
| Stop                                      (* capturer.stop() *)
| SaveTo (callback : Callback)              (* capturer.save(callback) *)
| Dispose                                   (* capturer.dispose() *)
| Tick                                      (* the oldest ready reaction runs *)
| Turn (i : nat)                            (* the i-th pending task completes *)
| Fail (i : nat)                            (* the i-th pending task, a read, fails *)
| RecorderData (chunk : Bytes)              (* the recorder has data *)
| GifProgress (p : Q).                      (* the renderer reports progress *)

Definition load (G : Globals) (d : DCapture.t) : World :=
  {| globals := G; capturer := d; detached := None; microtasks := [];
     parked := None; tasks := []; log := [] |}.

Definition requested (effs : list Effect) : list Task :=
  omap (fun e => match e with Requested t => Some t | _ => None end) effs.

Definition scheduled (effs : list Effect) : list (list Stage) :=
  omap (fun e => match e with Scheduled c => Some c | _ => None end) effs.

(** The world after a call on the capturer: the exception, if any, goes to
    [report]. *)
Definition after (report : string -> Effect) (o : Outcome DCapture.t) (w : World) : World :=
  {| globals := globals w;
     capturer := final o;
     detached := detached w;
     microtasks := microtasks w ++ scheduled (effects o);
     parked := parked w;
     tasks := tasks w ++ requested (effects o);
     log := log w ++ effects o
            ++ match thrown o with Some msg => [report msg] | None => [] end |}.

Definition set_detached (v : option Encoder) (w : World) : World :=
  {| globals := globals w; capturer := capturer w; detached := v;
     microtasks := microtasks w; parked := parked w; tasks := tasks w;
     log := log w |}.

Definition set_microtasks (v : list (list Stage)) (w : World) : World :=
  {| globals := globals w; capturer := capturer w; detached := detached w;
     microtasks := v; parked := parked w; tasks := tasks w; log := log w |}.

Definition set_parked (v : option (list Stage)) (w : World) : World :=
  {| globals := globals w; capturer := capturer w; detached := detached w;
     microtasks := microtasks w; parked := v; tasks := tasks w; log := log w |}.

Definition set_tasks (v : list Task) (w : World) : World :=
  {| globals := globals w; capturer := capturer w; detached := detached w;
     microtasks := microtasks w; parked := parked w; tasks := v; log := log w |}.

(** The encoder object a pending callback refers to: the encoder of the
    capturer, or the detached one after dispose. *)
Definition target (w : World) : option Encoder :=
  match DCapture.encoder (capturer w) with
  | Some enc => Some enc
  | None => detached w
  end.

(** The listeners of the capturer hear what the encoder emitted. *)
Definition heard (o : Outcome Encoder) (d : DCapture.t) : Outcome DCapture.t :=
  let r := DCapture.relay (effects o) d in
  mkOutcome (thrown o) (final r) (effects o ++ effects r).

(** A callback of the encoder runs. *)
Definition encoder_event (m : Encoder -> Outcome Encoder) (w : World) : World :=
  match DCapture.encoder (capturer w) with
  | Some enc =>
      let o := m enc in
      after Unhandled (heard o (DCapture.set_encoder (Some (final o)) (capturer w))) w
  | None =>
      match detached w with
      | Some enc =>
          let o := m enc in
          set_detached (Some (final o)) (after Unhandled (heard o (capturer w)) w)
      | None => w
      end
  end.

(** The oldest ready reaction of a promise chain runs; the chain goes on
    after it unless the reaction threw, and waits for the recorder when
    the reaction returned its promise. *)
Definition tick (w : World) : World :=
  match microtasks w with
  | [] => w
  | [] :: chains => set_microtasks chains w
  | (stage :: rest) :: chains =>
      let waits :=
        match stage, DCapture.encoder (capturer w) with
        | StopEncoder, Some enc => Encoder.stop_returns_promise enc
        | _, _ => false
        end in
      let o := DCapture.react stage (capturer w) in
      let w := after Unhandled o (set_microtasks chains w) in
      match thrown o with
      | Some _ => w
      | None =>
          if waits then set_parked (Some rest) w
          else set_microtasks (microtasks w ++ [rest]) w
      end
  end.

(** The i-th pending task completes with [task]; recorder.onstop resolves
    the promise of stop when it returns normally. *)
Definition turn (i : nat) (task : Task) (w : World) : World :=
  let w := set_tasks (take i (tasks w) ++ drop (S i) (tasks w)) w in
  let threw :=
    match target w with
    | Some enc => thrown (Encoder.complete (globals w) task enc)
    | None => None
    end in
  let w := encoder_event (Encoder.complete (globals w) task) w in
  match task, parked w, threw with
  | RecorderStopped, Some rest, None =>
      set_parked None (set_microtasks (microtasks w ++ [rest]) w)
  | _, _, _ => w
  end.

Definition perform (a : Action) (w : World) : World :=
  match a with
  | Start now callback =>
      after Raised (DCapture.start (globals w) now callback (capturer w)) w
  | Capture now canvas => after Raised (DCapture.capture now canvas (capturer w)) w
  | Stop => after Raised (DCapture.stop (capturer w)) w
  | SaveTo callback => after Raised (DCapture.save callback (capturer w)) w
  | Dispose =>
      let o := DCapture.dispose_encoder (globals w) (capturer w) in
      let w := match DCapture.encoder (final o) with
               | Some enc => set_detached (Some enc) w
               | None => w
               end in
      after Raised (DCapture.dispose (globals w) (capturer w)) w
  | Tick => tick w
  | Turn i =>
      match tasks w !! i with
      | Some task => turn i task w
      | None => w
      end
  | Fail i =>
      match tasks w !! i with
      | Some (FileReaderLoad _) => turn i FileReaderError w
      | _ => w
      end
  | RecorderData chunk =>
      encoder_event
        (fun enc =>
           match enc with
           | MediaRecorderEncoder e =>
               if bool_decide (is_Some (DCMediaRecorderEncoder.recorder e))
               then lift MediaRecorderEncoder (DCMediaRecorderEncoder.ondataavailable chunk e)
               else ret enc
           | _ => ret enc
           end) w
  | GifProgress p =>
      encoder_event
        (fun enc =>
           match enc with
           | GIFEncoder e => lift GIFEncoder (DCGIFEncoder.on_progress p e)
           | _ => ret enc
           end) w
  end.

(** The actions run in order. *)
Definition run (actions : list Action) (w : World) : World :=
  fold_left (fun w a => perform a w) actions w.

(** Every ready reaction and every pending task is run, oldest first, for
    at most [fuel] steps each round. *)
Fixpoint settle (fuel : nat) (w : World) : World :=
  match fuel with
  | 0 => w
  | S fuel =>
      match microtasks w, tasks w with
      | _ :: _, _ => settle fuel (perform Tick w)
      | [], _ :: _ => settle fuel (perform (Turn 0) w)
      | [], [] => w
      end
  end.

(** The artifacts handed out so far: to save callbacks and to download. *)
Definition artifacts (effs : list Effect) : list Artifact :=
  omap (fun e => match e with
                 | Delivered _ a => Some a
                 | Downloaded a _ _ => Some a
                 | _ => None
                 end) effs.

End Browser.

Import Browser.

(** * Notions used by the statements *)

Definition listening (event : string) (e : DCFrameEncoder.t) : list Handler :=
  default [] (DCFrameEncoder.eventListeners e !! event).



Inductive ReadEvent := Loaded (result : Bytes) | ReadFailed.

Definition read (G : Globals) (ev : ReadEvent) (e : DCTarEncoder.t) : Outcome DCTarEncoder.t :=
  match ev with
  | Loaded result => DCTarEncoder.onload G result e
  | ReadFailed => DCTarEncoder.onerror e
  end.

Fixpoint reads (G : Globals) (evs : list ReadEvent) (e : DCTarEncoder.t) : Outcome DCTarEncoder.t :=
  match evs with
  | [] => ret e
  | ev :: evs => read G ev e >>> reads G evs
  end.

Definition entry_name (ext : string) (n : nat) : string := pad n 6 +:+ ext.

Definition archive_names (a : Artifact) : list string :=
  match a with
  | TarArchive entries => map fst entries
  | _ => []
  end.

Definition rotates (e : DCTarEncoder.t) : bool :=
  Qltb 0 (autoSaveTime (DCTarEncoder.settings e))
  && quotient_reaches (DCTarEncoder.frames e) (framerate (DCTarEncoder.settings e))
                      (autoSaveTime (DCTarEncoder.settings e)).

(** The archive being written holds exactly the entries named by the
    counters from [k] up to [count]. *)
Definition writing (ext : string) (k : nat) (e : DCTarEncoder.t) : Prop :=
  exists tp,
    DCTarEncoder.tape e = Some tp
    /\ DCTarEncoder.fileExtension e = ext
    /\ DCTarEncoder.count e = k + length tp
    /\ map fst tp = map (entry_name ext) (seq k (length tp)).

Definition contiguous (ext : string) (names : list string) : Prop :=
  exists k, names = map (entry_name ext) (seq k (length names)).

Fixpoint loaded (evs : list ReadEvent) : nat :=
  match evs with
  | [] => 0
  | Loaded _ :: evs => S (loaded evs)
  | ReadFailed :: evs => loaded evs
  end.

(** The names in the archives handed out, oldest first. *)
Definition handed_out (effs : list Effect) : list (list string) :=
  map archive_names (Browser.artifacts effs).


(** Effects an encoder has on its own: events, callbacks, requests. *)
Definition internal (e : Effect) : bool :=
  match e with
  | Emitted _ _ | Invoked _ _ | Delivered _ _ | Downloaded _ _ _ | Requested _ => true
  | _ => false
  end.

(** Effects that ask nothing more of the browser. *)
Definition answer (e : Effect) : bool :=
  match e with
  | Emitted _ _ | Invoked _ _ | Delivered _ _ | Downloaded _ _ _ => true
  | _ => false
  end.

(** Every effect of the call is of the kind [P]. *)
Definition only (P : Effect -> bool) {S} (o : Outcome S) : Prop :=
  Forall (fun e => P e = true) (effects o).

(** The call has only effects an encoder has on its own. *)
Definition quiet {S} (o : Outcome S) : Prop := only internal o.

Definition total {S} (o : Outcome S) : Prop := thrown o = None.

(** The canvases passed to encoder.add, in order. *)
Definition adds (effs : list Effect) : list Canvas :=
  omap (fun e => match e with EncoderAdd c => Some c | _ => None end) effs.

(** Effects that are neither a call of encoder.add, nor a scheduled chain,
    nor an exception thrown to the caller. *)
Definition gentle (e : Effect) : bool :=
  match e with
  | EncoderAdd _ | Scheduled _ | Raised _ => false
  | _ => true
  end.

Definition raised (effs : list Effect) : list string :=
  omap (fun e => match e with Raised msg => Some msg | _ => None end) effs.

(** The limits, as capture evaluates them once the frame is counted. *)
Definition time_up (now : Z) (d : DCapture.t) : bool :=
  Qltb 0 (timeLimit (DCapture.settings d))
  && Qle_bool (timeLimit (DCapture.settings d))
              (inject_Z (now - DCapture.startTime d) / 1000).

Definition frame_up (d : DCapture.t) : bool :=
  Qltb 0 (frameLimit (DCapture.settings d))
  && Qle_bool (frameLimit (DCapture.settings d))
              (inject_Z (Z.of_nat (DCapture.frames d + 1))).

Definition blurred (d : DCapture.t) : bool :=
  Qltb 1 (motionBlurFrames (DCapture.settings d)).

(** The capturer is the same up to its encoder and its display. *)
Definition steady (d d' : DCapture.t) : Prop :=
  DCapture.stopped d' = DCapture.stopped d
  /\ DCapture.frames d' = DCapture.frames d
  /\ DCapture.settings d' = DCapture.settings d
  /\ DCapture.startTime d' = DCapture.startTime d
  /\ (is_Some (DCapture.encoder d) -> is_Some (DCapture.encoder d')).

Definition passive (d : DCapture.t) (o : Outcome DCapture.t) : Prop :=
  steady d (final o) /\ Forall (fun e => gentle e = true) (effects o).

(** Turns of the event loop and events of the browser. *)
Definition background (a : Action) : bool :=
  match a with
  | Tick | Turn _ | Fail _ | RecorderData _ | GifProgress _ => true
  | _ => false
  end.

(** The world changed only by a passive step of the capturer. *)
Definition undisturbed (w w' : World) : Prop :=
  globals w' = globals w
  /\ steady (capturer w) (capturer w')
  /\ exists l, log w' = log w ++ l /\ Forall (fun e => gentle e = true) l.

Definition observed (a : Action) : bool :=
  match a with
  | Capture _ _ => true
  | _ => background a
  end.

Definition captured (acts : list Action) : list Canvas :=
  omap (fun a => match a with Capture _ c => Some c | _ => None end) acts.

(** The frame limit is not reached by any count up to [N]. *)
Definition below_limit (s : Settings) (N : nat) : Prop :=
  forall n, n <= N ->
    Qltb 0 (frameLimit s) && Qle_bool (frameLimit s) (inject_Z (Z.of_nat n)) = false.

(** What createEncoder needs for each format. *)
Definition backend_available (G : Globals) (fmt : string) : bool :=
  if String.eqb fmt "webm-mediarecorder" then hasMediaRecorder G
  else if String.eqb fmt "png" || String.eqb fmt "jpg" || String.eqb fmt "jpeg" then hasTar G
  else if String.eqb fmt "gif" then hasGIF G
  else hasWhammy G.

(** The formats whose encoder is built without its backend. *)
Definition degrades (fmt : string) : bool :=
  String.eqb fmt "webm-mediarecorder" || String.eqb fmt "png" || String.eqb fmt "jpg"
  || String.eqb fmt "jpeg" || String.eqb fmt "gif".

(** The backend the encoder needs is missing. *)
Definition lacks_backend (G : Globals) (enc : Encoder) : Prop :=
  match enc with
  | MediaRecorderEncoder e => DCMediaRecorderEncoder.supported e = false
  | PNGEncoder _ | JPEGEncoder _ => hasTar G = false
  | GIFEncoder _ => hasGIF G = false
  | WhammyEncoder _ => hasWhammy G = false
  end.

(** The archive encoder inside an image-sequence encoder. *)
Definition archive (enc : Encoder) : option DCTarEncoder.t :=
  match enc with
  | PNGEncoder e => Some (DCPNGEncoder.super e)
  | JPEGEncoder e => Some (DCJPEGEncoder.super e)
  | _ => None
  end.

Definition archive_of (w : World) : option DCTarEncoder.t :=
  match DCapture.encoder (capturer w) with
  | Some enc => archive enc
  | None => None
  end.

(** What the encoder asks of the canvas in add. *)
Definition blob_of (enc : Encoder) (c : Canvas) : ToBlobResult :=
  match enc with
  | PNGEncoder e => toBlob c (DCPNGEncoder.type e) None
  | JPEGEncoder e => toBlob c (DCJPEGEncoder.type e) (Some (DCJPEGEncoder.quality e))
  | _ => ToBlobThrows
  end.

(** The callback of the archive encoder that a task runs. *)
Definition archive_step (G : Globals) (task : Task) (e : DCTarEncoder.t)
  : Outcome DCTarEncoder.t :=
  match task with
  | ToBlobCallback (Some b) => DCTarEncoder.add b e
  | ToBlobCallback None => DCTarEncoder.emit "error" (Str "Failed to create blob from canvas") e
  | FileReaderLoad result => DCTarEncoder.onload G result e
  | FileReaderError => DCTarEncoder.onerror e
  | _ => ret e
  end.

Definition is_progress (e : Effect) : bool :=
  match e with Progress _ _ => true | _ => false end.

(** The frames of a run of capture calls. *)
Definition captures (frames : list (Z * Canvas)) : list Action :=
  map (fun f => Capture (fst f) (snd f)) frames.

(** The formats written as an archive of images. *)
Definition is_archive (fmt : string) : bool :=
  String.eqb fmt "png" || String.eqb fmt "jpg" || String.eqb fmt "jpeg".

(** The extension of the entries. *)
Definition entry_extension (s : Settings) : string :=
  if String.eqb (format s) "png" then ".png" else ".jpg".

(** What the encoder of the session asks of a canvas. *)
Definition frame_blob (s : Settings) (c : Canvas) : ToBlobResult :=
  if String.eqb (format s) "png" then toBlob c "image/png" None
  else toBlob c "image/jpeg"
         (Some (if Qeq_bool (quality s) 0 then 95 # 100 else quality s / 100)%Q).

(** A whole session: start, the frames, the pending work of the browser,
    stop, the two reactions of its promise, save. *)
Definition session (now : Z) (frames : list (Z * Canvas)) (id : nat) (w : World) : World :=
  let w := run (Start now NoCallback :: captures frames) w in
  let w := settle (2 * length frames) w in
  run [Stop; Tick; Tick; SaveTo (Fn id)] w.


(** The counter an entry name stands for. *)
Definition counter_of (name : string) : option nat :=
  option_map Nat.of_uint (NilEmpty.uint_of_string name).

(** ** Inputs for the examples *)
Definition all_loaded : Globals :=
  {| hasTar := true; hasDownload := true; hasWhammy := true; hasGIF := true;
     hasMediaRecorder := true; isTypeSupported := fun _ => true |}.

Definition nothing_loaded : Globals :=
  {| hasTar := false; hasDownload := false; hasWhammy := false; hasGIF := false;
     hasMediaRecorder := false; isTypeSupported := fun _ => false |}.

(** A canvas that converts to the blob [b] whatever the type. *)
Definition plain_canvas (b : Bytes) : Canvas :=
  {| width := 4; height := 4; toBlob := fun _ _ => ToBlobCalls (Some b); drawable := true |}.

(** The capturer a constructor call built, for a call that did not throw. *)
Definition built (c : Constructed DCapture.t) : DCapture.t :=
  match c with
  | Built d => d
  | Failed _ =>
      {| DCapture.settings := defaults; DCapture.startTime := 0; DCapture.frames := 0;
         DCapture.startCallback := NoCallback; DCapture.stopped := false;
         DCapture.encoder := None; DCapture.display := None |}
  end.

(** { format: 'png', framerate: 10 } *)
Definition png_at_10 : Options :=
  {| opt_framerate := Some 10%Q; opt_verbose := None; opt_display := None;
     opt_motionBlurFrames := None; opt_quality := None; opt_format := Some "png";
     opt_workersPath := None; opt_timeLimit := None; opt_frameLimit := None;
     opt_autoSaveTime := None; opt_onProgress := None |}.

(** { format: 'png', framerate: 1, autoSaveTime: 1 } *)
Definition png_autosave : Options :=
  {| opt_framerate := Some 1%Q; opt_verbose := None; opt_display := None;
     opt_motionBlurFrames := None; opt_quality := None; opt_format := Some "png";
     opt_workersPath := None; opt_timeLimit := None; opt_frameLimit := None;
     opt_autoSaveTime := Some 1%Q; opt_onProgress := None |}.

(** { frameLimit: 3, timeLimit: 1 } *)
Definition both_limits : Options :=
  {| opt_framerate := None; opt_verbose := None; opt_display := None;
     opt_motionBlurFrames := None; opt_quality := None; opt_format := None;
     opt_workersPath := None; opt_timeLimit := Some 1%Q; opt_frameLimit := Some 3%Q;
     opt_autoSaveTime := None; opt_onProgress := None |}.

(** { frameLimit: 2 } *)
Definition two_frames : Options :=
  {| opt_framerate := None; opt_verbose := None; opt_display := None;
     opt_motionBlurFrames := None; opt_quality := None; opt_format := None;
     opt_workersPath := None; opt_timeLimit := None; opt_frameLimit := Some 2%Q;
     opt_autoSaveTime := None; opt_onProgress := None |}.

(** A script that makes the same kind of call once for each element, and
    stops at the first call that throws. *)
Fixpoint each {A S} (f : A -> S -> Outcome S) (xs : list A) (s : S) : Outcome S :=
  match xs with
  | [] => ret s
  | x :: xs => f x s >>> each f xs
  end.



(** The methods of an encoder, and the callbacks the browser runs on it. *)
Inductive Call :=
| CallStart
| CallAdd (canvas : Canvas)
| CallStop
| CallSave (callback : Callback)
| CallDispose
| CallBack (task : Task).

Definition invoke (G : Globals) (c : Call) (enc : Encoder) : Outcome Encoder :=
  match c with
  | CallStart => Encoder.start G enc
  | CallAdd canvas => Encoder.add canvas enc
  | CallStop => Encoder.stop enc
  | CallSave callback => Encoder.save callback enc
  | CallDispose => Encoder.dispose G enc
  | CallBack task => Encoder.complete G task enc
  end.

(** The error events among the effects, oldest first. *)
Definition errors (effs : list Effect) : list string :=
  omap (fun e => match e with Emitted "error" (Str msg) => Some msg | _ => None end) effs.

(** The GIF encoder is started: it has a renderer and a canvas of its own. *)
Definition gif_started (e : DCGIFEncoder.t) (gif : GIF.t) : Prop :=
  DCGIFEncoder.encoder e = Some gif /\ is_Some (DCGIFEncoder.canvas e).

(** The size a renderer has after the frames [cs] were offered to it. *)
Definition size_after (sizeSet : bool) (old : nat * nat) (cs : list Canvas) : nat * nat :=
  if sizeSet then old
  else match cs with
       | [] => old
       | c :: _ => (canvas_width c, canvas_height c)
       end.


(** A method call, as opposed to a callback run by the browser. *)
Definition is_method (c : Call) : bool :=
  match c with
  | CallBack _ => false
  | _ => true
  end.

(** The calls that make an unsupported recorder report an error. *)
Definition reports_unsupported (c : Call) : bool :=
  match c with
  | CallStart | CallSave _ => true
  | _ => false
  end.

(** The files handed to download, with their MIME types, oldest first. *)
Definition downloads (effs : list Effect) : list (string * string) :=
  omap (fun e => match e with Downloaded _ f m => Some (f, m) | _ => None end) effs.

(** The name under which the part [i] is downloaded. *)
Definition part_name (baseFilename : option string) (i : nat) : string :=
  js_str baseFilename +:+ "-part-" +:+ pad i 6 +:+ ".tar".

(** What add(canvas) of an image-sequence encoder reports when toBlob
    throws. *)
Definition capture_error (enc : Encoder) : string :=
  match enc with
  | PNGEncoder _ => "Error capturing canvas as PNG"
  | _ => "Error capturing canvas as JPEG"
  end.

(** The archive encoder downloads its parts under the base name [bf]. *)
Definition names_parts (bf : option string) (e : DCTarEncoder.t) : Prop :=
  DCTarEncoder.baseFilename e = bf
  /\ DCTarEncoder.extension e = ".tar"
  /\ DCTarEncoder.mimeType e = "application/x-tar"
  /\ is_Some (DCTarEncoder.tape e).

(** { format: 'png', display: true } *)
Definition png_with_display : Options :=
  {| opt_framerate := None; opt_verbose := None; opt_display := Some true;
     opt_motionBlurFrames := None; opt_quality := None; opt_format := Some "png";
     opt_workersPath := None; opt_timeLimit := None; opt_frameLimit := None;
     opt_autoSaveTime := None; opt_onProgress := None |}.



(** ** guid and setupPolyfills of DCFrameEncoder.js *)
(** n.toString(16) for a natural number *)
Definition toString16 (n : N) : string :=
  HexadecimalString.NilZero.string_of_uint (N.to_hex_uint n).

(** s.substring(k) *)
Definition substring_from (k : nat) (s : string) : string :=
  String.substring k (String.length s - k) s.

(** s4(), for the value [r] of Math.random(): the product by 0x10000 is
    exact, and the sum 1 + r is a number from 1 to 2, 2 included when the
    sum is rounded up. *)
Definition s4 (r : Q) : string :=
  substring_from 1 (toString16 (Z.to_N (Qfloor ((1 + r) * 65536)))).

(** guid(), for the values of the eight calls of Math.random() in the
    order they are made. *)
Definition guid (random : nat -> Q) : string :=
  s4 (random 0) +:+ s4 (random 1) +:+ "-" +:+ s4 (random 2) +:+ "-" +:+ s4 (random 3)
  +:+ "-" +:+ s4 (random 4) +:+ "-" +:+ s4 (random 5) +:+ s4 (random 6) +:+ s4 (random 7).

(** A digit of the lower-case hexadecimal notation. *)
Definition is_hex (a : ascii) : bool :=
  let n := nat_of_ascii a in
  (48 <=? n) && (n <=? 57) || (97 <=? n) && (n <=? 102).

(** Exactly four hexadecimal digits. *)
Definition four_hex (s : string) : bool :=
  match s with
  | String a (String b (String c (String d EmptyString))) =>
      is_hex a && is_hex b && is_hex c && is_hex d
  | _ => false
  end.

(** The positions of the dashes. *)
Definition is_dash_position (i : nat) : bool :=
  (i =? 8) || (i =? 13) || (i =? 18) || (i =? 23).

(** [P] holds of the [count] numbers from [n] on. *)
Fixpoint all_from (count : nat) (n : N) (P : N -> bool) : bool :=
  match count with
  | 0 => true
  | S count => P n && all_from count (N.succ n) P
  end.

(** The functions of [window] that setupPolyfills reads; a function is
    named by a number. *)
Inductive AnimationFrame :=
| Provided (f : nat)       (* a function found on window *)
| EverySixtieth.           (* callback => window.setTimeout(callback, 1000 / 60) *)

Record Window := {
  requestAnimationFrame : option AnimationFrame;
  webkitRequestAnimationFrame : option nat;
  mozRequestAnimationFrame : option nat;
  oRequestAnimationFrame : option nat;
  msRequestAnimationFrame : option nat
}.

(** [a || b], where [b] is always defined *)
Definition or_else (a : option nat) (b : AnimationFrame) : AnimationFrame :=
  match a with
  | Some f => Provided f
  | None => b
  end.

(** setupPolyfills() *)
Definition setupPolyfills (w : Window) : Window :=
  match requestAnimationFrame w with
  | Some _ => w
  | None =>
      {| requestAnimationFrame :=
           Some (or_else (webkitRequestAnimationFrame w)
                   (or_else (mozRequestAnimationFrame w)
                      (or_else (oRequestAnimationFrame w)
                         (or_else (msRequestAnimationFrame w) EverySixtieth))));
         webkitRequestAnimationFrame := webkitRequestAnimationFrame w;
         mozRequestAnimationFrame := mozRequestAnimationFrame w;
         oRequestAnimationFrame := oRequestAnimationFrame w;
         msRequestAnimationFrame := msRequestAnimationFrame w |}
  end.

(** The effects of the capture calls for the frames [cs], as logged. *)
Fixpoint logged_adds (cs : list Canvas) (enc : Encoder) : list Effect :=
  match cs with
  | [] => []
  | c :: cs =>
      EncoderAdd c :: effects (Encoder.add c enc)
      ++ logged_adds cs (final (Encoder.add c enc))
  end.

(** A canvas the libraries reject and toBlob throws on. *)
Definition tainted_canvas : Canvas :=
  {| width := 2; height := 3; toBlob := fun _ _ => ToBlobThrows; drawable := false |}.

(** Anything but a call of a save callback. *)
Definition undelivered (e : Effect) : bool :=
  match e with
  | Delivered _ _ => false
  | _ => true
  end.

(** A listener of the renderer that calls a function of the caller. *)
Definition expects (l : GIF.Listener) : bool :=
  match l with
  | GIF.DeliverTo (Fn _) => true
  | _ => false
  end.

(** No function of the caller waits for the image of the renderer. *)
Definition no_receiver (enc : Encoder) : Prop :=
  match enc with
  | GIFEncoder e =>
      match DCGIFEncoder.encoder e with
      | Some gif => Forall (fun p => expects (snd p) = false) (GIF.listeners gif)
      | None => True
      end
  | _ => True
  end.

(** A call on an encoder that calls no save callback and registers none. *)
Definition harmless (m : Encoder -> Outcome Encoder) : Prop :=
  forall enc, no_receiver enc -> only undelivered (m enc) /\ no_receiver (final (m enc)).

(** The save callbacks called, with what they received. *)
Definition delivered (effs : list Effect) : list (nat * Artifact) :=
  omap (fun e => match e with Delivered id a => Some (id, a) | _ => None end) effs.

(** The calls of save with a function. *)
Definition hands_over (a : Action) : bool :=
  match a with
  | SaveTo (Fn _) => true
  | _ => false
  end.

(** The encoder of the capturer, if any, has no receiver. *)
Definition tidy (d : DCapture.t) : Prop :=
  forall enc, DCapture.encoder d = Some enc -> no_receiver enc.

(** The call on the capturer delivers nothing and keeps it tidy. *)
Definition tidy_out (o : Outcome DCapture.t) : Prop :=
  only undelivered o /\ tidy (final o).

(** Nothing was delivered so far and no receiver is registered. *)
Definition clean (w : World) : Prop :=
  Forall (fun e => undelivered e = true) (log w)
  /\ tidy (capturer w)
  /\ (forall enc, detached w = Some enc -> no_receiver enc).

(** { format: 'gif', framerate: 25 } *)
Definition gif_at_25 : Options :=
  {| opt_framerate := Some 25%Q; opt_verbose := None; opt_display := None;
     opt_motionBlurFrames := None; opt_quality := None; opt_format := Some "gif";
     opt_workersPath := None; opt_timeLimit := None; opt_frameLimit := None;
     opt_autoSaveTime := None; opt_onProgress := None |}.

(** { format: 'png', motionBlurFrames: 4, timeLimit: 1, frameLimit: 1 } *)
Definition blurred_limits : Options :=
  {| opt_framerate := None; opt_verbose := None; opt_display := None;
     opt_motionBlurFrames := Some 4%Q; opt_quality := None; opt_format := Some "png";
     opt_workersPath := None; opt_timeLimit := Some 1%Q; opt_frameLimit := Some 1%Q;
     opt_autoSaveTime := None; opt_onProgress := None |}.


(** The calls of settings.onProgress, with their values, in order. *)
Definition reported (effs : list Effect) : list (nat * Q) :=
  omap (fun e => match e with Progress f (Num p) => Some (f, p) | _ => None end) effs.

(** The progress bar of the display set to [width] percent. *)
Definition with_progress (width : Q) (el : DCapture.Display) : DCapture.Display :=
  {| DCapture.backgroundColor := DCapture.backgroundColor el;
     DCapture.info := DCapture.info el;
     DCapture.progress := width;
     DCapture.attached := DCapture.attached el |}.

(** The value the bar shows after the reports [ps]. *)
Definition bar_after (ps : list Q) (el : DCapture.Display) : DCapture.Display :=
  match last ps with
  | Some p => with_progress (p * 100) el
  | None => el
  end.

(** { format: 'gif', display: true, onProgress: f } for the function 3 *)
Definition gif_with_progress : Options :=
  {| opt_framerate := None; opt_verbose := None; opt_display := Some true;
     opt_motionBlurFrames := None; opt_quality := None; opt_format := Some "gif";
     opt_workersPath := None; opt_timeLimit := None; opt_frameLimit := None;
     opt_autoSaveTime := None; opt_onProgress := Some 3 |}.

(** * Properties *)

Arguments pad : simpl never.
Arguments DCFrameEncoder.calls : simpl never.
Arguments quotient_reaches : simpl never.
Arguments Qltb : simpl never.



Lemma calls_listening event data e :
  DCFrameEncoder.calls event data e = map (fun h => Invoked h data) (listening event e).
Proof. unfold DCFrameEncoder.calls, listening. by destruct (_ !! _). Qed.

Lemma length_string_of_uint d :
  String.length (NilEmpty.string_of_uint d) = Decimal.nb_digits d.
Proof. induction d; simpl; congruence. Qed.

Lemma to_lu_digit q r :
  q <> 0 -> r < 10 ->
  Decimal.nb_digits (Unsigned.to_lu (10 * q + r)) = S (Decimal.nb_digits (Unsigned.to_lu q)).
Proof.
  intros Hq Hr.
  do 10 (destruct r as [|r];
         [rewrite ?Nat.add_succ_r, Nat.add_0_r, ?Unsigned.to_lu_succ,
            Unsigned.to_lu_tenfold by done; reflexivity|]).
  lia.
Qed.

Lemma nb_digits_to_lu k : forall n,
  n < 10 ^ S k -> 1 <= Decimal.nb_digits (Unsigned.to_lu n) <= S k.
Proof.
  induction k as [|k IH]; intros n Hn.
  - change (10 ^ 1) with 10 in Hn.
    do 10 (destruct n as [|n]; [simpl; lia|]). lia.
  - destruct (Nat.lt_ge_cases n 10) as [Hs|Hs].
    + do 10 (destruct n as [|n]; [simpl; lia|]). lia.
    + rewrite (Nat.div_mod_eq n 10).
      rewrite to_lu_digit.
      * assert (n / 10 < 10 ^ S k).
        { apply Nat.Div0.div_lt_upper_bound. rewrite <- Nat.pow_succ_r'. done. }
        specialize (IH _ H). lia.
      * intros E. apply Nat.div_small_iff in E; lia.
      * apply Nat.mod_upper_bound. lia.
Qed.

Lemma length_toString n k :
  n < 10 ^ S k -> 1 <= String.length (toString n) <= S k.
Proof.
  intros Hn. unfold toString. rewrite Unsigned.to_uint_alt.
  pose proof (nb_digits_to_lu k n Hn) as H. rewrite <- nb_digits_rev in H.
  destruct (Decimal.rev (Unsigned.to_lu n)) eqn:E; simpl in *;
    rewrite ?length_string_of_uint; lia.
Qed.

Lemma length_append (s t : string) :
  String.length (s +:+ t) = String.length s + String.length t.
Proof.
  induction s as [|a s IH]; [done|].
  change (String a s +:+ t) with (String a (s +:+ t)).
  cbn [String.length]. by rewrite IH.
Qed.

Lemma length_join_empty n : String.length (join_empty (n + 1) "0") = n.
Proof.
  rewrite Nat.add_1_r. induction n as [|n IH]; [done|].
  change (join_empty (S (S n)) "0") with ("0" +:+ join_empty (S n) "0").
  by rewrite length_append, IH.
Qed.

Lemma length_pad n width :
  String.length (pad n width) = Nat.max width (String.length (toString n)).
Proof.
  unfold pad. destruct (Nat.leb_spec width (String.length (toString n))) as [H|H].
  - lia.
  - rewrite length_append, length_join_empty. lia.
Qed.

Lemma pad_six_digits n : n < 10 ^ 6 -> String.length (pad n 6) = 6.
Proof.
  intros Hn. rewrite length_pad. pose proof (length_toString n 5 Hn). lia.
Qed.

Lemma artifacts_calls event data b :
  Browser.artifacts (DCFrameEncoder.calls event data b) = [].
Proof.
  unfold DCFrameEncoder.calls. destruct (_ !! _) as [l|]; [|done].
  induction l; simpl; auto.
Qed.

Lemma artifacts_app l1 l2 :
  Browser.artifacts (l1 ++ l2) = Browser.artifacts l1 ++ Browser.artifacts l2.
Proof. unfold Browser.artifacts. apply omap_app. Qed.

Lemma onload_keeps G result e tp :
  DCTarEncoder.tape e = Some tp -> rotates e = false ->
  let o := DCTarEncoder.onload G result e in
  thrown o = None
  /\ DCTarEncoder.tape (final o)
     = Some (tp ++ [(entry_name (DCTarEncoder.fileExtension e) (DCTarEncoder.count e), result)])
  /\ DCTarEncoder.count (final o) = DCTarEncoder.count e + 1
  /\ DCTarEncoder.frames (final o) = DCTarEncoder.frames e + 1
  /\ DCTarEncoder.part (final o) = DCTarEncoder.part e
  /\ DCTarEncoder.fileExtension (final o) = DCTarEncoder.fileExtension e
  /\ DCTarEncoder.settings (final o) = DCTarEncoder.settings e
  /\ Browser.artifacts (effects o) = [].
Proof.
  intros Ht Hr. unfold DCTarEncoder.onload, rotates in *. rewrite Ht. simpl.
  unfold DCTarEncoder.settings in *. simpl. rewrite Hr. simpl.
  rewrite artifacts_calls. repeat split; reflexivity.
Qed.

Lemma onload_rotates G result e tp :
  DCTarEncoder.tape e = Some tp -> rotates e = true -> hasTar G = true ->
  let o := DCTarEncoder.onload G result e in
  let full := tp ++ [(entry_name (DCTarEncoder.fileExtension e) (DCTarEncoder.count e), result)] in
  thrown o = None
  /\ DCTarEncoder.tape (final o) = Some []
  /\ DCTarEncoder.count (final o) = DCTarEncoder.count e + 1
  /\ DCTarEncoder.frames (final o) = 0
  /\ DCTarEncoder.part (final o) = DCTarEncoder.part e + 1
  /\ DCTarEncoder.fileExtension (final o) = DCTarEncoder.fileExtension e
  /\ DCTarEncoder.settings (final o) = DCTarEncoder.settings e
  /\ Browser.artifacts (effects o) = if hasDownload G then [TarArchive full] else [].
Proof.
  intros Ht Hr HG. unfold DCTarEncoder.onload, rotates in *. rewrite Ht. simpl.
  unfold DCTarEncoder.settings in *. simpl. rewrite Hr. simpl.
  unfold DCTarEncoder.save. simpl. unfold DCTarEncoder.rotate. simpl.
  destruct (hasDownload G); simpl; unfold DCTarEncoder.dispose; rewrite HG; simpl;
    rewrite ?artifacts_app, ?artifacts_calls; simpl; rewrite ?artifacts_calls;
    repeat split; reflexivity.
Qed.

Lemma andThen_normal {S} (o : Outcome S) k :
  thrown o = None ->
  o >>> k = mkOutcome (thrown (k (final o))) (final (k (final o)))
                      (effects o ++ effects (k (final o))).
Proof. intros H. unfold andThen. by rewrite H. Qed.

Lemma handed_out_app l1 l2 : handed_out (l1 ++ l2) = handed_out l1 ++ handed_out l2.
Proof. unfold handed_out. by rewrite artifacts_app, map_app. Qed.

Lemma read_spec G ext k ev e :
  hasTar G = true -> writing ext k e ->
  let o := read G ev e in
  thrown o = None
  /\ DCTarEncoder.settings (final o) = DCTarEncoder.settings e
  /\ DCTarEncoder.count (final o) = DCTarEncoder.count e + loaded [ev]
  /\ Forall (contiguous ext) (handed_out (effects o))
  /\ exists k', k <= k' /\ writing ext k' (final o)
       /\ (hasDownload G = true ->
           concat (handed_out (effects o)) = map (entry_name ext) (seq k (k' - k))).
Proof.
  intros HG (tp & Htape & Hext & Hcount & Hnames).
  destruct ev as [result|]; simpl.
  - assert (Hfull : map fst (tp ++ [(entry_name (DCTarEncoder.fileExtension e) (DCTarEncoder.count e), result)])
                    = map (entry_name ext) (seq k (S (length tp)))).
    { rewrite map_app, seq_S, map_app. simpl. by rewrite Hnames, Hext, Hcount. }
    destruct (rotates e) eqn:Hr.
    + destruct (onload_rotates G result e tp Htape Hr HG)
        as (H1 & H2 & H3 & H4 & H5 & H6 & H7 & H8).
      split; [done|]. split; [done|]. split; [lia|].
      unfold handed_out. rewrite H8. split.
      * destruct (hasDownload G); simpl; [|constructor].
        constructor; [|constructor]. exists k.
        rewrite Hfull, length_map, length_seq. reflexivity.
      * exists (k + S (length tp)). split; [lia|]. split.
        { exists []. simpl. split; [done|]. split; [congruence|]. split; [lia|done]. }
        intros ->. simpl. rewrite app_nil_r, Hfull. do 2 f_equal. lia.
    + destruct (onload_keeps G result e tp Htape Hr)
        as (H1 & H2 & H3 & H4 & H5 & H6 & H7 & H8).
      split; [done|]. split; [done|]. split; [lia|].
      unfold handed_out. rewrite H8. split; [constructor|].
      exists k. split; [lia|]. split.
      { eexists. split; [exact H2|]. rewrite Hfull, length_app. simpl.
        split; [congruence|]. split; [lia|].
        by replace (length tp + 1) with (S (length tp)) by lia. }
      intros _. by rewrite Nat.sub_diag.
  - unfold DCTarEncoder.onerror, DCTarEncoder.emit, handed_out. simpl.
    rewrite artifacts_calls. simpl.
    split; [done|]. split; [done|]. split; [lia|]. split; [constructor|].
    exists k. split; [lia|]. split; [by exists tp|].
    intros _. by rewrite Nat.sub_diag.
Qed.

Lemma reads_spec G ext evs : forall k e,
  hasTar G = true -> writing ext k e ->
  let o := reads G evs e in
  thrown o = None
  /\ DCTarEncoder.settings (final o) = DCTarEncoder.settings e
  /\ DCTarEncoder.count (final o) = DCTarEncoder.count e + loaded evs
  /\ Forall (contiguous ext) (handed_out (effects o))
  /\ exists k', k <= k' /\ writing ext k' (final o)
       /\ (hasDownload G = true ->
           concat (handed_out (effects o)) = map (entry_name ext) (seq k (k' - k))).
Proof.
  induction evs as [|ev evs IH]; intros k e HG Hw; simpl.
  - split; [done|]. split; [done|]. split; [lia|]. split; [constructor|].
    exists k. split; [lia|]. split; [done|]. intros _. by rewrite Nat.sub_diag.
  - destruct (read_spec G ext k ev e HG Hw) as (H1 & H2 & H3 & H4 & k1 & Hk1 & Hw1 & H5).
    destruct (IH k1 _ HG Hw1) as (J1 & J2 & J3 & J4 & k2 & Hk2 & Hw2 & J5).
    rewrite (andThen_normal _ _ H1). simpl.
    split; [done|]. split; [congruence|]. split.
    { rewrite J3, H3. simpl. destruct ev; simpl; lia. }
    rewrite handed_out_app. split; [by apply Forall_app|].
    exists k2. split; [lia|]. split; [done|]. intros Hd.
    rewrite concat_app, H5, J5 by done. rewrite <- map_app. f_equal.
    replace (k2 - k) with ((k1 - k) + (k2 - k1)) by lia.
    rewrite seq_app. do 2 f_equal. lia.
Qed.




Lemma rotates_never e :
  (autoSaveTime (DCTarEncoder.settings e) <= 0)%Q -> rotates e = false.
Proof.
  intros Ha. unfold rotates, Qltb. apply Qle_bool_iff in Ha. by rewrite Ha.
Qed.

Section Only.

Variable P : Effect -> bool.

Lemma only_ret {S} (s : S) : only P (ret s).
Proof. constructor. Qed.

Lemma only_throw {S} msg (s : S) : only P (throw msg s).
Proof. constructor. Qed.

Lemma only_effect {S} e (s : S) : P e = true -> only P (effect e s).
Proof. intros H. by repeat constructor. Qed.

Lemma only_lift {A S} (put : A -> S) o : only P o -> only P (lift put o).
Proof. done. Qed.

Lemma only_andThen {S} (o : Outcome S) k :
  only P o -> (forall s, only P (k s)) -> only P (o >>> k).
Proof.
  intros Ho Hk. unfold andThen. destruct (thrown o); [done|].
  unfold only. simpl. apply Forall_app. split; [done|apply Hk].
Qed.

Lemma only_catch {S} (o : Outcome S) h :
  only P o -> (forall s, only P (h s)) -> only P (catch o h).
Proof.
  intros Ho Hh. unfold catch. destruct (thrown o); [|done].
  unfold only. simpl. apply Forall_app. split; [done|apply Hh].
Qed.

Lemma only_mk {S} t (s : S) l : Forall (fun e => P e = true) l -> only P (mkOutcome t s l).
Proof. done. Qed.

Hypothesis P_emitted : forall event data, P (Emitted event data) = true.

Hypothesis P_invoked : forall h data, P (Invoked h data) = true.

Lemma only_emit event data b : only P (DCFrameEncoder.emit event data b).
Proof.
  unfold only, DCFrameEncoder.emit, DCFrameEncoder.calls. simpl.
  constructor; [done|]. destruct (_ !! _) as [l|]; [|constructor].
  induction l; simpl; constructor; auto.
Qed.

End Only.

Ltac only_step :=
  first
    [ progress intros
    | apply only_ret | apply only_throw
    | apply only_emit; reflexivity
    | apply only_effect; reflexivity
    | apply only_lift | apply only_andThen | apply only_catch
    | apply only_mk; repeat constructor
    | match goal with
      | |- only _ (match ?x with _ => _ end) => destruct x
      | |- only _ (if ?x then _ else _) => destruct x
      | |- only _ (let _ := _ in _) => cbv zeta
      | |- quiet _ => unfold quiet
      end ].

Ltac quiet := unfold quiet; repeat only_step.

Lemma quiet_ret {S} (s : S) : quiet (ret s).
Proof. apply only_ret. Qed.

Lemma quiet_lift {A S} (put : A -> S) o : quiet o -> quiet (lift put o).
Proof. apply only_lift. Qed.

Lemma only_tar_emit P event data e :
  (forall ev d, P (Emitted ev d) = true) -> (forall h d, P (Invoked h d) = true) ->
  only P (DCTarEncoder.emit event data e).
Proof. intros. unfold DCTarEncoder.emit. apply only_lift. by apply only_emit. Qed.

Lemma only_tar_dispose P G e :
  (forall ev d, P (Emitted ev d) = true) -> (forall h d, P (Invoked h d) = true) ->
  only P (DCTarEncoder.dispose G e).
Proof.
  intros. unfold DCTarEncoder.dispose. apply only_catch.
  - destruct (hasTar G); [apply only_ret|apply only_throw].
  - intros. by apply only_tar_emit.
Qed.

Lemma only_tar_onload P G r e :
  (forall ev d, P (Emitted ev d) = true) -> (forall h d, P (Invoked h d) = true) ->
  (forall a f m, P (Downloaded a f m) = true) ->
  only P (DCTarEncoder.onload G r e).
Proof.
  intros H1 H2 H3.
  unfold DCTarEncoder.onload, DCTarEncoder.save, DCTarEncoder.rotate, DCTarEncoder.step.
  destruct (DCTarEncoder.tape e); [|apply only_throw].
  cbv zeta. destruct (_ && _); [|by apply only_tar_emit].
  cbn [DCTarEncoder.tape DCTarEncoder.set_tape].
  apply only_andThen.
  - destruct (hasDownload G); [by apply only_effect|by apply only_tar_emit].
  - intros. cbv zeta. apply only_andThen; [by apply only_tar_dispose|].
    intros. by apply only_tar_emit.
Qed.

Lemma quiet_tar_emit event data e : quiet (DCTarEncoder.emit event data e).
Proof. by apply only_tar_emit. Qed.

Lemma quiet_tar_dispose G e : quiet (DCTarEncoder.dispose G e).
Proof. by apply only_tar_dispose. Qed.

Lemma quiet_tar_onload G r e : quiet (DCTarEncoder.onload G r e).
Proof. by apply only_tar_onload. Qed.

Lemma quiet_start G enc : quiet (Encoder.start G enc).
Proof.
  destruct enc; unfold Encoder.start, DCMediaRecorderEncoder.start, DCTarEncoder.start,
    DCGIFEncoder.start, DCWhammyEncoder.start, DCMediaRecorderEncoder.emit,
    DCGIFEncoder.emit, DCWhammyEncoder.emit; quiet; apply quiet_tar_dispose.
Qed.

Lemma quiet_add c enc : quiet (Encoder.add c enc).
Proof.
  destruct enc; unfold Encoder.add, DCMediaRecorderEncoder.add, DCPNGEncoder.add,
    DCJPEGEncoder.add, DCGIFEncoder.add, DCWhammyEncoder.add,
    DCMediaRecorderEncoder.step, DCGIFEncoder.step, DCWhammyEncoder.step,
    DCMediaRecorderEncoder.emit, DCPNGEncoder.emit, DCJPEGEncoder.emit,
    DCGIFEncoder.emit, DCWhammyEncoder.emit; quiet; apply quiet_tar_emit.
Qed.

Lemma quiet_stop enc : quiet (Encoder.stop enc).
Proof.
  destruct enc; unfold Encoder.stop, DCMediaRecorderEncoder.stop, DCFrameEncoder.stop,
    DCGIFEncoder.stop, DCWhammyEncoder.stop, DCGIFEncoder.emit; quiet.
Qed.

Lemma quiet_save cb enc : quiet (Encoder.save cb enc).
Proof.
  destruct enc; unfold Encoder.save, DCMediaRecorderEncoder.save, DCTarEncoder.save,
    DCTarEncoder.call, DCGIFEncoder.save, DCGIFEncoder.call, DCWhammyEncoder.save,
    DCMediaRecorderEncoder.emit, DCWhammyEncoder.emit; quiet; apply quiet_tar_emit.
Qed.

Lemma quiet_dispose G enc : quiet (Encoder.dispose G enc).
Proof.
  destruct enc; unfold Encoder.dispose, DCMediaRecorderEncoder.dispose,
    DCGIFEncoder.dispose, DCWhammyEncoder.dispose; quiet; apply quiet_tar_dispose.
Qed.

Lemma quiet_gif_listeners ls data e : quiet (DCGIFEncoder.listeners ls data e).
Proof.
  revert e. induction ls as [|l ls IH]; intros e; simpl; quiet; [|apply IH].
  unfold DCGIFEncoder.listener, DCGIFEncoder.call, DCGIFEncoder.emit. quiet.
Qed.

Lemma quiet_complete G task enc : quiet (Encoder.complete G task enc).
Proof.
  unfold Encoder.complete, DCPNGEncoder.toBlob_callback, DCJPEGEncoder.toBlob_callback,
    DCTarEncoder.add, DCTarEncoder.onerror, DCMediaRecorderEncoder.onstop,
    DCGIFEncoder.on_finished, DCPNGEncoder.emit, DCJPEGEncoder.emit,
    DCMediaRecorderEncoder.emit.
  quiet; first [apply quiet_tar_emit | apply quiet_tar_onload | apply quiet_gif_listeners].
Qed.

Lemma total_ret {S} (s : S) : total (ret s).
Proof. done. Qed.

Lemma total_effect {S} e (s : S) : total (effect e s).
Proof. done. Qed.

Lemma total_lift {A S} (put : A -> S) o : total o -> total (lift put o).
Proof. done. Qed.

Lemma total_andThen {S} (o : Outcome S) k :
  total o -> (forall s, total (k s)) -> total (o >>> k).
Proof. intros Ho Hk. unfold total, andThen. rewrite Ho. apply Hk. Qed.

Lemma total_catch {S} (o : Outcome S) h : (forall s, total (h s)) -> total (catch o h).
Proof. intros Hh. unfold total, catch. destruct (thrown o) eqn:E; [apply Hh|done]. Qed.

Lemma total_emit event data b : total (DCFrameEncoder.emit event data b).
Proof. done. Qed.

Lemma total_mk {S} (s : S) l : total (mkOutcome None s l).
Proof. done. Qed.

Ltac total :=
  repeat first
    [ progress intros
    | apply total_ret | apply total_emit | apply total_effect | apply total_mk
    | apply total_lift | apply total_catch | apply total_andThen
    | match goal with
      | |- total (match ?x with _ => _ end) => destruct x
      | |- total (if ?x then _ else _) => destruct x
      | |- total (let _ := _ in _) => cbv zeta
      end ].

Lemma total_tar_emit event data e : total (DCTarEncoder.emit event data e).
Proof. done. Qed.

Lemma total_tar_dispose G e : total (DCTarEncoder.dispose G e).
Proof. unfold DCTarEncoder.dispose. total. Qed.

Lemma total_start G enc : total (Encoder.start G enc).
Proof.
  destruct enc; unfold Encoder.start, DCMediaRecorderEncoder.start, DCTarEncoder.start,
    DCGIFEncoder.start, DCWhammyEncoder.start, DCMediaRecorderEncoder.emit,
    DCGIFEncoder.emit, DCWhammyEncoder.emit; total; apply total_tar_dispose.
Qed.

Lemma total_add c enc : total (Encoder.add c enc).
Proof.
  destruct enc; unfold Encoder.add, DCMediaRecorderEncoder.add, DCPNGEncoder.add,
    DCJPEGEncoder.add, DCGIFEncoder.add, DCWhammyEncoder.add,
    DCMediaRecorderEncoder.step, DCGIFEncoder.step, DCWhammyEncoder.step,
    DCMediaRecorderEncoder.emit, DCPNGEncoder.emit, DCJPEGEncoder.emit,
    DCGIFEncoder.emit, DCWhammyEncoder.emit; total.
Qed.

Lemma total_stop enc : total (Encoder.stop enc).
Proof.
  destruct enc; unfold Encoder.stop, DCMediaRecorderEncoder.stop, DCFrameEncoder.stop,
    DCGIFEncoder.stop, DCWhammyEncoder.stop, DCGIFEncoder.emit; total.
Qed.

Lemma total_dispose G enc : total (Encoder.dispose G enc).
Proof.
  destruct enc; unfold Encoder.dispose, DCMediaRecorderEncoder.dispose,
    DCGIFEncoder.dispose, DCWhammyEncoder.dispose; total; apply total_tar_dispose.
Qed.

Lemma adds_app l1 l2 : adds (l1 ++ l2) = adds l1 ++ adds l2.
Proof. apply omap_app. Qed.

Lemma scheduled_app l1 l2 :
  Browser.scheduled (l1 ++ l2) = Browser.scheduled l1 ++ Browser.scheduled l2.
Proof. apply omap_app. Qed.

Lemma quiet_adds l :
  Forall (fun e => internal e = true) l -> adds l = [] /\ Browser.scheduled l = [].
Proof.
  induction 1 as [|e l He _ [IH1 IH2]]; [done|].
  destruct e; try discriminate; simpl; auto.
Qed.

Lemma internal_gentle l :
  Forall (fun e => internal e = true) l -> Forall (fun e => gentle e = true) l.
Proof. intros H. eapply Forall_impl; [exact H|]. by intros []. Qed.

Lemma gentle_silent l :
  Forall (fun e => gentle e = true) l ->
  adds l = [] /\ Browser.scheduled l = [] /\ raised l = [].
Proof.
  induction 1 as [|e l He _ (IH1 & IH2 & IH3)]; [done|].
  destruct e; try discriminate; simpl; auto.
Qed.

Lemma capture_stopped now c d :
  DCapture.stopped d = true -> DCapture.capture now c d = ret d.
Proof. intros H. unfold DCapture.capture. by rewrite H. Qed.

Ltac dc_eval :=
  cbn beta iota zeta delta
    [DCapture.capture DCapture.captureMotionBlur DCapture.on_encoder
     DCapture.updateDisplayInfo DCapture.updateProgress DCapture.stop_then DCapture.stop
     DCapture.start DCapture.save DCapture.dispose DCapture.dispose_encoder
     DCapture.react
     DCapture.set_startTime DCapture.set_frames DCapture.set_startCallback
     DCapture.set_stopped DCapture.set_encoder DCapture.set_display
     DCapture.settings DCapture.startTime DCapture.frames DCapture.startCallback
     DCapture.stopped DCapture.encoder DCapture.display
     DCapture.backgroundColor DCapture.info DCapture.progress DCapture.attached
     andThen catch lift ret throw effect thrown final effects app].

Lemma capture_running now c d :
  DCapture.stopped d = false -> is_Some (DCapture.encoder d) ->
  let o := DCapture.capture now c d in
  let limits := negb (blurred d) && (time_up now d || frame_up d) in
  thrown o = None
  /\ DCapture.frames (final o) = DCapture.frames d + 1
  /\ DCapture.settings (final o) = DCapture.settings d
  /\ DCapture.startTime (final o) = DCapture.startTime d
  /\ is_Some (DCapture.encoder (final o))
  /\ DCapture.stopped (final o) = limits
  /\ adds (effects o) = [c]
  /\ raised (effects o) = []
  /\ Browser.scheduled (effects o)
     = if blurred d then []
       else (if time_up now d then [[StopEncoder; LogStopped; Save]] else [])
            ++ (if frame_up d then [[StopEncoder; LogStopped; Save]] else []).
Proof.
  intros Hs [enc He]. destruct d as [s st fr scb sp en di]. simpl in *. subst.
  unfold blurred, time_up, frame_up.
  pose proof (total_add c enc) as Ht. unfold total in Ht.
  destruct (gentle_silent _ (internal_gentle _ (quiet_add c enc))) as (Ha & Hsch & Hr).
  unfold adds, raised, Browser.scheduled in *.
  dc_eval.
  destruct (Qltb 1 _); dc_eval; rewrite ?Ht; dc_eval.
  - cbn [omap list_omap]. rewrite Ha, Hsch, Hr. repeat split; eauto.
  - destruct (settings_display s), di; dc_eval;
      destruct (Qltb 0 (timeLimit s) && _); dc_eval;
      destruct (Qltb 0 (frameLimit s) && _); dc_eval;
      cbn [omap list_omap];
      rewrite ?omap_app, ?Ha, ?Hsch, ?Hr; repeat split; eauto.
Qed.

Lemma steady_refl d : steady d d.
Proof. by repeat split. Qed.

Lemma steady_trans d1 d2 d3 : steady d1 d2 -> steady d2 d3 -> steady d1 d3.
Proof.
  intros (A1 & A2 & A3 & A4 & A5) (B1 & B2 & B3 & B4 & B5).
  repeat split; try congruence. auto.
Qed.

Lemma passive_ret d : passive d (ret d).
Proof. split; [apply steady_refl|constructor]. Qed.

Lemma passive_andThen d o k :
  passive d o -> (forall d', steady d d' -> passive d' (k d')) -> passive d (o >>> k).
Proof.
  intros [Hs He] Hk. unfold andThen. destruct (thrown o); [done|].
  destruct (Hk _ Hs) as [Hs' He']. split; simpl.
  - by eapply steady_trans.
  - by apply Forall_app.
Qed.

Lemma passive_on_encoder call m d :
  gentle call = true -> (forall enc, quiet (m enc)) ->
  passive d (DCapture.on_encoder (fun enc => effect call enc >>> m) d).
Proof.
  intros Hc Hm. unfold DCapture.on_encoder.
  destruct (DCapture.encoder d) as [enc|] eqn:E; [|apply passive_ret].
  split.
  - unfold steady. cbn. repeat split; eauto.
  - cbn. constructor; [done|]. apply internal_gentle, Hm.
Qed.

Lemma passive_save cb d : passive d (DCapture.save cb d).
Proof.
  unfold DCapture.save. destruct (DCapture.encoder d) eqn:E; [|apply passive_ret].
  apply passive_on_encoder; [done|]. intros. apply quiet_save.
Qed.

Lemma passive_react stage d : passive d (DCapture.react stage d).
Proof.
  destruct stage; simpl.
  - apply passive_on_encoder; [done|]. intros. apply quiet_stop.
  - destruct (DCapture.display d); [|apply passive_ret].
    split; [|constructor]. unfold steady. cbn. repeat split; eauto.
  - apply passive_save.
Qed.

Lemma passive_relay calls : forall d, passive d (DCapture.relay calls d).
Proof.
  induction calls as [|e calls IH]; intros d; [apply passive_ret|].
  destruct e; try apply IH. destruct h; try apply IH. destruct data; try apply IH.
  cbn [DCapture.relay]. apply passive_andThen.
  - destruct (onProgress _); [|apply passive_ret].
    split; [apply steady_refl|by repeat constructor].
  - intros d' _. apply passive_andThen; [|intros; apply IH].
    split; [|constructor]. cbn.
    unfold DCapture.updateProgress. destruct (DCapture.display d'); [|apply steady_refl].
    unfold steady. cbn. repeat split; eauto.
Qed.

Lemma undisturbed_refl w : undisturbed w w.
Proof.
  split; [done|]. split; [apply steady_refl|]. exists []. by rewrite app_nil_r.
Qed.

Lemma undisturbed_trans w1 w2 w3 :
  undisturbed w1 w2 -> undisturbed w2 w3 -> undisturbed w1 w3.
Proof.
  intros (G1 & S1 & l1 & L1 & F1) (G2 & S2 & l2 & L2 & F2).
  split; [congruence|]. split; [by eapply steady_trans|].
  exists (l1 ++ l2). rewrite L2, L1, app_assoc. split; [done|by apply Forall_app].
Qed.

Lemma undisturbed_after o w :
  passive (capturer w) o -> undisturbed w (after Unhandled o w).
Proof.
  intros [Hs He]. split; [done|]. split; [done|].
  eexists. split; [reflexivity|]. apply Forall_app. split; [done|].
  destruct (thrown o); by repeat constructor.
Qed.

Lemma undisturbed_same w w' :
  globals w' = globals w -> capturer w' = capturer w -> log w' = log w ->
  undisturbed w w'.
Proof.
  intros HG Hc Hl. unfold undisturbed. rewrite HG, Hc, Hl.
  split; [done|]. split; [apply steady_refl|]. exists []. by rewrite app_nil_r.
Qed.

Lemma undisturbed_set_microtasks v w : undisturbed w (set_microtasks v w).
Proof. by apply undisturbed_same. Qed.

Lemma undisturbed_set_parked v w : undisturbed w (set_parked v w).
Proof. by apply undisturbed_same. Qed.

Lemma undisturbed_set_tasks v w : undisturbed w (set_tasks v w).
Proof. by apply undisturbed_same. Qed.

Lemma undisturbed_set_detached v w : undisturbed w (set_detached v w).
Proof. by apply undisturbed_same. Qed.

Lemma passive_heard o d :
  quiet o -> passive d (heard o (DCapture.set_encoder (Some (final o)) d)).
Proof.
  intros Ho. unfold heard.
  destruct (passive_relay (effects o) (DCapture.set_encoder (Some (final o)) d)) as [Hs Hg].
  split; cbn.
  - eapply steady_trans; [|exact Hs]. unfold steady. cbn. repeat split; eauto.
  - apply Forall_app. split; [by apply internal_gentle|done].
Qed.

Lemma passive_heard_detached o d :
  quiet o -> passive d (heard o d).
Proof.
  intros Ho. unfold heard. destruct (passive_relay (effects o) d) as [Hs Hg].
  split; cbn; [done|]. apply Forall_app. split; [by apply internal_gentle|done].
Qed.

Lemma undisturbed_encoder_event m w :
  (forall enc, quiet (m enc)) -> undisturbed w (encoder_event m w).
Proof.
  intros Hm. unfold encoder_event.
  destruct (DCapture.encoder (capturer w)) as [enc|] eqn:E.
  - apply undisturbed_after. by apply passive_heard.
  - destruct (detached w) as [enc|]; [|apply undisturbed_refl].
    eapply undisturbed_trans; [|apply undisturbed_set_detached].
    apply undisturbed_after. by apply passive_heard_detached.
Qed.

Lemma undisturbed_tick w : undisturbed w (tick w).
Proof.
  unfold tick. destruct (microtasks w) as [|[|stage rest] chains];
    [apply undisturbed_refl|by apply undisturbed_same|].
  set (w1 := after Unhandled _ _).
  assert (H1 : undisturbed w w1).
  { eapply undisturbed_trans; [apply (undisturbed_set_microtasks chains)|].
    apply undisturbed_after. apply passive_react. }
  destruct (thrown _); [done|].
  destruct (match stage with StopEncoder => _ | _ => _ end);
    (eapply undisturbed_trans; [exact H1|by apply undisturbed_same]).
Qed.

Lemma undisturbed_turn i task w : undisturbed w (turn i task w).
Proof.
  unfold turn.
  set (w0 := set_tasks _ w).
  set (w1 := encoder_event _ w0).
  assert (H1 : undisturbed w w1).
  { eapply undisturbed_trans; [apply (undisturbed_set_tasks (tasks w0))|].
    apply undisturbed_encoder_event. intros. apply quiet_complete. }
  destruct task; try exact H1.
  destruct (parked w1); [|exact H1].
  destruct (match target w0 with Some _ => _ | None => _ end); [exact H1|].
  eapply undisturbed_trans; [exact H1|by apply undisturbed_same].
Qed.

Lemma undisturbed_background a w :
  background a = true -> undisturbed w (perform a w).
Proof.
  destruct a; try discriminate; intros _; unfold perform.
  - apply undisturbed_tick.
  - destruct (tasks w !! i); [apply undisturbed_turn|apply undisturbed_refl].
  - destruct (tasks w !! i) as [[]|]; try apply undisturbed_refl. apply undisturbed_turn.
  - apply undisturbed_encoder_event. intros [e| | | |]; try apply quiet_ret.
    destruct (bool_decide _); [|apply quiet_ret].
    apply quiet_lift. unfold DCMediaRecorderEncoder.ondataavailable.
    destruct chunk; apply quiet_ret.
  - apply undisturbed_encoder_event. intros [|e| |e|]; try apply quiet_ret.
    apply quiet_lift. unfold DCGIFEncoder.on_progress.
    destruct (DCGIFEncoder.encoder e) as [g|]; [|apply quiet_ret].
    destruct (GIF.running g); [apply quiet_gif_listeners|apply quiet_ret].
Qed.

Lemma raised_app l1 l2 : raised (l1 ++ l2) = raised l1 ++ raised l2.
Proof. apply omap_app. Qed.

Lemma after_ret report w : after report (ret (capturer w)) w = w.
Proof. destruct w. unfold after. cbn. by rewrite !app_nil_r. Qed.

Lemma perform_capture_stopped now c w :
  DCapture.stopped (capturer w) = true -> perform (Capture now c) w = w.
Proof. intros H. cbn [perform]. rewrite capture_stopped by done. apply after_ret. Qed.

Lemma perform_capture_running now c w :
  DCapture.stopped (capturer w) = false -> is_Some (DCapture.encoder (capturer w)) ->
  let w' := perform (Capture now c) w in
  let d := capturer w in
  globals w' = globals w
  /\ DCapture.frames (capturer w') = DCapture.frames d + 1
  /\ DCapture.settings (capturer w') = DCapture.settings d
  /\ DCapture.startTime (capturer w') = DCapture.startTime d
  /\ is_Some (DCapture.encoder (capturer w'))
  /\ DCapture.stopped (capturer w') = negb (blurred d) && (time_up now d || frame_up d)
  /\ adds (log w') = adds (log w) ++ [c]
  /\ raised (log w') = raised (log w)
  /\ scheduled (log w')
     = scheduled (log w)
       ++ if blurred d then []
          else (if time_up now d then [[StopEncoder; LogStopped; Save]] else [])
               ++ (if frame_up d then [[StopEncoder; LogStopped; Save]] else []).
Proof.
  intros Hs He.
  destruct (capture_running now c (capturer w) Hs He)
    as (H1 & H2 & H3 & H4 & H5 & H6 & H7 & H8 & H9).
  cbn [perform]. unfold after. cbn. rewrite H1, app_nil_r.
  rewrite adds_app, raised_app, scheduled_app, H7, H8, H9, app_nil_r. by repeat split.
Qed.

Lemma undisturbed_silent w w' :
  undisturbed w w' ->
  adds (log w') = adds (log w) /\ scheduled (log w') = scheduled (log w)
  /\ raised (log w') = raised (log w).
Proof.
  intros (_ & _ & l & -> & Hl). destruct (gentle_silent l Hl) as (H1 & H2 & H3).
  by rewrite adds_app, raised_app, scheduled_app, H1, H2, H3, !app_nil_r.
Qed.

Lemma run_cons a acts w : run (a :: acts) w = run acts (perform a w).
Proof. reflexivity. Qed.

Lemma run_app acts1 acts2 w : run (acts1 ++ acts2) w = run acts2 (run acts1 w).
Proof. apply fold_left_app. Qed.

Lemma run_within acts : forall w N,
  forallb observed acts = true ->
  DCapture.stopped (capturer w) = false ->
  is_Some (DCapture.encoder (capturer w)) ->
  Qltb 0 (timeLimit (DCapture.settings (capturer w))) = false ->
  below_limit (DCapture.settings (capturer w)) N ->
  DCapture.frames (capturer w) + length (captured acts) <= N ->
  let w' := run acts w in
  DCapture.stopped (capturer w') = false
  /\ is_Some (DCapture.encoder (capturer w'))
  /\ DCapture.settings (capturer w') = DCapture.settings (capturer w)
  /\ DCapture.frames (capturer w') = DCapture.frames (capturer w) + length (captured acts)
  /\ adds (log w') = adds (log w) ++ captured acts
  /\ scheduled (log w') = scheduled (log w)
  /\ raised (log w') = raised (log w).
Proof.
  induction acts as [|a acts IH]; intros w N Hobs Hs He Ht Hf Hn.
  - cbn. rewrite Nat.add_0_r, app_nil_r. by repeat split.
  - rewrite run_cons. cbn [forallb] in Hobs. apply andb_prop in Hobs as [Ha Hobs].
    destruct (background a) eqn:Hb.
    + assert (Hc : captured (a :: acts) = captured acts) by (by destruct a).
      rewrite Hc in *.
      pose proof (undisturbed_background a w Hb) as Hu.
      destruct (undisturbed_silent _ _ Hu) as (U1 & U2 & U3).
      destruct Hu as (_ & (S1 & S2 & S3 & S4 & S5) & _).
      destruct (IH (perform a w) N Hobs) as (I1 & I2 & I3 & I4 & I5 & I6 & I7);
        [congruence|auto|congruence|by rewrite S3|lia|].
      repeat split; congruence.
    + destruct a as [| now c | | | | | | | |]; try discriminate.
      cbn [captured omap list_omap] in *. fold (captured acts) in *. cbn [length] in Hn.
      destruct (perform_capture_running now c w Hs He)
        as (_ & P2 & P3 & P4 & P5 & P6 & P7 & P8 & P9).
      assert (Hlim : negb (blurred (capturer w))
                     && (time_up now (capturer w) || frame_up (capturer w)) = false).
      { unfold time_up, frame_up. rewrite Ht. cbn [andb orb].
        rewrite (Hf (DCapture.frames (capturer w) + 1)) by lia. apply andb_false_r. }
      assert (Hsch : scheduled (log (perform (Capture now c) w)) = scheduled (log w)).
      { rewrite P9. destruct (blurred _); [by rewrite app_nil_r|]. cbn [negb andb] in Hlim.
        apply orb_false_elim in Hlim as [-> ->]. by rewrite app_nil_r. }
      destruct (IH (perform (Capture now c) w) N Hobs) as (I1 & I2 & I3 & I4 & I5 & I6 & I7);
        [congruence|auto|congruence|by rewrite P3|lia|].
      rewrite I3, I4, I5, I6, I7, P2, P3, P7, P8, Hsch. rewrite <- app_assoc.
      repeat split; auto. cbn [length]. lia.
Qed.

Lemma Qltb_zero x : (x == 0)%Q -> Qltb 0 x = false.
Proof.
  intros H. unfold Qltb. replace (Qle_bool x 0) with true; [done|].
  symmetry. apply Qle_bool_iff. rewrite H. apply Qle_refl.
Qed.

Lemma below_no_limit s N : (frameLimit s == 0)%Q -> below_limit s N.
Proof. intros H n _. by rewrite Qltb_zero. Qed.

Lemma below_frame_limit s F :
  (frameLimit s == inject_Z (Z.of_nat F))%Q -> below_limit s (F - 1).
Proof.
  intros H n Hn. destruct F as [|F].
  - by rewrite Qltb_zero.
  - apply andb_false_intro2, not_true_is_false. rewrite Qle_bool_iff, H, <- Zle_Qle. lia.
Qed.

Lemma frame_up_at_limit d F :
  0 < F -> (frameLimit (DCapture.settings d) == inject_Z (Z.of_nat F))%Q ->
  DCapture.frames d + 1 = F -> frame_up d = true.
Proof.
  intros HF H Hn. unfold frame_up, Qltb. apply andb_true_intro. split.
  - apply negb_true_iff, not_true_is_false. rewrite Qle_bool_iff, H.
    change 0%Q with (inject_Z 0). rewrite <- Zle_Qle. lia.
  - rewrite Qle_bool_iff, H, <- Zle_Qle. lia.
Qed.

(** What the constructor builds. *)
Lemma constructor_built G options d :
  DCapture.constructor G options = Built d ->
  DCapture.settings d = assign defaults options
  /\ DCapture.stopped d = false
  /\ DCapture.frames d = 0
  /\ is_Some (DCapture.encoder d).
Proof.
  unfold DCapture.constructor. destruct (DCapture.createEncoder _ _); [|done].
  intros [= <-]. cbn. eauto.
Qed.

Lemma start_spec G now cb d :
  is_Some (DCapture.encoder d) ->
  let o := DCapture.start G now cb d in
  thrown o = None
  /\ DCapture.stopped (final o) = DCapture.stopped d
  /\ DCapture.settings (final o) = DCapture.settings d
  /\ DCapture.frames (final o) = 0
  /\ DCapture.startTime (final o) = now
  /\ is_Some (DCapture.encoder (final o))
  /\ Forall (fun e => gentle e = true) (effects o).
Proof.
  intros [enc He]. destruct d as [s st fr scb sp en di]. cbn in He. subst.
  pose proof (total_start G enc) as Ht. unfold total in Ht.
  pose proof (internal_gentle _ (quiet_start G enc)) as Hg.
  unfold DCapture.start. dc_eval. rewrite Ht. dc_eval.
  destruct cb; dc_eval; repeat split; eauto.
  - constructor; [done|]. by rewrite app_nil_r.
  - constructor; [done|]. apply Forall_app. split; [done|by repeat constructor].
Qed.

Lemma perform_start G now cb d :
  is_Some (DCapture.encoder d) ->
  let w := perform (Start now cb) (load G d) in
  globals w = G
  /\ DCapture.stopped (capturer w) = DCapture.stopped d
  /\ DCapture.settings (capturer w) = DCapture.settings d
  /\ DCapture.frames (capturer w) = 0
  /\ DCapture.startTime (capturer w) = now
  /\ is_Some (DCapture.encoder (capturer w))
  /\ adds (log w) = [] /\ scheduled (log w) = [] /\ raised (log w) = [].
Proof.
  intros He. destruct (start_spec G now cb d He) as (H1 & H2 & H3 & H4 & H5 & H6 & H7).
  destruct (gentle_silent _ H7) as (S1 & S2 & S3).
  cbn [perform load globals capturer]. unfold after. cbn. rewrite H1, !app_nil_r.
  by repeat split.
Qed.

Lemma start_keeps_stopped G now cb d :
  let o := DCapture.start G now cb d in
  DCapture.stopped (final o) = DCapture.stopped d
  /\ Forall (fun e => gentle e = true) (effects o).
Proof.
  destruct d as [s st fr scb sp [enc|] di].
  - destruct (start_spec G now cb (DCapture.Build_t s st fr scb sp (Some enc) di))
      as (_ & H2 & _ & _ & _ & _ & H7); [by eexists|]. done.
  - unfold DCapture.start. dc_eval. split; [done|constructor].
Qed.

Lemma dispose_keeps_stopped G d :
  let o := DCapture.dispose G d in
  DCapture.stopped (final o) = DCapture.stopped d
  /\ DCapture.encoder (final o) = None
  /\ thrown o = None
  /\ Forall (fun e => gentle e = true) (effects o).
Proof.
  destruct d as [s st fr scb sp [enc|] di].
  - pose proof (total_dispose G enc) as Ht. unfold total in Ht.
    pose proof (internal_gentle _ (quiet_dispose G enc)) as Hg.
    unfold DCapture.dispose. dc_eval. destruct di; dc_eval; rewrite Ht; dc_eval;
      rewrite app_nil_r; repeat split; by constructor.
  - unfold DCapture.dispose. dc_eval. destruct di; dc_eval; repeat split; constructor.
Qed.

Lemma log_after report o w :
  log (after report o w)
  = log w ++ effects o ++ match thrown o with Some msg => [report msg] | None => [] end.
Proof. reflexivity. Qed.

Lemma adds_after o w :
  adds (effects o) = [] -> adds (log (after Raised o w)) = adds (log w).
Proof.
  intros H1.
  rewrite log_after, !adds_app, H1. destruct (thrown o); cbn; by rewrite ?app_nil_r.
Qed.

Lemma adds_after_gentle o w :
  Forall (fun e => gentle e = true) (effects o) ->
  adds (log (after Raised o w)) = adds (log w).
Proof. intros H. apply adds_after. by destruct (gentle_silent _ H). Qed.

(** Once stopped, always stopped, and encoder.add is not called again. *)
Lemma perform_stopped a w :
  DCapture.stopped (capturer w) = true ->
  DCapture.stopped (capturer (perform a w)) = true
  /\ adds (log (perform a w)) = adds (log w).
Proof.
  intros Hs. destruct (background a) eqn:Hb.
  { pose proof (undisturbed_background a w Hb) as Hu.
    destruct (undisturbed_silent _ _ Hu) as (U1 & _ & _).
    destruct Hu as (_ & (S1 & _) & _). split; congruence. }
  destruct a; try discriminate.
  - destruct (start_keeps_stopped (globals w) now callback (capturer w)) as [H1 H2].
    cbn [perform]. split; [cbn; congruence|by apply adds_after_gentle].
  - by rewrite perform_capture_stopped.
  - cbn [perform]. split; [done|]. by apply adds_after.
  - destruct (passive_save callback (capturer w)) as [(S1 & _) Hg].
    cbn [perform]. split; [cbn; congruence|by apply adds_after_gentle].
  - destruct (dispose_keeps_stopped (globals w) (capturer w)) as (H1 & _ & _ & H2).
    cbn [perform].
    destruct (DCapture.encoder (final (DCapture.dispose_encoder _ _)));
      (split; [cbn; congruence|by rewrite adds_after_gentle]).
Qed.

Lemma run_stopped acts : forall w,
  DCapture.stopped (capturer w) = true ->
  DCapture.stopped (capturer (run acts w)) = true
  /\ adds (log (run acts w)) = adds (log w).
Proof.
  induction acts as [|a acts IH]; intros w Hs; [done|].
  rewrite run_cons. destruct (perform_stopped a w Hs) as [H1 H2].
  destruct (IH _ H1) as [I1 I2]. split; congruence.
Qed.

(** C7. Once stop() was called, whatever is done next (calls, turns of the
    event loop, even while the promise of stop is still pending), a
    capture call leaves the whole page as it is: the frame counter is
    unchanged and encoder.add is never called again. *)
Theorem stopped_capture_is_noop (w : World) (acts : list Action) (now : Z) (c : Canvas) :
  let w' := run acts (perform Stop w) in
  perform (Capture now c) w' = w'
  /\ DCapture.frames (capturer (perform (Capture now c) w')) = DCapture.frames (capturer w')
  /\ adds (log (perform (Capture now c) w')) = adds (log w).
Proof.
  assert (Hs : DCapture.stopped (capturer (perform Stop w)) = true) by done.
  destruct (run_stopped acts _ Hs) as [H1 H2].
  cbn zeta. rewrite perform_capture_stopped by done. split; [done|]. split; [done|].
  rewrite H2. by apply adds_after.
Qed.

(** C9. After dispose(), capture throws 'No encoder available' when the
    session was not stopped and returns silently when it was: the stopped
    check comes before the encoder check.  In particular capture returns
    silently after stop() and then dispose(). *)
Theorem capture_after_dispose (G : Globals) (d : DCapture.t) (now : Z) (c : Canvas) :
  let disposed := final (DCapture.dispose G d) in
  DCapture.capture now c disposed
  = (if DCapture.stopped d then ret disposed else throw "No encoder available" disposed)
  /\ DCapture.capture now c (final (DCapture.dispose G (final (DCapture.stop d))))
     = ret (final (DCapture.dispose G (final (DCapture.stop d)))).
Proof.
  cbn zeta. split.
  - destruct (dispose_keeps_stopped G d) as (H1 & H2 & _).
    unfold DCapture.capture. rewrite H1, H2. by destruct (DCapture.stopped d).
  - apply capture_stopped.
    destruct (dispose_keeps_stopped G (final (DCapture.stop d))) as (H1 & _). by rewrite H1.
Qed.

(** C1. For a session constructed with timeLimit = 0 and frameLimit = 0,
    after start() and any sequence of capture calls, interleaved with any
    turns of the event loop, the frame counter is the number of capture
    calls, and encoder.add was called exactly once for each of them, with
    its canvas, in the order of the calls. *)
Theorem every_capture_reaches_the_encoder
    (G : Globals) (options : Options) (d : DCapture.t)
    (now : Z) (callback : Callback) (acts : list Action) :
  DCapture.constructor G options = Built d ->
  (timeLimit (DCapture.settings d) == 0)%Q ->
  (frameLimit (DCapture.settings d) == 0)%Q ->
  forallb observed acts = true ->
  let w := run (Start now callback :: acts) (load G d) in
  DCapture.frames (capturer w) = length (captured acts)
  /\ adds (log w) = captured acts
  /\ DCapture.stopped (capturer w) = false.
Proof.
  intros Hd Ht Hf Hobs.
  destruct (constructor_built _ _ _ Hd) as (_ & C2 & _ & C4).
  destruct (perform_start G now callback d C4) as (_ & S2 & S3 & S4 & _ & S6 & S7 & _).
  cbn zeta. rewrite run_cons.
  destruct (run_within acts (perform (Start now callback) (load G d)) (length (captured acts)) Hobs)
    as (R1 & _ & _ & R4 & R5 & _).
  - congruence.
  - done.
  - rewrite S3. by apply Qltb_zero.
  - rewrite S3. by apply below_no_limit.
  - lia.
  - rewrite R4, R5, S4, S7. done.
Qed.

(** C2, as amended. For a session constructed with frameLimit = F > 0, no
    time limit and motionBlurFrames <= 1: as long as fewer than F frames
    were captured after start() the session is not stopped and nothing is
    scheduled; the F-th capture sets the stopped flag and schedules one
    chain that stops the encoder and then saves; every capture after it,
    whatever happens in between, leaves the whole page as it is. *)
Theorem frame_limit_stops_at_its_frame
    (G : Globals) (options : Options) (d : DCapture.t) (F : nat)
    (now : Z) (callback : Callback) (acts : list Action) (now' : Z) (c : Canvas) :
  DCapture.constructor G options = Built d ->
  0 < F ->
  (frameLimit (DCapture.settings d) == inject_Z (Z.of_nat F))%Q ->
  (timeLimit (DCapture.settings d) == 0)%Q ->
  blurred d = false ->
  forallb observed acts = true ->
  length (captured acts) < F ->
  let w := run (Start now callback :: acts) (load G d) in
  let w' := perform (Capture now' c) w in
  (DCapture.stopped (capturer w) = false /\ scheduled (log w) = [])
  /\ (length (captured acts) = F - 1 ->
      DCapture.stopped (capturer w') = true
      /\ scheduled (log w') = [[StopEncoder; LogStopped; Save]]
      /\ forall later now'' c',
           perform (Capture now'' c') (run later w') = run later w').
Proof.
  intros Hd HF Hfl Htl Hb Hobs Hlen.
  destruct (constructor_built _ _ _ Hd) as (_ & C2 & _ & C4).
  destruct (perform_start G now callback d C4)
    as (_ & S2 & S3 & S4 & _ & S6 & _ & S8 & _).
  cbn zeta. rewrite run_cons.
  set (w0 := perform (Start now callback) (load G d)) in *.
  destruct (run_within acts w0 (F - 1) Hobs) as (R1 & R2 & R3 & R4 & _ & R6 & _).
  - congruence.
  - done.
  - rewrite S3. by apply Qltb_zero.
  - rewrite S3. by apply below_frame_limit.
  - lia.
  - split; [split; [done|congruence]|]. intros Hlast.
    destruct (perform_capture_running now' c (run acts w0) R1 R2)
      as (_ & _ & _ & _ & _ & P6 & _ & _ & P9).
    assert (Hblur : blurred (capturer (run acts w0)) = false).
    { unfold blurred in *. by rewrite R3, S3. }
    assert (Htime : time_up now' (capturer (run acts w0)) = false).
    { unfold time_up. rewrite R3, S3. by rewrite Qltb_zero. }
    assert (Hframe : frame_up (capturer (run acts w0)) = true).
    { apply (frame_up_at_limit _ F); [done|by rewrite R3, S3|]. rewrite R4, S4. lia. }
    rewrite Hblur, Htime, Hframe in *. cbn in P6.
    split; [done|]. split; [by rewrite P9, R6, S8|].
    intros later now'' c'. apply perform_capture_stopped. by apply run_stopped.
Qed.

Lemma lacks_backend_on G event h enc :
  lacks_backend G enc -> lacks_backend G (Encoder.on event h enc).
Proof. by destruct enc. Qed.

Lemma start_reports G enc :
  lacks_backend G enc ->
  exists msg, In (Emitted "error" (Str msg)) (effects (Encoder.start G enc)).
Proof.
  destruct enc as [e|e|e|e|e]; cbn [lacks_backend Encoder.start]; intros H.
  - unfold DCMediaRecorderEncoder.start. rewrite H. cbn. eauto.
  - unfold DCTarEncoder.start, DCTarEncoder.dispose. rewrite H. cbn. eauto.
  - unfold DCTarEncoder.start, DCTarEncoder.dispose. rewrite H. cbn. eauto.
  - unfold DCGIFEncoder.start. rewrite H. cbn. eauto.
  - unfold DCWhammyEncoder.start. rewrite H. cbn. eauto.
Qed.

Lemma start_effects G now cb d enc :
  DCapture.encoder d = Some enc ->
  exists l, effects (DCapture.start G now cb d) = EncoderStart :: effects (Encoder.start G enc) ++ l.
Proof.
  intros He. destruct d as [s st fr scb sp en di]. cbn in He. subst.
  pose proof (total_start G enc) as Ht. unfold total in Ht.
  unfold DCapture.start. dc_eval. rewrite Ht. dc_eval. eauto.
Qed.

Lemma log_extends a w : exists l, log (perform a w) = log w ++ l.
Proof.
  destruct (background a) eqn:Hb.
  { destruct (undisturbed_background a w Hb) as (_ & _ & l & Hl & _). eauto. }
  destruct a; try discriminate; cbn [perform]; try (eexists; apply log_after).
  destruct (DCapture.encoder _); eexists; rewrite log_after; reflexivity.
Qed.

Lemma run_observed acts : forall w,
  forallb observed acts = true ->
  is_Some (DCapture.encoder (capturer w)) ->
  is_Some (DCapture.encoder (capturer (run acts w)))
  /\ raised (log (run acts w)) = raised (log w)
  /\ exists l, log (run acts w) = log w ++ l.
Proof.
  induction acts as [|a acts IH]; intros w Hobs He.
  - split; [done|]. split; [done|]. exists []. by rewrite app_nil_r.
  - rewrite run_cons. cbn [forallb] in Hobs. apply andb_prop in Hobs as [Ha Hobs].
    assert (H : is_Some (DCapture.encoder (capturer (perform a w)))
                /\ raised (log (perform a w)) = raised (log w)).
    { destruct (background a) eqn:Hb.
      - pose proof (undisturbed_background a w Hb) as Hu.
        destruct (undisturbed_silent _ _ Hu) as (_ & _ & U3).
        destruct Hu as (_ & (_ & _ & _ & _ & S5) & _). auto.
      - destruct a as [| now c | | | | | | | |]; try discriminate.
        destruct (DCapture.stopped (capturer w)) eqn:Hs.
        + by rewrite perform_capture_stopped.
        + destruct (perform_capture_running now c w Hs He)
            as (_ & _ & _ & _ & P5 & _ & _ & P8 & _). auto. }
    destruct H as [H1 H2]. destruct (IH _ Hobs H1) as (I1 & I2 & l & I3).
    destruct (log_extends a w) as [l0 Hl0].
    split; [done|]. split; [congruence|]. exists (l0 ++ l). by rewrite I3, Hl0, app_assoc.
Qed.

Lemma createEncoder_degrades G s :
  degrades (format s) = true -> backend_available G (format s) = false ->
  exists enc, DCapture.createEncoder G s = Built enc /\ lacks_backend G enc.
Proof.
  unfold degrades, backend_available, DCapture.createEncoder.
  destruct (String.eqb (format s) "webm-mediarecorder"); cbn [orb].
  { intros _ H. eexists. split; [reflexivity|].
    do 2 apply lacks_backend_on. exact H. }
  destruct (String.eqb (format s) "png"); cbn [orb].
  { intros _ H. eexists. split; [reflexivity|]. do 2 apply lacks_backend_on. exact H. }
  destruct (String.eqb (format s) "jpg"); cbn [orb].
  { intros _ H. eexists. split; [reflexivity|]. do 2 apply lacks_backend_on. exact H. }
  destruct (String.eqb (format s) "jpeg"); cbn [orb].
  { intros _ H. eexists. split; [reflexivity|]. do 2 apply lacks_backend_on. exact H. }
  destruct (String.eqb (format s) "gif"); [|done].
  intros _ H. eexists. split; [reflexivity|]. do 2 apply lacks_backend_on. exact H.
Qed.

Lemma createEncoder_throws G s :
  degrades (format s) = false -> backend_available G (format s) = false ->
  DCapture.createEncoder G s = Failed "Whammy is not loaded".
Proof.
  unfold degrades, backend_available, DCapture.createEncoder.
  destruct (String.eqb (format s) "webm-mediarecorder"); [done|].
  destruct (String.eqb (format s) "png"); [done|].
  destruct (String.eqb (format s) "jpg"); [done|].
  destruct (String.eqb (format s) "jpeg"); [done|].
  destruct (String.eqb (format s) "gif"); [done|]. cbn [orb].
  intros _ H. unfold DCWhammyEncoder.constructor. by rewrite H.
Qed.

(** C4, as amended. When the backend of the chosen format is missing: for
    the formats webm-mediarecorder, png, jpg, jpeg and gif the constructor
    builds the session without throwing, start() emits an 'error' event,
    and neither start() nor any capture call that follows, with any turns
    of the event loop in between, throws to the caller; for every other
    format, webm included, the constructor throws 'Whammy is not
    loaded'. *)
Theorem missing_backend_is_reported_or_thrown
    (G : Globals) (options : Options) :
  backend_available G (format (assign defaults options)) = false ->
  if degrades (format (assign defaults options)) then
    exists d,
      DCapture.constructor G options = Built d
      /\ forall now callback acts,
           forallb observed acts = true ->
           let w := run (Start now callback :: acts) (load G d) in
           raised (log w) = []
           /\ exists msg, In (Emitted "error" (Str msg)) (log w)
  else DCapture.constructor G options = Failed "Whammy is not loaded".
Proof.
  intros Hb. destruct (degrades _) eqn:Hd.
  - destruct (createEncoder_degrades G _ Hd Hb) as (enc & Hc & Hl).
    unfold DCapture.constructor. rewrite Hc. eexists. split; [reflexivity|].
    intros now callback acts Hobs. cbn zeta. rewrite run_cons.
    set (d := DCapture.Build_t _ _ _ _ _ _ _).
    assert (He : is_Some (DCapture.encoder d)) by (by eexists).
    destruct (perform_start G now callback d He) as (_ & _ & _ & _ & _ & S6 & _ & _ & S9).
    destruct (run_observed acts _ Hobs S6) as (_ & R2 & l & R3).
    split; [congruence|].
    destruct (start_reports G enc Hl) as [msg Hmsg]. exists msg.
    destruct (start_effects G now callback d enc eq_refl) as [l' Hl'].
    rewrite R3. apply in_or_app. left.
    cbn [perform load globals capturer]. rewrite log_after.
    apply in_or_app. right. apply in_or_app. left. rewrite Hl'.
    right. apply in_or_app. by left.
  - unfold DCapture.constructor. by rewrite (createEncoder_throws G _ Hd Hb).
Qed.

Ltac conj := repeat match goal with |- _ /\ _ => split end.

Lemma add_archive c enc e b :
  archive enc = Some e -> blob_of enc c = ToBlobCalls (Some b) ->
  Encoder.add c enc = mkOutcome None enc [Requested (ToBlobCallback (Some b))].
Proof.
  destruct enc as [|pe|je| |]; try discriminate; cbn; intros _ H.
  - unfold DCPNGEncoder.add. by rewrite H.
  - unfold DCJPEGEncoder.add. by rewrite H.
Qed.

Lemma complete_archive G task enc e :
  archive enc = Some e ->
  let o := Encoder.complete G task enc in
  thrown o = thrown (archive_step G task e)
  /\ archive (final o) = Some (final (archive_step G task e))
  /\ effects o = effects (archive_step G task e).
Proof.
  destruct enc as [|pe|je| |]; try discriminate; cbn; intros [= <-];
    destruct task as [[b|]| | | |]; cbn; done.
Qed.

Lemma relay_spec calls : forall d,
  let o := DCapture.relay calls d in
  thrown o = None
  /\ DCapture.encoder (final o) = DCapture.encoder d
  /\ Forall (fun e => is_progress e = true) (effects o).
Proof.
  induction calls as [|e calls IH]; intros d; [by repeat split|].
  destruct e; try apply IH. destruct h; try apply IH. destruct data; try apply IH.
  cbn [DCapture.relay].
  set (d1 := DCapture.updateProgress q d).
  assert (E1 : DCapture.encoder d1 = DCapture.encoder d).
  { unfold d1, DCapture.updateProgress. by destruct (DCapture.display d). }
  destruct (IH d1) as (I1 & I2 & I3).
  destruct (onProgress (DCapture.settings d)); dc_eval; fold d1;
    rewrite I1; (split; [done|]); (split; [congruence|]);
    repeat constructor; done.
Qed.

Lemma progress_silent l :
  Forall (fun e => is_progress e = true) l ->
  artifacts l = [] /\ requested l = [] /\ scheduled l = [].
Proof.
  induction 1 as [|e l He _ (I1 & I2 & I3)]; [done|].
  destruct e; try discriminate; cbn; auto.
Qed.

Lemma requested_app l1 l2 : requested (l1 ++ l2) = requested l1 ++ requested l2.
Proof. apply omap_app. Qed.

Lemma quiet_unscheduled l :
  Forall (fun e => internal e = true) l -> scheduled l = [].
Proof. intros H. by destruct (quiet_adds _ H). Qed.

Lemma artifacts_report (o : option string) :
  artifacts (match o with Some msg => [Unhandled msg] | None => [] end) = []
  /\ requested (match o with Some msg => [Unhandled msg] | None => [] end) = []
  /\ scheduled (match o with Some msg => [Unhandled msg] | None => [] end) = [].
Proof. by destruct o. Qed.

(** A task of an image-sequence session completes. *)
Lemma turn_archive task ts w e :
  archive_of w = Some e -> tasks w = task :: ts -> task <> RecorderStopped ->
  let o := archive_step (globals w) task e in
  let w' := perform (Turn 0) w in
  globals w' = globals w
  /\ archive_of w' = Some (final o)
  /\ tasks w' = ts ++ requested (effects o)
  /\ microtasks w' = microtasks w
  /\ artifacts (log w') = artifacts (log w) ++ artifacts (effects o)
  /\ steady (capturer w) (capturer w').
Proof.
  unfold archive_of. intros Ha Ht Hr.
  destruct (DCapture.encoder (capturer w)) as [enc|] eqn:He; [|done].
  destruct (complete_archive (globals w) task enc e Ha) as (C1 & C2 & C3).
  pose proof (quiet_complete (globals w) task enc) as Hq.
  cbn [perform]. rewrite Ht. cbn [lookup list_lookup]. unfold turn.
  rewrite Ht. cbn [take drop app].
  set (w0 := set_tasks ts w).
  assert (Hev : encoder_event (Encoder.complete (globals w0) task) w0
                = after Unhandled
                    (heard (Encoder.complete (globals w) task enc)
                       (DCapture.set_encoder
                          (Some (final (Encoder.complete (globals w) task enc)))
                          (capturer w))) w0).
  { unfold encoder_event. cbn [w0 capturer set_tasks globals]. by rewrite He. }
  set (o := Encoder.complete (globals w) task enc) in *.
  destruct (relay_spec (effects o) (DCapture.set_encoder (Some (final o)) (capturer w)))
    as (R1 & R2 & R3).
  destruct (progress_silent _ R3) as (P1 & P2 & P3).
  destruct (passive_heard o (capturer w) Hq) as [Hsteady _].
  destruct (artifacts_report (thrown o)) as (A1 & A2 & A3).
  replace (match task with RecorderStopped => _ | _ => _ end)
    with (encoder_event (Encoder.complete (globals w0) task) w0) by (by destruct task).
  rewrite Hev. unfold after, heard. cbn.
  rewrite ?requested_app, ?scheduled_app, ?artifacts_app, ?P1, ?P2, ?P3, ?A1, ?A2, ?A3.
  rewrite (quiet_unscheduled _ Hq), ?app_nil_r, R2. cbn. rewrite C2, C3.
  unfold heard in Hsteady. cbn [final] in Hsteady. rewrite C3 in Hsteady.
  repeat split; try done; apply Hsteady.
Qed.

Lemma settle_step fuel w task ts :
  microtasks w = [] -> tasks w = task :: ts ->
  settle (S fuel) w = settle fuel (perform (Turn 0) w).
Proof. intros Hm Ht. cbn [settle]. by rewrite Hm, Ht. Qed.

Lemma settle_idle fuel w : microtasks w = [] -> tasks w = [] -> settle fuel w = w.
Proof. intros Hm Ht. destruct fuel; [done|]. cbn [settle]. by rewrite Hm, Ht. Qed.

(** The conversions complete: every blob is handed to a FileReader. *)
Lemma settle_conversions blobs : forall reads w e fuel,
  archive_of w = Some e -> microtasks w = [] ->
  tasks w = map (fun b => ToBlobCallback (Some b)) blobs ++ map FileReaderLoad reads ->
  exists w',
    settle (length blobs + fuel) w = settle fuel w'
    /\ globals w' = globals w
    /\ archive_of w' = Some e
    /\ microtasks w' = []
    /\ tasks w' = map FileReaderLoad (reads ++ blobs)
    /\ artifacts (log w') = artifacts (log w)
    /\ steady (capturer w) (capturer w').
Proof.
  induction blobs as [|b blobs IH]; intros reads w e fuel Ha Hm Ht.
  - exists w. cbn in *. rewrite ?app_nil_r. repeat split; done.
  - cbn [map app] in Ht.
    destruct (turn_archive _ _ w e Ha Ht) as (T1 & T2 & T3 & T4 & T5 & T6); [done|].
    change (archive_step (globals w) (ToBlobCallback (Some b)) e)
      with (mkOutcome None e [Requested (FileReaderLoad b)]) in T2, T3, T5.
    cbn [final effects requested artifacts omap list_omap] in T2, T3, T5.
    destruct (IH (reads ++ [b]) (perform (Turn 0) w) e fuel) as (w' & I1 & I2 & I3 & I4 & I5 & I6 & I7).
    + done.
    + congruence.
    + rewrite T3, map_app, <- app_assoc. done.
    + exists w'. cbn [length plus]. rewrite (settle_step _ _ _ _ Hm Ht), I1.
      rewrite <- app_assoc in I5. rewrite app_nil_r in T5. cbn [app] in I5.
      conj; try congruence. by eapply steady_trans.
Qed.

(** A load requests nothing more of the browser. *)
Lemma requested_onload G result e : requested (effects (DCTarEncoder.onload G result e)) = [].
Proof.
  assert (H : only answer (DCTarEncoder.onload G result e)) by (by apply only_tar_onload).
  unfold only in H. induction H as [|x l Hx _ IH]; [done|].
  destruct x; try discriminate; cbn; auto.
Qed.

(** The reads complete: every blob is appended to the archive. *)
Lemma settle_reads G ext blobs : forall k w e fuel,
  globals w = G -> hasTar G = true ->
  archive_of w = Some e -> writing ext k e -> microtasks w = [] ->
  tasks w = map FileReaderLoad blobs ->
  exists w',
    settle (length blobs + fuel) w = settle fuel w'
    /\ globals w' = G
    /\ archive_of w' = Some (final (reads G (map Loaded blobs) e))
    /\ microtasks w' = []
    /\ tasks w' = []
    /\ artifacts (log w')
       = artifacts (log w) ++ artifacts (effects (reads G (map Loaded blobs) e))
    /\ steady (capturer w) (capturer w').
Proof.
  induction blobs as [|b blobs IH]; intros k w e fuel HG HT Ha Hw Hm Ht.
  - exists w. cbn in *. rewrite ?app_nil_r. conj; done.
  - cbn [map] in Ht.
    destruct (turn_archive _ _ w e Ha Ht) as (T1 & T2 & T3 & T4 & T5 & T6); [done|].
    rewrite HG in *. cbn [archive_step] in *.
    destruct (read_spec G ext k (Loaded b) e HT Hw) as (R1 & _ & _ & _ & k' & _ & Hw' & _).
    cbn [read] in *.
    rewrite requested_onload, app_nil_r in T3.
    destruct (IH k' (perform (Turn 0) w) (final (DCTarEncoder.onload G b e)) fuel)
      as (w' & I1 & I2 & I3 & I4 & I5 & I6 & I7);
      [congruence|done|done|done|congruence|done|].
    exists w'. cbn [length plus]. rewrite (settle_step _ _ _ _ Hm Ht), I1.
    cbn [map reads read]. rewrite (andThen_normal _ _ R1). cbn [final effects].
    rewrite artifacts_app, app_assoc, <- T5.
    conj; try congruence. by eapply steady_trans.
Qed.



Lemma capture_archive now c d enc e b :
  DCapture.stopped d = false -> DCapture.encoder d = Some enc ->
  archive enc = Some e -> blob_of enc c = ToBlobCalls (Some b) ->
  Qltb 0 (timeLimit (DCapture.settings d)) = false ->
  Qltb 0 (frameLimit (DCapture.settings d)) = false ->
  let o := DCapture.capture now c d in
  thrown o = None
  /\ DCapture.encoder (final o) = Some enc
  /\ DCapture.stopped (final o) = false
  /\ DCapture.settings (final o) = DCapture.settings d
  /\ effects o = [EncoderAdd c; Requested (ToBlobCallback (Some b))].
Proof.
  intros Hs He Ha Hb Ht Hf. destruct d as [s st fr scb sp en di]. cbn in *. subst.
  pose proof (add_archive c enc e b Ha Hb) as Hadd.
  dc_eval.
  destruct (Qltb 1 _); dc_eval; rewrite Hadd; dc_eval; [done|].
  destruct (settings_display s), di; dc_eval; rewrite Ht; cbn [andb]; dc_eval;
    rewrite Hf; cbn [andb]; dc_eval; done.
Qed.

Lemma perform_capture_archive now c w enc e b :
  DCapture.stopped (capturer w) = false -> DCapture.encoder (capturer w) = Some enc ->
  archive enc = Some e -> blob_of enc c = ToBlobCalls (Some b) ->
  Qltb 0 (timeLimit (DCapture.settings (capturer w))) = false ->
  Qltb 0 (frameLimit (DCapture.settings (capturer w))) = false ->
  let w' := perform (Capture now c) w in
  globals w' = globals w
  /\ DCapture.encoder (capturer w') = Some enc
  /\ DCapture.stopped (capturer w') = false
  /\ DCapture.settings (capturer w') = DCapture.settings (capturer w)
  /\ tasks w' = tasks w ++ [ToBlobCallback (Some b)]
  /\ microtasks w' = microtasks w
  /\ artifacts (log w') = artifacts (log w).
Proof.
  intros Hs He Ha Hb Ht Hf.
  destruct (capture_archive now c _ enc e b Hs He Ha Hb Ht Hf) as (H1 & H2 & H3 & H4 & H5).
  cbn [perform]. unfold after. cbn. rewrite H1, H5. cbn.
  rewrite artifacts_app, ?app_nil_r. cbn. rewrite ?app_nil_r. by conj.
Qed.

Lemma run_captures_archive enc e frames : forall blobs w,
  Forall2 (fun f b => blob_of enc (snd f) = ToBlobCalls (Some b)) frames blobs ->
  DCapture.stopped (capturer w) = false -> DCapture.encoder (capturer w) = Some enc ->
  archive enc = Some e ->
  Qltb 0 (timeLimit (DCapture.settings (capturer w))) = false ->
  Qltb 0 (frameLimit (DCapture.settings (capturer w))) = false ->
  let w' := run (captures frames) w in
  globals w' = globals w
  /\ DCapture.encoder (capturer w') = Some enc
  /\ DCapture.stopped (capturer w') = false
  /\ tasks w' = tasks w ++ map (fun b => ToBlobCallback (Some b)) blobs
  /\ microtasks w' = microtasks w
  /\ artifacts (log w') = artifacts (log w).
Proof.
  induction frames as [|[now c] frames IH]; intros blobs w HF Hs He Ha Ht Hf.
  - apply Forall2_nil_inv_l in HF as ->. cbn. rewrite app_nil_r. by conj.
  - apply Forall2_cons_inv_l in HF as (b & blobs' & Hb & HF & ->).
    cbn [captures map fst snd]. rewrite run_cons.
    destruct (perform_capture_archive now c w enc e b Hs He Ha Hb Ht Hf)
      as (P1 & P2 & P3 & P4 & P5 & P6 & P7).
    destruct (IH blobs' (perform (Capture now c) w) HF P3 P2 Ha)
      as (I1 & I2 & I3 & I4 & I5 & I6); [by rewrite P4..|].
    fold (captures frames). rewrite I4, P5, <- app_assoc. cbn [app].
    conj; congruence.
Qed.

Lemma start_archive G now cb d enc e :
  DCapture.encoder d = Some enc -> archive enc = Some e -> hasTar G = true ->
  let w := perform (Start now cb) (load G d) in
  globals w = G
  /\ (exists enc', DCapture.encoder (capturer w) = Some enc'
        /\ archive enc' = Some (final (DCTarEncoder.start G e))
        /\ forall c, blob_of enc' c = blob_of enc c)
  /\ DCapture.stopped (capturer w) = DCapture.stopped d
  /\ DCapture.settings (capturer w) = DCapture.settings d
  /\ tasks w = [] /\ microtasks w = [] /\ artifacts (log w) = [].
Proof.
  intros He Ha HG. destruct d as [s st fr scb sp en di]. cbn in He. subst.
  cbn [perform load globals capturer]. unfold after, DCapture.start. dc_eval.
  destruct enc as [|pe|je| |]; try discriminate; cbn in Ha; injection Ha as <-;
    cbn [Encoder.start]; unfold DCTarEncoder.start, DCTarEncoder.dispose; rewrite HG;
    dc_eval; destruct cb; dc_eval; cbn; conj; eauto.
Qed.

Lemma finish_archive id w enc e tp :
  DCapture.encoder (capturer w) = Some enc -> archive enc = Some e ->
  DCTarEncoder.tape e = Some tp -> microtasks w = [] ->
  artifacts (log (run [Stop; Tick; Tick; SaveTo (Fn id)] w))
  = artifacts (log w) ++ [TarArchive tp].
Proof.
  intros He Ha Ht Hm. destruct w as [G d det mt pk ts lg]. cbn in He, Hm. subst mt.
  destruct d as [s st fr scb sp en di]. cbn in He. subst en.
  destruct enc as [|pe|je| |]; try discriminate; cbn in Ha; injection Ha as <-.
  - destruct pe as [e ty]. cbn in Ht.
    unfold run. cbn [fold_left perform]. unfold tick, after. cbn.
    destruct di; cbn; unfold DCTarEncoder.save; cbn; rewrite Ht; cbn;
      rewrite !artifacts_app; cbn; by rewrite ?app_nil_r.
  - destruct je as [e ty q]. cbn in Ht.
    unfold run. cbn [fold_left perform]. unfold tick, after. cbn.
    destruct di; cbn; unfold DCTarEncoder.save; cbn; rewrite Ht; cbn;
      rewrite !artifacts_app; cbn; by rewrite ?app_nil_r.
Qed.

Lemma createEncoder_archive G s :
  is_archive (format s) = true ->
  exists enc e,
    DCapture.createEncoder G s = Built enc
    /\ archive enc = Some e
    /\ DCTarEncoder.settings e = s
    /\ DCTarEncoder.frames e = 0
    /\ DCTarEncoder.fileExtension e = entry_extension s
    /\ forall c, blob_of enc c = frame_blob s c.
Proof.
  unfold is_archive, DCapture.createEncoder, entry_extension, frame_blob.
  destruct (String.eqb (format s) "png") eqn:E1.
  { apply String.eqb_eq in E1. rewrite E1. intros _. cbn. eauto 10. }
  destruct (String.eqb (format s) "jpg") eqn:E2.
  { apply String.eqb_eq in E2. rewrite E2. intros _. cbn. eauto 10. }
  destruct (String.eqb (format s) "jpeg") eqn:E3; [|done].
  apply String.eqb_eq in E3. rewrite E3. intros _. cbn. eauto 10.
Qed.

Lemma start_writing G e :
  hasTar G = true ->
  let e1 := final (DCTarEncoder.start G e) in
  writing (DCTarEncoder.fileExtension e) 0 e1
  /\ DCTarEncoder.settings e1 = DCTarEncoder.settings e
  /\ DCTarEncoder.frames e1 = DCTarEncoder.frames e
  /\ DCTarEncoder.count e1 = 0.
Proof.
  intros HG. unfold DCTarEncoder.start, DCTarEncoder.dispose. rewrite HG. cbn.
  split; [|done]. exists []. by conj.
Qed.

Lemma session_archive G options d now frames blobs id :
  DCapture.constructor G options = Built d ->
  is_archive (format (DCapture.settings d)) = true ->
  hasTar G = true ->
  (timeLimit (DCapture.settings d) == 0)%Q ->
  (frameLimit (DCapture.settings d) == 0)%Q ->
  Forall2 (fun f b => frame_blob (DCapture.settings d) (snd f) = ToBlobCalls (Some b))
          frames blobs ->
  exists e1 k tp,
    writing (entry_extension (DCapture.settings d)) 0 e1
    /\ DCTarEncoder.settings e1 = DCapture.settings d
    /\ DCTarEncoder.frames e1 = 0
    /\ DCTarEncoder.count e1 = 0
    /\ writing (entry_extension (DCapture.settings d)) k
               (final (reads G (map Loaded blobs) e1))
    /\ DCTarEncoder.tape (final (reads G (map Loaded blobs) e1)) = Some tp
    /\ artifacts (log (session now frames id (load G d)))
       = artifacts (effects (reads G (map Loaded blobs) e1)) ++ [TarArchive tp].
Proof.
  intros Hd Hfmt HG Ht Hf HF.
  destruct (constructor_built _ _ _ Hd) as (Hs & _).
  unfold DCapture.constructor in Hd.
  destruct (createEncoder_archive G (assign defaults options)) as (enc & e & C1 & C2 & C3 & C4 & C5 & C6).
  { by rewrite <- Hs. }
  rewrite C1 in Hd. injection Hd as <-. cbn [DCapture.settings] in *.
  set (s := assign defaults options) in *.
  set (d := DCapture.Build_t _ _ _ _ _ _ _).
  destruct (start_archive G now NoCallback d enc e eq_refl C2 HG)
    as (S1 & (enc1 & S2 & S3 & S4) & S5 & S6 & S7 & S8 & S9).
  destruct (start_writing G e HG) as (W1 & W2 & W3 & W4).
  set (e1 := final (DCTarEncoder.start G e)) in *.
  set (w0 := perform (Start now NoCallback) (load G d)) in *.
  assert (HF' : Forall2 (fun f b => blob_of enc1 (snd f) = ToBlobCalls (Some b)) frames blobs).
  { eapply Forall2_impl; [exact HF|]. intros f b Hb. cbn in Hb. by rewrite S4, C6. }
  destruct (run_captures_archive enc1 e1 frames blobs w0 HF')
    as (R1 & R2 & R3 & R4 & R5 & R6);
    [done|done|done|rewrite S6; by apply Qltb_zero..|].
  rewrite S7 in R4. cbn [app] in R4.
  set (w1 := run (captures frames) w0) in *.
  assert (Hlen : length blobs = length frames) by (symmetry; by eapply Forall2_length).
  assert (A1 : archive_of w1 = Some e1) by (unfold archive_of; by rewrite R2).
  destruct (settle_conversions blobs [] w1 e1 (length blobs + 0) A1)
    as (w2 & V1 & V2 & V3 & V4 & V5 & V6 & V7);
    [congruence|rewrite R4; cbn [map]; by rewrite app_nil_r|].
  cbn [app] in V5.
  destruct (reads_spec G (entry_extension s) (map Loaded blobs) 0 e1 HG)
    as (Q1 & _ & _ & _ & k & _ & Q2 & _); [by rewrite <- C5|].
  destruct (settle_reads G (entry_extension s) blobs 0 w2 e1 0)
    as (w3 & U1 & U2 & U3 & U4 & U5 & U6 & U7);
    [congruence|done|done|by rewrite <- C5|done|done|].
  destruct Q2 as (tp & Q3 & Q4).
  exists e1, k, tp. split; [by rewrite <- C5|]. split; [congruence|]. split; [congruence|].
  split; [done|].
  split; [by exists tp|]. split; [done|].
  unfold session.
  change (run (Start now NoCallback :: captures frames) (load G d)) with w1.
  replace (2 * length frames) with (length blobs + (length blobs + 0)) by lia.
  rewrite V1, U1. cbn [settle].
  unfold archive_of in U3. destruct (DCapture.encoder (capturer w3)) as [enc3|] eqn:E3; [|done].
  rewrite (finish_archive id w3 enc3 _ tp E3 U3 Q3 U4).
  rewrite U6, V6, R6, S9. done.
Qed.

Lemma Qltb_true a b : Qltb a b = true <-> (a < b)%Q.
Proof.
  unfold Qltb. rewrite negb_true_iff. split.
  - intros H. apply Qnot_le_lt. intros Hle. apply Qle_bool_iff in Hle. congruence.
  - intros H. apply not_true_is_false. rewrite Qle_bool_iff. by apply Qlt_not_le.
Qed.



Lemma counter_of_zero s : counter_of ("0" +:+ s) = counter_of s.
Proof.
  unfold counter_of. change ("0" +:+ s) with (String "0"%char s).
  cbn [NilEmpty.uint_of_string]. by destruct (NilEmpty.uint_of_string s).
Qed.

Lemma counter_of_join_empty n s : counter_of (join_empty (n + 1) "0" +:+ s) = counter_of s.
Proof.
  rewrite Nat.add_1_r. induction n as [|n IH]; [done|].
  change (join_empty (S (S n)) "0") with ("0" +:+ join_empty (S n) "0").
  change (("0" +:+ join_empty (S n) "0") +:+ s) with ("0" +:+ (join_empty (S n) "0" +:+ s)).
  by rewrite counter_of_zero.
Qed.

Lemma counter_of_toString n : counter_of (toString n) = Some n.
Proof.
  unfold counter_of, toString.
  assert (H : NilZero.string_of_uint (Nat.to_uint n) = NilEmpty.string_of_uint (Nat.to_uint n)).
  { destruct (Nat.to_uint n) eqn:E; try reflexivity.
    pose proof (Unsigned.of_to n) as Hn. rewrite E in Hn. cbn in Hn. subst n. discriminate. }
  rewrite H, NilEmpty.usu. cbn. by rewrite Unsigned.of_to.
Qed.

(** An entry name stands for the counter it was made from. *)
Lemma counter_of_pad n width : counter_of (pad n width) = Some n.
Proof.
  unfold pad. destruct (width <=? String.length (toString n)).
  - apply counter_of_toString.
  - by rewrite counter_of_join_empty, counter_of_toString.
Qed.

Lemma pad_injective n m width : pad n width = pad m width -> n = m.
Proof.
  intros H. apply (f_equal counter_of) in H. rewrite !counter_of_pad in H. congruence.
Qed.

(** With no frame in the open part the next load does not close it. *)
Lemma rotates_fresh e : DCTarEncoder.frames e = 0 -> rotates e = false.
Proof.
  intros Hf. unfold rotates, quotient_reaches. rewrite Hf.
  destruct (Qltb 0 _) eqn:Ha; [|done]. cbn [andb].
  destruct (Qeq_bool _ 0); [done|].
  apply not_true_is_false. rewrite Qle_bool_iff. apply Qltb_true in Ha.
  intros H. apply (Qlt_not_le _ _ Ha). eapply Qle_trans; [exact H|].
  cbn. unfold Qdiv. rewrite Qmult_0_l. apply Qle_refl.
Qed.

Lemma reads_never G ext evs : forall k e,
  hasTar G = true -> writing ext k e ->
  (forall e', DCTarEncoder.settings e' = DCTarEncoder.settings e -> rotates e' = false) ->
  let o := reads G evs e in
  thrown o = None
  /\ artifacts (effects o) = []
  /\ writing ext k (final o)
  /\ DCTarEncoder.count (final o) = DCTarEncoder.count e + loaded evs.
Proof.
  induction evs as [|ev evs IH]; intros k e HG Hw Hrot.
  - cbn. by rewrite Nat.add_0_r.
  - destruct (read_spec G ext k ev e HG Hw) as (R1 & R2 & R3 & _).
    assert (Hstep : artifacts (effects (read G ev e)) = [] /\ writing ext k (final (read G ev e))).
    { destruct Hw as (tp & Ht & He & Hc & Hn). destruct ev as [result|]; cbn [read].
      - destruct (onload_keeps G result e tp Ht (Hrot e eq_refl))
          as (H1 & H2 & H3 & H4 & H5 & H6 & H7 & H8).
        split; [done|]. eexists. split; [exact H2|].
        rewrite map_app, length_app, seq_app, map_app. cbn.
        rewrite Hn, He, Hc, H3, H6. conj; try done; lia.
      - unfold DCTarEncoder.onerror, DCTarEncoder.emit. cbn. rewrite artifacts_calls.
        split; [done|]. by exists tp. }
    destruct Hstep as [A1 Hw1].
    destruct (IH k (final (read G ev e)) HG Hw1) as (I1 & I2 & I3 & I4).
    { intros e' He'. apply Hrot. congruence. }
    cbn [reads]. rewrite (andThen_normal _ _ R1). cbn [thrown final effects].
    rewrite artifacts_app, A1, I2, I4, R3. conj; try done.
    destruct ev; cbn; lia.
Qed.


(** C6. When the archive encoder has no tape (start was never called, or
    the archive writer could not be made), save(callback) does not throw,
    emits an 'error' event, leaves the encoder as it is and does not call
    the callback, whatever the callback is. *)
Theorem save_without_tape_reports_error
    (e : DCTarEncoder.t) (callback : Artifact -> DCTarEncoder.t -> Outcome DCTarEncoder.t)
    (cb : Callback) :
  DCTarEncoder.tape e = None ->
  DCTarEncoder.save callback e
  = DCTarEncoder.emit "error" (Str "No tape available for saving") e
  /\ let o := DCTarEncoder.save (DCTarEncoder.call cb) e in
     thrown o = None
     /\ final o = e
     /\ In (Emitted "error" (Str "No tape available for saving")) (effects o)
     /\ forall id blob, ~ In (Delivered id blob) (effects o).
Proof.
  intros Ht. unfold DCTarEncoder.save. rewrite Ht. split; [done|].
  cbn zeta. unfold DCTarEncoder.emit, DCFrameEncoder.emit. cbn.
  split; [done|]. split; [by destruct e|]. split; [by left|].
  intros id blob [H|H]; [discriminate|].
  unfold DCFrameEncoder.calls in H. destruct (_ !! _) as [l|]; [|done].
  apply in_map_iff in H as (h & Hh & _). discriminate.
Qed.

Lemma save_without_tape_reports_error_witness :
  DCTarEncoder.tape (DCTarEncoder.constructor defaults) = None
  /\ let o := DCTarEncoder.save (DCTarEncoder.call (Fn 0)) (DCTarEncoder.constructor defaults) in
     thrown o = None
     /\ final o = DCTarEncoder.constructor defaults
     /\ In (Emitted "error" (Str "No tape available for saving")) (effects o)
     /\ forall id blob, ~ In (Delivered id blob) (effects o).
Proof.
  split; [reflexivity|].
  apply (save_without_tape_reports_error (DCTarEncoder.constructor defaults)
           (DCTarEncoder.call (Fn 0)) (Fn 0)).
  reflexivity.
Defined.

Lemma constructor_png G :
  DCapture.constructor G png_at_10 = Built (built (DCapture.constructor G png_at_10)).
Proof. reflexivity. Qed.

(** C5. After start, for every sequence of completed reads (loads and
    failures), no load throws and every archive part, the closed ones and
    the one being written, holds entries named by consecutive counters
    padded with zeros to 6 characters, which stand for exactly these
    counters; below 10^6 the padded counter has exactly 6 digits.  In
    particular, a session with format png and framerate 10 that captures
    three canvases saves one archive whose entries are named 000000.png,
    000001.png and 000002.png. *)
Theorem entry_names_count_up_without_gaps
    (G : Globals) (e : DCTarEncoder.t) (evs : list ReadEvent)
    (now : Z) (f1 f2 f3 : Z * Canvas) (b1 b2 b3 : Bytes) (id : nat) :
  hasTar G = true ->
  toBlob (snd f1) "image/png" None = ToBlobCalls (Some b1) ->
  toBlob (snd f2) "image/png" None = ToBlobCalls (Some b2) ->
  toBlob (snd f3) "image/png" None = ToBlobCalls (Some b3) ->
  let o := reads G evs (final (DCTarEncoder.start G e)) in
  (thrown o = None
   /\ Forall (contiguous (DCTarEncoder.fileExtension e))
             (handed_out (effects o) ++ [DCTarEncoder.names (final o)])
   /\ forall n, counter_of (pad n 6) = Some n
                /\ 6 <= String.length (pad n 6)
                /\ (n < 10 ^ 6 -> String.length (pad n 6) = 6))
  /\ exists tp,
       artifacts (log (session now [f1; f2; f3] id
                         (load G (built (DCapture.constructor G png_at_10)))))
       = [TarArchive tp]
       /\ map fst tp = ["000000.png"; "000001.png"; "000002.png"].
Proof.
  intros HG H1 H2 H3. cbn zeta. split.
  - destruct (start_writing G e HG) as (W1 & _).
    destruct (reads_spec G _ evs 0 _ HG W1) as (R1 & _ & _ & R4 & k & _ & (tp & T1 & T2 & T3 & T4) & _).
    split; [done|]. split.
    + apply Forall_app. split; [done|]. constructor; [|constructor].
      exists k. unfold DCTarEncoder.names. by rewrite T1, T4, length_map, length_seq.
    + intros n. split; [apply counter_of_pad|]. rewrite length_pad.
      split; [lia|]. intros Hn. pose proof (length_toString n 5 Hn). lia.
  - destruct (session_archive G png_at_10 _ now [f1; f2; f3] [b1; b2; b3] id (constructor_png G))
      as (e1 & k & tp & W1 & W2 & W3 & W0 & W4 & W5 & W6); try done.
    { repeat constructor; assumption. }
    destruct (reads_never G ".png" (map Loaded [b1; b2; b3]) 0 e1 HG W1)
      as (N1 & N2 & (tp' & N3 & _ & N5 & N6) & N4).
    { intros e' He'. apply rotates_never. rewrite He', W2. cbn. apply Qle_refl. }
    exists tp. rewrite W6, N2. split; [done|].
    rewrite W5 in N3. injection N3 as <-.
    rewrite N5, W0 in N4. change (loaded (map Loaded [b1; b2; b3])) with 3 in N4.
    assert (Hl : length tp = 3) by lia. rewrite N6, Hl. reflexivity.
Qed.

Lemma entry_names_count_up_without_gaps_witness :
  let G := all_loaded in
  let e := DCTarEncoder.set_fileExtension ".png" (DCTarEncoder.constructor defaults) in
  let evs := [Loaded []; ReadFailed; Loaded []] in
  let f := (0%Z, plain_canvas []) in
  hasTar G = true
  /\ toBlob (snd f) "image/png" None = ToBlobCalls (Some [])
  /\ let o := reads G evs (final (DCTarEncoder.start G e)) in
     (thrown o = None
      /\ Forall (contiguous (DCTarEncoder.fileExtension e))
                (handed_out (effects o) ++ [DCTarEncoder.names (final o)])
      /\ forall n, counter_of (pad n 6) = Some n
                   /\ 6 <= String.length (pad n 6)
                   /\ (n < 10 ^ 6 -> String.length (pad n 6) = 6))
     /\ exists tp,
          artifacts (log (session 0 [f; f; f] 7
                            (load G (built (DCapture.constructor G png_at_10)))))
          = [TarArchive tp]
          /\ map fst tp = ["000000.png"; "000001.png"; "000002.png"].
Proof.
  cbn zeta. split; [reflexivity|]. split; [reflexivity|].
  apply (entry_names_count_up_without_gaps all_loaded
           (DCTarEncoder.set_fileExtension ".png" (DCTarEncoder.constructor defaults))
           [Loaded []; ReadFailed; Loaded []] 0
           (0%Z, plain_canvas []) (0%Z, plain_canvas []) (0%Z, plain_canvas [])
           [] [] [] 7); reflexivity.
Defined.

(** C10. When a load rotates the archive, the entry counter goes on from
    its value (plus one) while the frame counter of the part is zeroed and
    the part number grows by one: the closed part ends with the entry
    named by the old counter, the new part starts empty, and its first
    entry is named by the old counter plus one, which is never 000000.
    Over a whole session the names of all downloaded parts together with
    the open one, in order, are those of the counters 0, 1, 2, ... up to
    the entry counter. *)
Theorem rotation_keeps_the_entry_counter
    (G : Globals) (e : DCTarEncoder.t) (evs : list ReadEvent) (result next : Bytes) :
  hasTar G = true ->
  let ext := DCTarEncoder.fileExtension e in
  let before := final (reads G evs (final (DCTarEncoder.start G e))) in
  rotates before = true ->
  let o := DCTarEncoder.onload G result before in
  (thrown o = None
   /\ DCTarEncoder.count (final o) = DCTarEncoder.count before + 1
   /\ DCTarEncoder.frames (final o) = 0
   /\ DCTarEncoder.part (final o) = DCTarEncoder.part before + 1
   /\ (hasDownload G = true ->
       exists closed, artifacts (effects o) = [TarArchive closed]
         /\ last (map fst closed) = Some (entry_name ext (DCTarEncoder.count before)))
   /\ DCTarEncoder.names (final o) = []
   /\ DCTarEncoder.names (final (DCTarEncoder.onload G next (final o)))
      = [entry_name ext (DCTarEncoder.count before + 1)]
   /\ pad (DCTarEncoder.count before + 1) 6 <> pad 0 6)
  /\ (hasDownload G = true ->
      let all := reads G (evs ++ [Loaded result]) (final (DCTarEncoder.start G e)) in
      concat (handed_out (effects all) ++ [DCTarEncoder.names (final all)])
      = map (entry_name ext) (seq 0 (DCTarEncoder.count (final all)))).
Proof.
  intros HG ext before Hrot o.
  destruct (start_writing G e HG) as (W1 & _ & _ & W0).
  destruct (reads_spec G _ evs 0 _ HG W1) as (R1 & _ & _ & _ & k & _ & Hw & _).
  fold before in Hw. destruct Hw as (tp & T1 & T2 & T3 & T4).
  destruct (onload_rotates G result before tp T1 Hrot HG)
    as (H1 & H2 & H3 & H4 & H5 & H6 & H7 & H8).
  fold o in H1, H2, H3, H4, H5, H6, H7, H8.
  assert (Hfresh : rotates (final o) = false) by (by apply rotates_fresh).
  destruct (onload_keeps G next (final o) [] H2 Hfresh) as (K1 & K2 & _).
  split.
  - conj; try done.
    + intros HD. rewrite HD in H8.
      eexists. split; [exact H8|]. rewrite map_app. cbn [map fst]. by rewrite last_snoc, T2.
    + unfold DCTarEncoder.names. by rewrite H2.
    + unfold DCTarEncoder.names. rewrite K2. cbn. by rewrite H3, H6, T2.
    + intros E. apply pad_injective in E. lia.
  - intros HD. cbn zeta.
    destruct (reads_spec G _ (evs ++ [Loaded result]) 0 _ HG W1)
      as (Q1 & _ & _ & _ & k' & _ & (tp' & U1 & U2 & U3 & U4) & Q5).
    rewrite concat_app, (Q5 HD). cbn [concat]. rewrite app_nil_r.
    unfold DCTarEncoder.names. rewrite U1, U4, U3, <- map_app. f_equal.
    rewrite Nat.sub_0_r. by rewrite <- seq_app.
Qed.

Lemma rotation_keeps_the_entry_counter_witness :
  let G := all_loaded in
  let e := DCTarEncoder.set_fileExtension ".png"
             (DCTarEncoder.constructor (assign defaults png_autosave)) in
  let ext := DCTarEncoder.fileExtension e in
  let before := final (reads G [Loaded []] (final (DCTarEncoder.start G e))) in
  hasTar G = true /\ rotates before = true
  /\ let o := DCTarEncoder.onload G [] before in
     (thrown o = None
      /\ DCTarEncoder.count (final o) = DCTarEncoder.count before + 1
      /\ DCTarEncoder.frames (final o) = 0
      /\ DCTarEncoder.part (final o) = DCTarEncoder.part before + 1
      /\ (hasDownload G = true ->
          exists closed, artifacts (effects o) = [TarArchive closed]
            /\ last (map fst closed) = Some (entry_name ext (DCTarEncoder.count before)))
      /\ DCTarEncoder.names (final o) = []
      /\ DCTarEncoder.names (final (DCTarEncoder.onload G [] (final o)))
         = [entry_name ext (DCTarEncoder.count before + 1)]
      /\ pad (DCTarEncoder.count before + 1) 6 <> pad 0 6)
     /\ (hasDownload G = true ->
         let all := reads G ([Loaded []] ++ [Loaded []]) (final (DCTarEncoder.start G e)) in
         concat (handed_out (effects all) ++ [DCTarEncoder.names (final all)])
         = map (entry_name ext) (seq 0 (DCTarEncoder.count (final all)))).
Proof.
  cbn zeta. split; [reflexivity|]. split; [vm_compute; reflexivity|].
  apply (rotation_keeps_the_entry_counter all_loaded
           (DCTarEncoder.set_fileExtension ".png"
              (DCTarEncoder.constructor (assign defaults png_autosave)))
           [Loaded []] [] []); [reflexivity|vm_compute; reflexivity].
Defined.




Lemma every_capture_reaches_the_encoder_witness :
  let G := all_loaded in
  let d := built (DCapture.constructor G no_options) in
  let c1 := plain_canvas [] in
  let c2 := plain_canvas [Byte.x01] in
  let acts := [Capture 1 c1; Tick; Capture 2 c2; Turn 0; Capture 3 c1] in
  DCapture.constructor G no_options = Built d
  /\ (timeLimit (DCapture.settings d) == 0)%Q
  /\ (frameLimit (DCapture.settings d) == 0)%Q
  /\ forallb observed acts = true
  /\ let w := run (Start 0 NoCallback :: acts) (load G d) in
     DCapture.frames (capturer w) = length (captured acts)
     /\ adds (log w) = captured acts
     /\ DCapture.stopped (capturer w) = false.
Proof.
  cbn zeta. split; [reflexivity|]. split; [reflexivity|]. split; [reflexivity|].
  split; [reflexivity|].
  apply (every_capture_reaches_the_encoder all_loaded no_options
           (built (DCapture.constructor all_loaded no_options)) 0 NoCallback
           [Capture 1 (plain_canvas []); Tick; Capture 2 (plain_canvas [Byte.x01]);
            Turn 0; Capture 3 (plain_canvas [])]); reflexivity.
Defined.

Lemma frame_limit_stops_at_its_frame_witness :
  let G := all_loaded in
  let d := built (DCapture.constructor G two_frames) in
  let c := plain_canvas [] in
  let acts := [Capture 1 c; Tick] in
  DCapture.constructor G two_frames = Built d
  /\ 0 < 2
  /\ (frameLimit (DCapture.settings d) == inject_Z (Z.of_nat 2))%Q
  /\ (timeLimit (DCapture.settings d) == 0)%Q
  /\ blurred d = false
  /\ forallb observed acts = true
  /\ length (captured acts) < 2
  /\ let w := run (Start 0 NoCallback :: acts) (load G d) in
     let w' := perform (Capture 5 c) w in
     (DCapture.stopped (capturer w) = false /\ scheduled (log w) = [])
     /\ (length (captured acts) = 2 - 1 ->
         DCapture.stopped (capturer w') = true
         /\ scheduled (log w') = [[StopEncoder; LogStopped; Save]]
         /\ forall later now'' c',
              perform (Capture now'' c') (run later w') = run later w').
Proof.
  cbn zeta. split; [reflexivity|]. split; [lia|]. split; [reflexivity|].
  split; [reflexivity|]. split; [reflexivity|]. split; [reflexivity|]. split; [simpl; lia|].
  apply (frame_limit_stops_at_its_frame all_loaded two_frames
           (built (DCapture.constructor all_loaded two_frames)) 2 0 NoCallback
           [Capture 1 (plain_canvas []); Tick] 5 (plain_canvas []));
    [reflexivity|lia|reflexivity|reflexivity|reflexivity|reflexivity|simpl; lia].
Defined.

(** C2: with a time limit of one second as well, the first capture, two
    seconds after start, stops the session and schedules the save, two
    frames before the frame limit of three. *)
Lemma frame_limit_counterexample :
  let G := all_loaded in
  let d := built (DCapture.constructor G both_limits) in
  let w := run [Start 0 NoCallback; Capture 2000 (plain_canvas [])] (load G d) in
  DCapture.constructor G both_limits = Built d
  /\ (frameLimit (DCapture.settings d) == 3)%Q
  /\ DCapture.frames (capturer w) = 1
  /\ DCapture.stopped (capturer w) = true
  /\ scheduled (log w) = [[StopEncoder; LogStopped; Save]].
Proof. cbn zeta. split; [reflexivity|]. split; [reflexivity|]. vm_compute. by conj. Qed.

Lemma missing_backend_is_reported_or_thrown_witness :
  let G := nothing_loaded in
  backend_available G (format (assign defaults png_at_10)) = false
  /\ exists d,
       DCapture.constructor G png_at_10 = Built d
       /\ forall now callback acts,
            forallb observed acts = true ->
            let w := run (Start now callback :: acts) (load G d) in
            raised (log w) = []
            /\ exists msg, In (Emitted "error" (Str msg)) (log w).
Proof.
  cbn zeta. split; [reflexivity|].
  apply (missing_backend_is_reported_or_thrown nothing_loaded png_at_10). reflexivity.
Defined.

(** C4: without Whammy the constructor throws for the default format. *)
Lemma missing_whammy_counterexample :
  backend_available nothing_loaded (format (assign defaults no_options)) = false
  /\ DCapture.constructor nothing_loaded no_options = Failed "Whammy is not loaded".
Proof. split; reflexivity. Qed.

(** * Further properties of the code *)

Lemma each_app {A S} (f : A -> S -> Outcome S) xs ys : forall s,
  thrown (each f xs s) = None ->
  each f (xs ++ ys) s
  = mkOutcome (thrown (each f ys (final (each f xs s))))
              (final (each f ys (final (each f xs s))))
              (effects (each f xs s) ++ effects (each f ys (final (each f xs s)))).
Proof.
  induction xs as [|x xs IH]; intros s H; cbn [each app] in *.
  - cbn [ret thrown final effects app]. by destruct (each f ys s).
  - unfold andThen in *. destruct (thrown (f x s)) eqn:E; [congruence|].
    cbn [thrown final effects] in *. rewrite (IH _ H). cbn [thrown final effects].
    by rewrite app_assoc.
Qed.

(** X1. pad(n, width), for any width: the result has max(width, digits of
    n) characters, so no digit of n is ever cut off; it is the decimal of n
    itself when that is wide enough; it reads back as n, so that two
    counters never share a padded name. *)
Theorem pad_keeps_every_digit (n width : nat) :
  String.length (pad n width) = Nat.max width (String.length (toString n))
  /\ (width <= String.length (toString n) -> pad n width = toString n)
  /\ counter_of (pad n width) = Some n
  /\ forall m, pad n width = pad m width -> n = m.
Proof.
  split; [apply length_pad|]. split.
  - intros H. unfold pad. apply Nat.leb_le in H. by rewrite H.
  - split; [apply counter_of_pad|]. intros m. apply pad_injective.
Qed.


(** Case analysis on what a method body tests, innermost test first. *)
Ltac split_case :=
  match goal with
  | |- context [match ?x with _ => _ end] =>
      lazymatch x with
      | context [match _ with _ => _ end] => fail
      | _ => destruct x eqn:?
      end
  | |- context [if ?x then _ else _] =>
      lazymatch x with
      | context [match _ with _ => _ end] => fail
      | _ => destruct x eqn:?
      end
  end.

Ltac split_cases := cbn; repeat (split_case; cbn).











Lemma errors_app l1 l2 : errors (l1 ++ l2) = errors l1 ++ errors l2.
Proof. unfold errors. apply omap_app. Qed.

Lemma errors_calls event data b : errors (DCFrameEncoder.calls event data b) = [].
Proof.
  rewrite calls_listening. induction (listening event b) as [|h l IH]; [done|]. exact IH.
Qed.

Lemma requested_calls event data b : requested (DCFrameEncoder.calls event data b) = [].
Proof.
  rewrite calls_listening. induction (listening event b) as [|h l IH]; [done|]. exact IH.
Qed.

Lemma artifacts_emit_base event data b :
  artifacts (effects (DCFrameEncoder.emit event data b)) = [].
Proof. cbn. apply artifacts_calls. Qed.

(** What add(canvas) of the WebM encoder does once it has a video. *)
Lemma whammy_add_spec c e v :
  DCWhammyEncoder.encoder e = Some v ->
  let o := DCWhammyEncoder.add c e in
  thrown o = None
  /\ DCWhammyEncoder.encoder (final o)
     = Some {| DCWhammyEncoder.video_framerate := DCWhammyEncoder.video_framerate v;
               DCWhammyEncoder.video_quality := DCWhammyEncoder.video_quality v;
               DCWhammyEncoder.video_frames :=
                 DCWhammyEncoder.video_frames v ++ (if drawable c then [c] else []) |}
  /\ DCWhammyEncoder.frameCount (final o)
     = DCWhammyEncoder.frameCount e + (if drawable c then 1 else 0)
  /\ errors (effects o) = (if drawable c then [] else ["Error adding frame to WebM"])
  /\ artifacts (effects o) = [].
Proof.
  intros Hv. unfold DCWhammyEncoder.add. rewrite Hv.
  destruct (drawable c); cbn; rewrite ?errors_calls, ?artifacts_calls.
  - done.
  - rewrite app_nil_r, Nat.add_0_r. by destruct v.
Qed.

Lemma whammy_adds_spec cs : forall e v,
  DCWhammyEncoder.encoder e = Some v ->
  let o := each DCWhammyEncoder.add cs e in
  thrown o = None
  /\ DCWhammyEncoder.encoder (final o)
     = Some {| DCWhammyEncoder.video_framerate := DCWhammyEncoder.video_framerate v;
               DCWhammyEncoder.video_quality := DCWhammyEncoder.video_quality v;
               DCWhammyEncoder.video_frames :=
                 DCWhammyEncoder.video_frames v ++ List.filter drawable cs |}
  /\ DCWhammyEncoder.frameCount (final o)
     = DCWhammyEncoder.frameCount e + length (List.filter drawable cs)
  /\ length (errors (effects o)) = length cs - length (List.filter drawable cs)
  /\ artifacts (effects o) = [].
Proof.
  induction cs as [|c cs IH]; intros e v Hv.
  - cbn. rewrite app_nil_r, Nat.add_0_r. by destruct v.
  - cbn [each]. destruct (whammy_add_spec c e v Hv) as (A1 & A2 & A3 & A4 & A5).
    rewrite andThen_normal by exact A1. cbn [thrown final effects].
    destruct (IH _ _ A2) as (B1 & B2 & B3 & B4 & B5).
    rewrite errors_app, artifacts_app, length_app, A4, A5, B1, B2, B3, B4, B5, A3.
    cbn [DCWhammyEncoder.video_framerate DCWhammyEncoder.video_quality
         DCWhammyEncoder.video_frames List.filter].
    pose proof (filter_length_le drawable cs) as Hle.
    destruct (drawable c); cbn [length app]; rewrite <- ?app_assoc; cbn [app];
      repeat split; try done; try lia.
Qed.

(** X4. The WebM encoder, from start to save: after start(), for any
    sequence of add calls, no call throws; the canvases the library
    accepts are kept in the order they were added and the others are
    dropped with one 'error' event each; frameCount is the number of
    frames kept; and, when a frame was kept, save(callback) hands the
    callback one video made of exactly these frames, leaving the encoder
    as it is. *)
Theorem whammy_saves_the_frames_it_kept
    (G : Globals) (e : DCWhammyEncoder.t) (cs : list Canvas) (id : nat) :
  hasWhammy G = true ->
  let recording := each DCWhammyEncoder.add cs (final (DCWhammyEncoder.start G e)) in
  let kept := List.filter drawable cs in
  thrown (DCWhammyEncoder.start G e) = None
  /\ thrown recording = None
  /\ DCWhammyEncoder.frameCount (final recording) = length kept
  /\ length (errors (effects recording)) = length cs - length kept
  /\ artifacts (effects recording) = []
  /\ (kept <> [] ->
      DCWhammyEncoder.save (Fn id) (final recording)
      = mkOutcome None (final recording) [Delivered id (WebMVideo kept)]).
Proof.
  intros HG recording kept.
  assert (Hs : DCWhammyEncoder.start G e
               = ret (DCWhammyEncoder.set_frameCount 0
                        (DCWhammyEncoder.set_encoder
                           (Some {| DCWhammyEncoder.video_framerate :=
                                      Qor (framerate (DCWhammyEncoder.settings e)) 60;
                                    DCWhammyEncoder.video_quality := DCWhammyEncoder.quality e;
                                    DCWhammyEncoder.video_frames := [] |}) e))).
  { unfold DCWhammyEncoder.start. by rewrite HG. }
  subst recording. rewrite Hs. cbn [final ret thrown].
  match goal with
  | |- context [each _ cs ?e1] =>
      destruct (whammy_adds_spec cs e1 _ eq_refl) as (B1 & B2 & B3 & B4 & B5)
  end.
  split; [done|]. split; [exact B1|]. split; [exact B3|].
  split; [exact B4|]. split; [exact B5|].
  intros _. unfold DCWhammyEncoder.save. rewrite B2. reflexivity.
Qed.

Lemma whammy_saves_the_frames_it_kept_witness :
  let G := all_loaded in
  let e := {| DCWhammyEncoder.base := DCFrameEncoder.constructor defaults;
              DCWhammyEncoder.extension := ".webm";
              DCWhammyEncoder.mimeType := "video/webm";
              DCWhammyEncoder.quality := 1;
              DCWhammyEncoder.encoder := None;
              DCWhammyEncoder.frameCount := 0 |} in
  let bad := {| width := 4; height := 4; toBlob := fun _ _ => ToBlobThrows;
                drawable := false |} in
  let cs := [plain_canvas []; bad; plain_canvas [Byte.x01]] in
  hasWhammy G = true
  /\ let recording := each DCWhammyEncoder.add cs (final (DCWhammyEncoder.start G e)) in
     let kept := List.filter drawable cs in
     thrown (DCWhammyEncoder.start G e) = None
     /\ thrown recording = None
     /\ DCWhammyEncoder.frameCount (final recording) = length kept
     /\ length (errors (effects recording)) = length cs - length kept
     /\ artifacts (effects recording) = []
     /\ (kept <> [] ->
         DCWhammyEncoder.save (Fn 7) (final recording)
         = mkOutcome None (final recording) [Delivered 7 (WebMVideo kept)]).
Proof.
  cbn zeta. split; [reflexivity|].
  apply (whammy_saves_the_frames_it_kept all_loaded). reflexivity.
Defined.

Lemma whammy_start_spec G e :
  hasWhammy G = true ->
  DCWhammyEncoder.start G e
  = ret (DCWhammyEncoder.set_frameCount 0
           (DCWhammyEncoder.set_encoder
              (Some {| DCWhammyEncoder.video_framerate :=
                         Qor (framerate (DCWhammyEncoder.settings e)) 60;
                       DCWhammyEncoder.video_quality := DCWhammyEncoder.quality e;
                       DCWhammyEncoder.video_frames := [] |}) e)).
Proof. intros HG. unfold DCWhammyEncoder.start. by rewrite HG. Qed.

(** X5. The WebM encoder forgets its frames on dispose() and on start():
    after dispose(), add is ignored and save(callback) emits the 'error'
    event 'No encoder available' without throwing and without calling the
    callback, whatever was recorded; a second start() begins an empty
    video, so that a later save hands over only the frames added since. *)
Theorem whammy_dispose_and_restart_drop_the_frames
    (G : Globals) (e : DCWhammyEncoder.t) (cs cs' : list Canvas)
    (c : Canvas) (cb : Callback) (id : nat) :
  hasWhammy G = true ->
  let recorded := final (each DCWhammyEncoder.add cs (final (DCWhammyEncoder.start G e))) in
  let gone := final (DCWhammyEncoder.dispose recorded) in
  (DCWhammyEncoder.add c gone = ret gone
   /\ thrown (DCWhammyEncoder.save cb gone) = None
   /\ errors (effects (DCWhammyEncoder.save cb gone)) = ["No encoder available"]
   /\ artifacts (effects (DCWhammyEncoder.save cb gone)) = []
   /\ DCWhammyEncoder.frameCount gone = 0)
  /\ let again :=
       final (each DCWhammyEncoder.add cs' (final (DCWhammyEncoder.start G recorded))) in
     DCWhammyEncoder.frameCount again = length (List.filter drawable cs')
     /\ (List.filter drawable cs' <> [] ->
         DCWhammyEncoder.save (Fn id) again
         = mkOutcome None again [Delivered id (WebMVideo (List.filter drawable cs'))]).
Proof.
  intros HG recorded gone. split.
  - subst gone. cbn. rewrite errors_calls, artifacts_calls. done.
  - cbn zeta. rewrite (whammy_start_spec G recorded HG). cbn [final ret].
    match goal with
    | |- context [each _ cs' ?e1] =>
        destruct (whammy_adds_spec cs' e1 _ eq_refl) as (B1 & B2 & B3 & B4 & B5)
    end.
    split; [exact B3|]. intros _. unfold DCWhammyEncoder.save. rewrite B2. reflexivity.
Qed.

Lemma whammy_dispose_and_restart_drop_the_frames_witness :
  let G := all_loaded in
  let e := {| DCWhammyEncoder.base := DCFrameEncoder.constructor defaults;
              DCWhammyEncoder.extension := ".webm";
              DCWhammyEncoder.mimeType := "video/webm";
              DCWhammyEncoder.quality := 1;
              DCWhammyEncoder.encoder := None;
              DCWhammyEncoder.frameCount := 0 |} in
  let c := plain_canvas [] in
  let c' := plain_canvas [Byte.x01] in
  hasWhammy G = true
  /\ let recorded := final (each DCWhammyEncoder.add [c; c] (final (DCWhammyEncoder.start G e))) in
     let gone := final (DCWhammyEncoder.dispose recorded) in
     (DCWhammyEncoder.add c gone = ret gone
      /\ thrown (DCWhammyEncoder.save (Fn 7) gone) = None
      /\ errors (effects (DCWhammyEncoder.save (Fn 7) gone)) = ["No encoder available"]
      /\ artifacts (effects (DCWhammyEncoder.save (Fn 7) gone)) = []
      /\ DCWhammyEncoder.frameCount gone = 0)
     /\ let again :=
          final (each DCWhammyEncoder.add [c'] (final (DCWhammyEncoder.start G recorded))) in
        DCWhammyEncoder.frameCount again = length (List.filter drawable [c'])
        /\ (List.filter drawable [c'] <> [] ->
            DCWhammyEncoder.save (Fn 7) again
            = mkOutcome None again [Delivered 7 (WebMVideo (List.filter drawable [c']))]).
Proof.
  cbn zeta. split; [reflexivity|].
  apply (whammy_dispose_and_restart_drop_the_frames all_loaded). reflexivity.
Defined.

Lemma gif_start_spec G e :
  hasGIF G = true ->
  let o := DCGIFEncoder.start G e in
  let gif := GIF.on "finished" GIF.RelayFinished
               (GIF.on "progress" GIF.RelayProgress
                  (GIF.new (DCGIFEncoder.workers e)
                     (DCGIFEncoder.round ((1 - DCGIFEncoder.quality e) * 100))
                     (DCGIFEncoder.workerPath e))) in
  thrown o = None /\ effects o = []
  /\ gif_started (final o) gif
  /\ DCGIFEncoder.sizeSet (final o) = false
  /\ DCGIFEncoder.delay (final o) = (1000 / Qor (framerate (DCGIFEncoder.settings e)) 60)%Q
  /\ DCGIFEncoder.savedBlob (final o) = DCGIFEncoder.savedBlob e
  /\ DCGIFEncoder.base (final o) = DCGIFEncoder.base e.
Proof.
  intros HG. unfold DCGIFEncoder.start. rewrite HG. cbn. unfold gif_started. cbn.
  repeat split; done.
Qed.

Lemma gif_add_spec c e gif :
  gif_started e gif ->
  let o := DCGIFEncoder.add c e in
  let size := size_after (DCGIFEncoder.sizeSet e) (GIF.width gif, GIF.height gif) [c] in
  thrown o = None
  /\ (exists gif',
        gif_started (final o) gif'
        /\ GIF.frames gif'
           = GIF.frames gif ++ (if drawable c then [(c, DCGIFEncoder.delay e)] else [])
        /\ (GIF.width gif', GIF.height gif') = size
        /\ GIF.running gif' = GIF.running gif
        /\ GIF.listeners gif' = GIF.listeners gif)
  /\ DCGIFEncoder.sizeSet (final o) = true
  /\ DCGIFEncoder.delay (final o) = DCGIFEncoder.delay e
  /\ DCGIFEncoder.savedBlob (final o) = DCGIFEncoder.savedBlob e
  /\ DCGIFEncoder.base (final o) = DCGIFEncoder.base e
  /\ errors (effects o) = (if drawable c then [] else ["Error adding frame to GIF"])
  /\ artifacts (effects o) = [] /\ requested (effects o) = [].
Proof.
  intros [Hg [cv Hc]]. unfold DCGIFEncoder.add, gif_started, size_after. rewrite Hg.
  destruct (DCGIFEncoder.sizeSet e) eqn:Hs; cbn; rewrite ?Hc, ?Hg; cbn;
    destruct (drawable c); cbn; rewrite ?errors_calls, ?artifacts_calls, ?Hs, ?app_nil_r;
    (split; [done|]); (split; [eexists; cbn; repeat split; eauto|]); repeat split; try done.
  all: apply requested_calls.
Qed.

Lemma size_after_cons sizeSet old c cs :
  size_after true (size_after sizeSet old [c]) cs = size_after sizeSet old (c :: cs).
Proof. by destruct sizeSet. Qed.

Lemma gif_adds_spec cs : forall e gif,
  gif_started e gif ->
  let o := each DCGIFEncoder.add cs e in
  thrown o = None
  /\ (exists gif',
        gif_started (final o) gif'
        /\ GIF.frames gif'
           = GIF.frames gif ++ map (fun c => (c, DCGIFEncoder.delay e)) (List.filter drawable cs)
        /\ (GIF.width gif', GIF.height gif')
           = size_after (DCGIFEncoder.sizeSet e) (GIF.width gif, GIF.height gif) cs
        /\ GIF.running gif' = GIF.running gif
        /\ GIF.listeners gif' = GIF.listeners gif)
  /\ DCGIFEncoder.savedBlob (final o) = DCGIFEncoder.savedBlob e
  /\ DCGIFEncoder.base (final o) = DCGIFEncoder.base e
  /\ length (errors (effects o)) = length cs - length (List.filter drawable cs)
  /\ artifacts (effects o) = [] /\ requested (effects o) = [].
Proof.
  induction cs as [|c cs IH]; intros e gif Hg.
  - cbn. split; [done|]. split; [|done]. exists gif. rewrite app_nil_r.
    unfold size_after. by destruct (DCGIFEncoder.sizeSet e).
  - cbn [each].
    destruct (gif_add_spec c e gif Hg)
      as (A1 & (g1 & A2 & A3 & A4 & A5 & A6) & A7 & A8 & A9 & A10 & A11 & A12 & A13).
    rewrite andThen_normal by exact A1. cbn [thrown final effects].
    destruct (IH _ _ A2) as (B1 & (g2 & B2 & B3 & B4 & B5 & B6) & B7 & B8 & B9 & B10 & B11).
    split; [exact B1|]. split.
    + exists g2. split; [exact B2|]. rewrite B3, B4, B5, B6, A3, A4, A5, A6, A7, A8.
      rewrite size_after_cons. cbn [List.filter].
      destruct (drawable c); cbn [map app]; rewrite <- ?app_assoc, ?app_nil_r; done.
    + rewrite B7, B8, A9, A10, errors_app, artifacts_app, requested_app, length_app,
        A11, A12, A13, B9, B10, B11.
      cbn [List.filter]. pose proof (filter_length_le drawable cs).
      destruct (drawable c); cbn [length app]; repeat split; try done; lia.
Qed.

Lemma gif_stop_spec e gif :
  DCGIFEncoder.encoder e = Some gif -> GIF.running gif = false ->
  DCGIFEncoder.stop e
  = mkOutcome None (DCGIFEncoder.set_encoder (Some (GIF.set_running true gif)) e)
              [Requested (GifFinished (GifImage (GIF.frames gif)))].
Proof. intros Hg Hr. unfold DCGIFEncoder.stop. by rewrite Hg, Hr. Qed.

(** X6. The GIF encoder, from start to stop: after start(), for any
    sequence of add calls, no call throws; the renderer takes its size
    from the first canvas passed to add, whatever comes later, and keeps
    150 x 150 when nothing was added; it holds the canvases that could be
    drawn, in the order they were added, each with the delay
    1000 / (framerate || 60) ms, the others being dropped with one 'error'
    event each; and stop() then does not throw and, when a frame was
    kept, asks the renderer for one image made of exactly these frames. *)
Theorem gif_keeps_the_frames_and_the_first_size
    (G : Globals) (e : DCGIFEncoder.t) (cs : list Canvas) :
  hasGIF G = true ->
  let o := each DCGIFEncoder.add cs (final (DCGIFEncoder.start G e)) in
  let delay := (1000 / Qor (framerate (DCGIFEncoder.settings e)) 60)%Q in
  let frames := map (fun c => (c, delay)) (List.filter drawable cs) in
  thrown o = None
  /\ length (errors (effects o)) = length cs - length (List.filter drawable cs)
  /\ exists gif,
       DCGIFEncoder.encoder (final o) = Some gif
       /\ GIF.frames gif = frames
       /\ (GIF.width gif, GIF.height gif)
          = match cs with
            | [] => (150, 150)
            | c :: _ => (canvas_width c, canvas_height c)
            end
       /\ thrown (DCGIFEncoder.stop (final o)) = None
       /\ (frames <> [] ->
           requested (effects (DCGIFEncoder.stop (final o)))
           = [GifFinished (GifImage frames)]).
Proof.
  intros HG o delay frames.
  destruct (gif_start_spec G e HG) as (S1 & S2 & S3 & S4 & S5 & S6 & S7).
  destruct (gif_adds_spec cs _ _ S3)
    as (B1 & (g & [B2 B2'] & B3 & B4 & B5 & B6) & B7 & B8 & B9 & B10 & B11).
  fold o in B1, B2, B2', B7, B8, B9, B10, B11.
  split; [exact B1|]. split; [exact B9|].
  exists g. split; [exact B2|]. rewrite S5 in B3. cbn in B3.
  split; [exact B3|]. split.
  - rewrite B4, S4. unfold size_after. by destruct cs.
  - rewrite (gif_stop_spec _ g B2) by (by rewrite B5). cbn. rewrite B3. done.
Qed.

Lemma gif_keeps_the_frames_and_the_first_size_witness :
  let G := all_loaded in
  let e := DCGIFEncoder.constructor defaults in
  let small := {| width := 2; height := 3; toBlob := fun _ _ => ToBlobThrows;
                  drawable := false |} in
  let cs := [small; plain_canvas []; plain_canvas [Byte.x01]] in
  hasGIF G = true
  /\ let o := each DCGIFEncoder.add cs (final (DCGIFEncoder.start G e)) in
     let delay := (1000 / Qor (framerate (DCGIFEncoder.settings e)) 60)%Q in
     let frames := map (fun c => (c, delay)) (List.filter drawable cs) in
     thrown o = None
     /\ length (errors (effects o)) = length cs - length (List.filter drawable cs)
     /\ exists gif,
          DCGIFEncoder.encoder (final o) = Some gif
          /\ GIF.frames gif = frames
          /\ (GIF.width gif, GIF.height gif) = (2, 3)
          /\ thrown (DCGIFEncoder.stop (final o)) = None
          /\ (frames <> [] ->
              requested (effects (DCGIFEncoder.stop (final o)))
              = [GifFinished (GifImage frames)]).
Proof.
  cbn zeta. split; [reflexivity|].
  apply (gif_keeps_the_frames_and_the_first_size all_loaded (DCGIFEncoder.constructor defaults)).
  reflexivity.
Defined.

Lemma gif_listening_finished gif extra :
  GIF.listeners gif
  = [("progress", GIF.RelayProgress); ("finished", GIF.RelayFinished)]
    ++ map (fun l => ("finished", l)) extra ->
  GIF.listening "finished" gif = GIF.RelayFinished :: extra
  /\ GIF.listening "progress" gif = [GIF.RelayProgress].
Proof.
  intros Hl. unfold GIF.listening. rewrite Hl. cbn [app].
  assert (Hyes : forall (l : list GIF.Listener),
             filter (fun p : string * GIF.Listener => String.eqb (fst p) "finished")
                    (map (fun l => ("finished", l)) l)
             = map (fun l => ("finished", l)) l).
  { induction l as [|x l IH]; [done|]. cbn [map]. rewrite filter_cons, IH.
    rewrite decide_True; [done|exact I]. }
  assert (Hno : forall (l : list GIF.Listener),
             filter (fun p : string * GIF.Listener => String.eqb (fst p) "progress")
                    (map (fun l => ("finished", l)) l) = []).
  { induction l as [|x l IH]; [done|]. cbn [map]. rewrite filter_cons, IH.
    rewrite decide_False; [done|intros []]. }
  rewrite !filter_cons, Hyes, Hno. cbn [fst String.eqb Ascii.eqb Bool.eqb].
  assert (Hdec : forall b (A : Type) (x y : A),
             (if @decide (Is_true b) _ then x else y) = if b then x else y).
  { intros [] A x y; case_decide; done. }
  rewrite !Hdec. cbn [map snd]. split; [|done]. f_equal.
  rewrite map_map. cbn [snd]. apply map_id.
Qed.

(** The state of a GIF encoder whose renderer is at work. *)
Lemma gif_rendering G e cs :
  hasGIF G = true ->
  let e2 := final (DCGIFEncoder.stop (final (each DCGIFEncoder.add cs
                                               (final (DCGIFEncoder.start G e))))) in
  exists gif,
    DCGIFEncoder.encoder e2 = Some gif
    /\ GIF.running gif = true
    /\ GIF.listeners gif = [("progress", GIF.RelayProgress); ("finished", GIF.RelayFinished)]
    /\ DCGIFEncoder.savedBlob e2 = DCGIFEncoder.savedBlob e
    /\ DCGIFEncoder.base e2 = DCGIFEncoder.base e.
Proof.
  intros HG.
  destruct (gif_start_spec G e HG) as (S1 & S2 & S3 & S4 & S5 & S6 & S7).
  destruct (gif_adds_spec cs _ _ S3)
    as (B1 & (g & [B2 B2'] & B3 & B4 & B5 & B6) & B7 & B8 & B9 & B10 & B11).
  cbn zeta. rewrite (gif_stop_spec _ g B2) by (by rewrite B5).
  exists (GIF.set_running true g). cbn. rewrite B6, B7, B8, S6, S7. done.
Qed.

Lemma gif_finished_first e gif blob :
  DCGIFEncoder.encoder e = Some gif -> GIF.running gif = true ->
  GIF.listeners gif = [("progress", GIF.RelayProgress); ("finished", GIF.RelayFinished)] ->
  let o := DCGIFEncoder.on_finished blob e in
  thrown o = None
  /\ effects o = Emitted "finished" (Blob blob)
                 :: DCFrameEncoder.calls "finished" (Blob blob) (DCGIFEncoder.base e)
  /\ DCGIFEncoder.savedBlob (final o) = Some blob
  /\ DCGIFEncoder.encoder (final o) = Some (GIF.set_running false gif).
Proof.
  intros Hg Hr Hl. unfold DCGIFEncoder.on_finished. rewrite Hg, Hr.
  destruct (gif_listening_finished gif []) as [Hf _]; [by rewrite Hl|]. rewrite Hf.
  cbn. rewrite ?app_nil_r. done.
Qed.

Lemma gif_saved_first e gif blob cb :
  DCGIFEncoder.encoder e = Some gif -> GIF.running gif = true ->
  GIF.listeners gif = [("progress", GIF.RelayProgress); ("finished", GIF.RelayFinished)] ->
  DCGIFEncoder.savedBlob e = None ->
  let o1 := DCGIFEncoder.save cb e in
  let o := DCGIFEncoder.on_finished blob (final o1) in
  o1 = ret (DCGIFEncoder.set_encoder
              (Some (GIF.on "finished" (GIF.DeliverTo cb) gif)) e)
  /\ thrown o = match cb with
                | Fn _ => None
                | NoCallback => Some "TypeError: callback is not a function"
                end
  /\ effects o = Emitted "finished" (Blob blob)
                 :: DCFrameEncoder.calls "finished" (Blob blob) (DCGIFEncoder.base e)
                 ++ match cb with Fn id => [Delivered id blob] | NoCallback => [] end
  /\ DCGIFEncoder.savedBlob (final o) = Some blob.
Proof.
  intros Hg Hr Hl Hs. cbn zeta. unfold DCGIFEncoder.save. rewrite Hs, Hg. split; [done|].
  unfold DCGIFEncoder.on_finished. cbn [final ret DCGIFEncoder.encoder DCGIFEncoder.set_encoder].
  cbn [GIF.running GIF.on]. rewrite Hr.
  destruct (gif_listening_finished (GIF.on "finished" (GIF.DeliverTo cb) gif) [GIF.DeliverTo cb])
    as [Hf _]; [cbn; by rewrite Hl|].
  cbn [GIF.on] in Hf. rewrite Hf.
  destruct cb; cbn; rewrite ?app_nil_r; done.
Qed.

(** X7. save(callback) of the GIF encoder hands the rendered image over
    exactly once, whether it is called after the rendering finished (the
    callback is called at once with the image kept in savedBlob) or while
    the renderer is still at work (the callback is called when the
    rendering finishes, after the 'finished' event was emitted); neither
    order throws.  This is for an encoder that holds no image of an
    earlier rendering. *)
Theorem gif_save_hands_over_the_image_once
    (G : Globals) (e : DCGIFEncoder.t) (cs : list Canvas) (blob : Artifact) (id : nat) :
  hasGIF G = true ->
  DCGIFEncoder.savedBlob e = None ->
  let rendering :=
    final (DCGIFEncoder.stop (final (each DCGIFEncoder.add cs
                                       (final (DCGIFEncoder.start G e))))) in
  (let finished := DCGIFEncoder.on_finished blob rendering in
   thrown finished = None
   /\ In (Emitted "finished" (Blob blob)) (effects finished)
   /\ artifacts (effects finished) = []
   /\ DCGIFEncoder.save (Fn id) (final finished)
      = mkOutcome None (final finished) [Delivered id blob])
  /\ (let waiting := DCGIFEncoder.save (Fn id) rendering in
      let finished := DCGIFEncoder.on_finished blob (final waiting) in
      thrown waiting = None /\ effects waiting = []
      /\ thrown finished = None
      /\ In (Emitted "finished" (Blob blob)) (effects finished)
      /\ artifacts (effects finished) = [blob]
      /\ In (Delivered id blob) (effects finished)).
Proof.
  intros HG Hs rendering.
  destruct (gif_rendering G e cs HG) as (gif & R1 & R2 & R3 & R4 & R5).
  fold rendering in R1, R4, R5. rewrite Hs in R4. split.
  - destruct (gif_finished_first rendering gif blob R1 R2 R3) as (F1 & F2 & F3 & F4).
    cbn zeta. split; [exact F1|]. rewrite F2. split; [by left|].
    split; [cbn; apply artifacts_calls|].
    unfold DCGIFEncoder.save. by rewrite F3.
  - destruct (gif_saved_first rendering gif blob (Fn id) R1 R2 R3 R4) as (W1 & W2 & W3 & W4).
    cbn zeta. rewrite W1 in *. split; [done|]. split; [done|]. split; [exact W2|].
    rewrite W3. split; [by left|]. split.
    + cbn. rewrite artifacts_app, artifacts_calls. done.
    + right. apply in_or_app. right. by left.
Qed.

Lemma gif_save_hands_over_the_image_once_witness :
  let G := all_loaded in
  let e := DCGIFEncoder.constructor defaults in
  let cs := [plain_canvas []] in
  let blob := GifImage [] in
  hasGIF G = true /\ DCGIFEncoder.savedBlob e = None
  /\ let rendering :=
       final (DCGIFEncoder.stop (final (each DCGIFEncoder.add cs
                                          (final (DCGIFEncoder.start G e))))) in
     (let finished := DCGIFEncoder.on_finished blob rendering in
      thrown finished = None
      /\ In (Emitted "finished" (Blob blob)) (effects finished)
      /\ artifacts (effects finished) = []
      /\ DCGIFEncoder.save (Fn 7) (final finished)
         = mkOutcome None (final finished) [Delivered 7 blob])
     /\ (let waiting := DCGIFEncoder.save (Fn 7) rendering in
         let finished := DCGIFEncoder.on_finished blob (final waiting) in
         thrown waiting = None /\ effects waiting = []
         /\ thrown finished = None
         /\ In (Emitted "finished" (Blob blob)) (effects finished)
         /\ artifacts (effects finished) = [blob]
         /\ In (Delivered 7 blob) (effects finished)).
Proof.
  cbn zeta. split; [reflexivity|]. split; [reflexivity|].
  apply (gif_save_hands_over_the_image_once all_loaded (DCGIFEncoder.constructor defaults));
    reflexivity.
Defined.




Lemma unsupported_invoke G c e :
  DCMediaRecorderEncoder.supported e = false ->
  DCMediaRecorderEncoder.recorder e = None ->
  is_method c = true ->
  let o := invoke G c (MediaRecorderEncoder e) in
  thrown o = None
  /\ (exists e', final o = MediaRecorderEncoder e'
        /\ DCMediaRecorderEncoder.supported e' = false
        /\ DCMediaRecorderEncoder.recorder e' = None)
  /\ artifacts (effects o) = [] /\ requested (effects o) = []
  /\ length (errors (effects o)) = (if reports_unsupported c then 1 else 0).
Proof.
  intros Hs Hr Hm.
  destruct c; try discriminate; cbn;
    unfold DCMediaRecorderEncoder.start, DCMediaRecorderEncoder.add,
      DCMediaRecorderEncoder.stop, DCMediaRecorderEncoder.save,
      DCMediaRecorderEncoder.dispose;
    rewrite ?Hs, ?Hr; cbn;
    rewrite ?artifacts_calls, ?requested_calls, ?errors_calls;
    (split; [done|]); (split; [eexists; split; [reflexivity|]; cbn; done|]); done.
Qed.

(** X9. A MediaRecorder encoder constructed where MediaRecorder does not
    exist stays inert for good, even if MediaRecorder appears later: for
    any sequence of start, add, stop, save and dispose calls, no call
    throws, nothing is asked of the browser, no callback receives
    anything, stop never returns a promise, and exactly the start and save
    calls emit one 'error' event each. *)
Theorem unsupported_recorder_is_inert
    (G G' : Globals) (s : Settings) (calls : list Call) :
  hasMediaRecorder G = false ->
  forallb is_method calls = true ->
  let o := each (invoke G') calls
             (MediaRecorderEncoder (DCMediaRecorderEncoder.constructor G s)) in
  thrown o = None
  /\ artifacts (effects o) = []
  /\ requested (effects o) = []
  /\ Encoder.stop_returns_promise (final o) = false
  /\ length (errors (effects o)) = length (List.filter reports_unsupported calls).
Proof.
  intros HG Hm.
  assert (Hgen : forall calls e,
             DCMediaRecorderEncoder.supported e = false ->
             DCMediaRecorderEncoder.recorder e = None ->
             forallb is_method calls = true ->
             let o := each (invoke G') calls (MediaRecorderEncoder e) in
             thrown o = None
             /\ artifacts (effects o) = []
             /\ requested (effects o) = []
             /\ Encoder.stop_returns_promise (final o) = false
             /\ length (errors (effects o)) = length (List.filter reports_unsupported calls)).
  { clear. induction calls as [|c calls IH]; intros e Hs Hr Hm.
    - cbn. unfold DCMediaRecorderEncoder.stop_returns_promise. by rewrite Hs.
    - cbn [forallb] in Hm. apply andb_prop in Hm as [Hc Hm].
      destruct (unsupported_invoke G' c e Hs Hr Hc) as (A1 & (e' & A2 & A3 & A4) & A5 & A6 & A7).
      cbn [each]. rewrite andThen_normal by exact A1. cbn [thrown final effects].
      rewrite A2. destruct (IH e' A3 A4 Hm) as (B1 & B2 & B3 & B4 & B5).
      rewrite artifacts_app, requested_app, errors_app, length_app, A5, A6, A7, B2, B3, B5.
      cbn [List.filter]. destruct (reports_unsupported c); done. }
  apply Hgen; [|done|done]. cbn. exact HG.
Qed.

Lemma unsupported_recorder_is_inert_witness :
  let calls := [CallStart; CallAdd (plain_canvas []); CallStop; CallSave (Fn 7); CallDispose] in
  hasMediaRecorder nothing_loaded = false
  /\ forallb is_method calls = true
  /\ let o := each (invoke all_loaded) calls
                (MediaRecorderEncoder (DCMediaRecorderEncoder.constructor nothing_loaded defaults)) in
     thrown o = None
     /\ artifacts (effects o) = []
     /\ requested (effects o) = []
     /\ Encoder.stop_returns_promise (final o) = false
     /\ length (errors (effects o)) = length (List.filter reports_unsupported calls).
Proof.
  cbn zeta. split; [reflexivity|]. split; [reflexivity|].
  apply (unsupported_recorder_is_inert nothing_loaded all_loaded defaults); reflexivity.
Defined.

Lemma append_assoc (s t u : string) : (s +:+ t) +:+ u = s +:+ (t +:+ u).
Proof.
  induction s as [|a s IH]; [done|].
  change (String a ((s +:+ t) +:+ u) = String a (s +:+ (t +:+ u))). by rewrite IH.
Qed.

Lemma downloads_app l1 l2 : downloads (l1 ++ l2) = downloads l1 ++ downloads l2.
Proof. unfold downloads. apply omap_app. Qed.

Lemma downloads_calls event data b : downloads (DCFrameEncoder.calls event data b) = [].
Proof.
  rewrite calls_listening. induction (listening event b) as [|h l IH]; [done|]. exact IH.
Qed.

(** X10. When the archive writer rotates and the download function is
    missing, the part that was just closed is lost: the load does not
    throw, emits the 'error' event 'Download function not available',
    hands the archive to nobody, and goes on exactly as after a download,
    with an empty tape, the next entry counter, the next part number and
    a frame counter of zero. *)
Theorem rotation_without_download_loses_the_part
    (G : Globals) (e : DCTarEncoder.t) (tp : Tar.t) (result : Bytes) :
  hasTar G = true -> hasDownload G = false ->
  DCTarEncoder.tape e = Some tp -> rotates e = true ->
  let o := DCTarEncoder.onload G result e in
  thrown o = None
  /\ errors (effects o) = ["Download function not available"]
  /\ artifacts (effects o) = [] /\ downloads (effects o) = []
  /\ DCTarEncoder.tape (final o) = Some []
  /\ DCTarEncoder.count (final o) = DCTarEncoder.count e + 1
  /\ DCTarEncoder.part (final o) = DCTarEncoder.part e + 1
  /\ DCTarEncoder.frames (final o) = 0.
Proof.
  intros HG HD Ht Hr. unfold DCTarEncoder.onload, rotates in *. rewrite Ht. cbn.
  unfold DCTarEncoder.settings in *. cbn. rewrite Hr. cbn.
  unfold DCTarEncoder.save. cbn. unfold DCTarEncoder.rotate. cbn. rewrite HD. cbn.
  unfold DCTarEncoder.dispose. rewrite HG. cbn.
  rewrite !errors_app, !artifacts_app, !downloads_app,
    ?errors_calls, ?artifacts_calls, ?downloads_calls. cbn.
  rewrite ?errors_calls, ?artifacts_calls, ?downloads_calls. done.
Qed.

Lemma rotation_without_download_loses_the_part_witness :
  let G := {| hasTar := true; hasDownload := false; hasWhammy := false; hasGIF := false;
              hasMediaRecorder := false; isTypeSupported := fun _ => false |} in
  let e := final (reads G [Loaded []]
                    (final (DCTarEncoder.start G
                              (DCTarEncoder.constructor (assign defaults png_autosave))))) in
  hasTar G = true /\ hasDownload G = false
  /\ DCTarEncoder.tape e = Some [("000000", [])] /\ rotates e = true
  /\ let o := DCTarEncoder.onload G [Byte.x01] e in
     thrown o = None
     /\ errors (effects o) = ["Download function not available"]
     /\ artifacts (effects o) = [] /\ downloads (effects o) = []
     /\ DCTarEncoder.tape (final o) = Some []
     /\ DCTarEncoder.count (final o) = DCTarEncoder.count e + 1
     /\ DCTarEncoder.part (final o) = DCTarEncoder.part e + 1
     /\ DCTarEncoder.frames (final o) = 0.
Proof.
  cbn zeta. split; [reflexivity|]. split; [reflexivity|].
  split; [vm_compute; reflexivity|]. split; [vm_compute; reflexivity|].
  apply (rotation_without_download_loses_the_part _ _ [("000000", [])]);
    vm_compute; reflexivity.
Defined.

Lemma onload_rotates_effects G result e tp :
  DCTarEncoder.tape e = Some tp -> rotates e = true ->
  hasTar G = true -> hasDownload G = true ->
  effects (DCTarEncoder.onload G result e)
  = Downloaded
      (TarArchive (tp ++ [(entry_name (DCTarEncoder.fileExtension e) (DCTarEncoder.count e),
                           result)]))
      ((js_str (DCTarEncoder.baseFilename e) +:+ "-part-" +:+ pad (DCTarEncoder.part e) 6)
       +:+ DCTarEncoder.extension e)
      (DCTarEncoder.mimeType e)
    :: Emitted "step" Undefined
    :: DCFrameEncoder.calls "step" Undefined (DCTarEncoder.base e)
  /\ DCTarEncoder.baseFilename (final (DCTarEncoder.onload G result e))
     = DCTarEncoder.baseFilename e
  /\ DCTarEncoder.extension (final (DCTarEncoder.onload G result e))
     = DCTarEncoder.extension e
  /\ DCTarEncoder.mimeType (final (DCTarEncoder.onload G result e))
     = DCTarEncoder.mimeType e.
Proof.
  intros Ht Hr HG HD.
  unfold DCTarEncoder.onload, rotates in *. rewrite Ht. cbn.
  unfold DCTarEncoder.settings in *. cbn. rewrite Hr. cbn.
  unfold DCTarEncoder.save. cbn. unfold DCTarEncoder.rotate. cbn. rewrite HD. cbn.
  unfold DCTarEncoder.dispose. rewrite HG. cbn. done.
Qed.

Lemma onload_keeps_effects G result e tp :
  DCTarEncoder.tape e = Some tp -> rotates e = false ->
  effects (DCTarEncoder.onload G result e)
  = Emitted "step" Undefined :: DCFrameEncoder.calls "step" Undefined (DCTarEncoder.base e)
  /\ DCTarEncoder.baseFilename (final (DCTarEncoder.onload G result e))
     = DCTarEncoder.baseFilename e
  /\ DCTarEncoder.extension (final (DCTarEncoder.onload G result e))
     = DCTarEncoder.extension e
  /\ DCTarEncoder.mimeType (final (DCTarEncoder.onload G result e))
     = DCTarEncoder.mimeType e.
Proof.
  intros Ht Hr.
  unfold DCTarEncoder.onload, rotates in *. rewrite Ht. cbn.
  unfold DCTarEncoder.settings in *. cbn. rewrite Hr. cbn. done.
Qed.

Lemma read_part_names G bf ev e :
  hasTar G = true -> hasDownload G = true -> names_parts bf e ->
  let o := read G ev e in
  thrown o = None
  /\ names_parts bf (final o)
  /\ exists n,
       downloads (effects o)
       = map (fun i => (part_name bf i, "application/x-tar")) (seq (DCTarEncoder.part e) n)
       /\ length (artifacts (effects o)) = n
       /\ DCTarEncoder.part (final o) = DCTarEncoder.part e + n.
Proof.
  intros HG HD (Hb & Hx & Hm & [tp Ht]).
  destruct ev as [result|]; cbn [read].
  - destruct (rotates e) eqn:Hr.
    + destruct (onload_rotates G result e tp Ht Hr HG) as (R1 & R2 & R3 & R4 & R5 & R6 & R7 & R8).
      destruct (onload_rotates_effects G result e tp Ht Hr HG HD) as (E1 & E2 & E3 & E4).
      split; [exact R1|]. split.
      * unfold names_parts. rewrite R2, E2, E3, E4. eauto.
      * exists 1. rewrite R8, HD, R5. split; [|done].
        rewrite E1. unfold downloads. cbn [omap list_omap]. fold (downloads).
        change (omap _ ?l) with (downloads l).
        rewrite downloads_calls, Hx, Hm, Hb. cbn [map seq]. unfold part_name.
        by rewrite !append_assoc.
    + destruct (onload_keeps G result e tp Ht Hr) as (R1 & R2 & R3 & R4 & R5 & R6 & R7 & R8).
      destruct (onload_keeps_effects G result e tp Ht Hr) as (E1 & E2 & E3 & E4).
      split; [exact R1|]. split.
      * unfold names_parts. rewrite R2, E2, E3, E4. eauto.
      * exists 0. rewrite R8, R5, E1. split; [|split; [done|lia]].
        unfold downloads. cbn [omap list_omap]. apply downloads_calls.
  - unfold DCTarEncoder.onerror, DCTarEncoder.emit. cbn.
    rewrite artifacts_calls, downloads_calls. split; [done|].
    split; [unfold names_parts; cbn; eauto|]. exists 0. cbn. split; [done|]. split; [done|]. lia.
Qed.

Lemma reads_part_names G bf evs : forall e,
  hasTar G = true -> hasDownload G = true -> names_parts bf e ->
  let o := reads G evs e in
  thrown o = None
  /\ names_parts bf (final o)
  /\ exists n,
       downloads (effects o)
       = map (fun i => (part_name bf i, "application/x-tar")) (seq (DCTarEncoder.part e) n)
       /\ length (artifacts (effects o)) = n
       /\ DCTarEncoder.part (final o) = DCTarEncoder.part e + n.
Proof.
  induction evs as [|ev evs IH]; intros e HG HD Hn.
  - cbn. split; [done|]. split; [done|]. exists 0. cbn. split; [done|]. split; [done|]. lia.
  - cbn [reads].
    destruct (read_part_names G bf ev e HG HD Hn) as (A1 & A2 & n & A3 & A4 & A5).
    rewrite andThen_normal by exact A1. cbn [thrown final effects].
    destruct (IH _ HG HD A2) as (B1 & B2 & m & B3 & B4 & B5).
    split; [exact B1|]. split; [exact B2|]. exists (n + m).
    rewrite downloads_app, artifacts_app, length_app, A3, A4, B3, B4, B5, A5.
    rewrite seq_app, map_app. split; [done|]. split; [done|]. lia.
Qed.

(** X11. The parts closed by the archive writer are downloaded under the
    names base-part-000001.tar, base-part-000002.tar, ..., numbered from 1
    in the order they were closed, with the MIME type application/x-tar,
    where base is the file name the encoder had when it was constructed;
    as the constructor copies a [filename] that was never set, base is
    the text undefined for every encoder made by the constructor.  The
    part number is always one more than the number of parts closed. *)
Theorem parts_are_named_by_their_number
    (G : Globals) (s : Settings) (ext : string) (evs : list ReadEvent) :
  hasTar G = true -> hasDownload G = true ->
  let e := DCTarEncoder.set_fileExtension ext (DCTarEncoder.constructor s) in
  let o := reads G evs (final (DCTarEncoder.start G e)) in
  let closed := length (artifacts (effects o)) in
  downloads (effects o)
  = map (fun i => ("undefined-part-" +:+ pad i 6 +:+ ".tar", "application/x-tar"))
        (seq 1 closed)
  /\ DCTarEncoder.part (final o) = 1 + closed.
Proof.
  intros HG HD e o closed.
  assert (Hn : names_parts None (final (DCTarEncoder.start G e))).
  { unfold DCTarEncoder.start, DCTarEncoder.dispose. rewrite HG. unfold names_parts. cbn. eauto. }
  assert (Hp : DCTarEncoder.part (final (DCTarEncoder.start G e)) = 1).
  { unfold DCTarEncoder.start, DCTarEncoder.dispose. by rewrite HG. }
  destruct (reads_part_names G None evs _ HG HD Hn) as (_ & _ & n & A1 & A2 & A3).
  fold o in A1, A2, A3. fold closed in A2. subst n. rewrite Hp in A1, A3.
  split; [exact A1|exact A3].
Qed.

Lemma parts_are_named_by_their_number_witness :
  let G := all_loaded in
  let s := assign defaults png_autosave in
  let evs := [Loaded []; Loaded []; Loaded []; Loaded []] in
  hasTar G = true /\ hasDownload G = true
  /\ let e := DCTarEncoder.set_fileExtension ".png" (DCTarEncoder.constructor s) in
     let o := reads G evs (final (DCTarEncoder.start G e)) in
     let closed := length (artifacts (effects o)) in
     downloads (effects o)
     = map (fun i => ("undefined-part-" +:+ pad i 6 +:+ ".tar", "application/x-tar"))
           (seq 1 closed)
     /\ DCTarEncoder.part (final o) = 1 + closed.
Proof.
  cbn zeta. split; [reflexivity|]. split; [reflexivity|].
  apply (parts_are_named_by_their_number all_loaded (assign defaults png_autosave) ".png");
    reflexivity.
Defined.

(** X12. add(canvas) of the PNG and JPEG encoders never throws and never
    changes the encoder.  When canvas.toBlob throws, one 'error' event is
    emitted and nothing is asked of the browser.  Otherwise the callback
    given to toBlob runs later, and does not throw either: with a blob it
    hands exactly that blob to a FileReader, and with null it emits the
    'error' event 'Failed to create blob from canvas' and reads nothing,
    so that the frame is dropped without using up an entry name. *)
Theorem image_frame_is_read_or_reported
    (G : Globals) (c : Canvas) (enc : Encoder) (e : DCTarEncoder.t) :
  archive enc = Some e ->
  let o := Encoder.add c enc in
  thrown o = None /\ final o = enc /\ artifacts (effects o) = []
  /\ match blob_of enc c with
     | ToBlobThrows =>
         errors (effects o) = [capture_error enc] /\ requested (effects o) = []
     | ToBlobCalls blob =>
         effects o = [Requested (ToBlobCallback blob)]
         /\ let called := Encoder.complete G (ToBlobCallback blob) enc in
            thrown called = None /\ final called = enc
            /\ artifacts (effects called) = []
            /\ match blob with
               | Some b => effects called = [Requested (FileReaderLoad b)]
               | None =>
                   errors (effects called) = ["Failed to create blob from canvas"]
                   /\ requested (effects called) = []
               end
     end.
Proof.
  intros Ha.
  destruct enc as [|[sup ty]|[sup ty q]| |]; try discriminate; cbn in Ha; injection Ha as <-.
  - cbn. unfold DCPNGEncoder.add. cbn.
    destruct (toBlob c ty None) as [|[b|]]; cbn;
      rewrite ?errors_calls, ?artifacts_calls, ?requested_calls;
      repeat split; try done; by destruct sup as [[]].
  - cbn. unfold DCJPEGEncoder.add. cbn.
    destruct (toBlob c ty (Some q)) as [|[b|]]; cbn;
      rewrite ?errors_calls, ?artifacts_calls, ?requested_calls;
      repeat split; try done; by destruct sup as [[]].
Qed.

Lemma image_frame_is_read_or_reported_witness :
  let enc := JPEGEncoder (DCJPEGEncoder.constructor defaults) in
  let c := plain_canvas [Byte.x01] in
  archive enc = Some (DCJPEGEncoder.super (DCJPEGEncoder.constructor defaults))
  /\ let o := Encoder.add c enc in
     thrown o = None /\ final o = enc /\ artifacts (effects o) = []
     /\ effects o = [Requested (ToBlobCallback (Some [Byte.x01]))]
     /\ let called := Encoder.complete all_loaded (ToBlobCallback (Some [Byte.x01])) enc in
        thrown called = None /\ final called = enc
        /\ artifacts (effects called) = []
        /\ effects called = [Requested (FileReaderLoad [Byte.x01])].
Proof.
  cbn zeta. split; [reflexivity|].
  apply (image_frame_is_read_or_reported all_loaded (plain_canvas [Byte.x01])
           (JPEGEncoder (DCJPEGEncoder.constructor defaults))
           (DCJPEGEncoder.super (DCJPEGEncoder.constructor defaults))).
  reflexivity.
Defined.

(** X13. dispose() of the capturer is final and can be repeated: it never
    throws, whatever the encoder, and leaves a capturer without encoder
    and without display whose counters and stopped flag are unchanged; a
    second dispose() does nothing at all; save() then throws 'No encoder
    available'; start() then throws before the callback is called; and
    the promise of a later stop() is rejected, as its first reaction
    throws. *)
Theorem dispose_is_final
    (G G' : Globals) (d : DCapture.t) (now : Z) (callback : Callback) :
  let o := DCapture.dispose G d in
  let gone := final o in
  thrown o = None
  /\ DCapture.encoder gone = None /\ DCapture.display gone = None
  /\ DCapture.stopped gone = DCapture.stopped d
  /\ DCapture.frames gone = DCapture.frames d
  /\ DCapture.settings gone = DCapture.settings d
  /\ DCapture.dispose G' gone = ret gone
  /\ DCapture.save callback gone = throw "No encoder available" gone
  /\ is_Some (thrown (DCapture.start G' now callback gone))
  /\ effects (DCapture.start G' now callback gone) = []
  /\ is_Some (thrown (DCapture.react StopEncoder (final (DCapture.stop gone)))).
Proof.
  destruct d as [s st fr scb sp [enc|] di].
  - pose proof (total_dispose G enc) as Ht. unfold total in Ht.
    unfold DCapture.dispose. dc_eval.
    destruct di; dc_eval; rewrite Ht; dc_eval; repeat split; eauto.
  - unfold DCapture.dispose. dc_eval. destruct di; dc_eval; repeat split; eauto.
Qed.

(** X14. With the status display on, every capture call that takes the
    frame (the capturer is running, has its encoder, and motion blur is
    off) leaves the status line showing the format, the number of frames
    captured so far, this one included, and the time since start; the
    colour, the progress bar and the attachment of the display are
    untouched, also when the call reaches a limit. *)
Theorem capture_updates_the_status_line
    (now : Z) (c : Canvas) (d : DCapture.t) (el : DCapture.Display) :
  DCapture.stopped d = false -> is_Some (DCapture.encoder d) ->
  blurred d = false ->
  settings_display (DCapture.settings d) = true ->
  DCapture.display d = Some el ->
  DCapture.display (final (DCapture.capture now c d))
  = Some {| DCapture.backgroundColor := DCapture.backgroundColor el;
            DCapture.info := DCapture.Status (format (DCapture.settings d))
                                             (DCapture.frames d + 1)
                                             (now - DCapture.startTime d);
            DCapture.progress := DCapture.progress el;
            DCapture.attached := DCapture.attached el |}.
Proof.
  intros Hs [enc He] Hb Hd Hdi. destruct d as [s st fr scb sp en di]. simpl in *. subst.
  unfold blurred in Hb. cbn in Hb.
  pose proof (total_add c enc) as Ht. unfold total in Ht.
  dc_eval. rewrite Hb. dc_eval. rewrite Ht. dc_eval. rewrite Hd. dc_eval.
  destruct (Qltb 0 (timeLimit s) && _); dc_eval;
    destruct (Qltb 0 (frameLimit s) && _); dc_eval; done.
Qed.

Lemma capture_updates_the_status_line_witness :
  let d := final (DCapture.start all_loaded 100 NoCallback
                    (built (DCapture.constructor all_loaded png_with_display))) in
  DCapture.stopped d = false /\ is_Some (DCapture.encoder d)
  /\ blurred d = false
  /\ settings_display (DCapture.settings d) = true
  /\ DCapture.display d = Some DCapture.createDisplay
  /\ DCapture.display (final (DCapture.capture 350 (plain_canvas []) d))
     = Some {| DCapture.backgroundColor := "rgba(0, 0, 0, 0.5)";
               DCapture.info := DCapture.Status "png" 1 250;
               DCapture.progress := 0;
               DCapture.attached := true |}.
Proof.
  cbn zeta. split; [reflexivity|]. split; [vm_compute; eauto|]. split; [reflexivity|].
  split; [reflexivity|]. split; [reflexivity|].
  apply (capture_updates_the_status_line 350 (plain_canvas [])
           (final (DCapture.start all_loaded 100 NoCallback
                     (built (DCapture.constructor all_loaded png_with_display))))
           DCapture.createDisplay);
    try reflexivity. vm_compute; eauto.
Defined.






(** X16. The two limits are tested one after the other, each on its own:
    a capture call that takes its frame (the capturer is running, has its
    encoder, and motion blur is off) when both the time limit and the
    frame limit are reached does not throw, sets the stopped flag, and
    schedules the chain that stops the encoder and then saves twice, once
    for each limit. *)
Theorem both_limits_schedule_the_save_twice
    (now : Z) (c : Canvas) (d : DCapture.t) :
  DCapture.stopped d = false -> is_Some (DCapture.encoder d) ->
  blurred d = false ->
  (0 < timeLimit (DCapture.settings d))%Q ->
  (timeLimit (DCapture.settings d) <= inject_Z (now - DCapture.startTime d) / 1000)%Q ->
  (0 < frameLimit (DCapture.settings d))%Q ->
  (frameLimit (DCapture.settings d) <= inject_Z (Z.of_nat (DCapture.frames d + 1)))%Q ->
  let o := DCapture.capture now c d in
  thrown o = None
  /\ DCapture.stopped (final o) = true
  /\ adds (effects o) = [c]
  /\ scheduled (effects o)
     = [[StopEncoder; LogStopped; Save]; [StopEncoder; LogStopped; Save]].
Proof.
  intros Hs He Hb Ht Hlate Hf Hfull.
  destruct (capture_running now c d Hs He) as (P1 & _ & _ & _ & _ & P6 & P7 & _ & P9).
  assert (Htime : time_up now d = true).
  { unfold time_up. apply Qltb_true in Ht. rewrite Ht. by apply Qle_bool_iff. }
  assert (Hframe : frame_up d = true).
  { unfold frame_up. apply Qltb_true in Hf. rewrite Hf. by apply Qle_bool_iff. }
  rewrite Hb, Htime, Hframe in P6, P9. done.
Qed.

Lemma both_limits_schedule_the_save_twice_witness :
  let d := final (DCapture.start all_loaded 0 NoCallback
                    (built (DCapture.constructor all_loaded both_limits))) in
  let d2 := final (DCapture.capture 10 (plain_canvas [])
                     (final (DCapture.capture 5 (plain_canvas []) d))) in
  DCapture.stopped d2 = false /\ is_Some (DCapture.encoder d2)
  /\ blurred d2 = false
  /\ (0 < timeLimit (DCapture.settings d2))%Q
  /\ (timeLimit (DCapture.settings d2) <= inject_Z (1000 - DCapture.startTime d2) / 1000)%Q
  /\ (0 < frameLimit (DCapture.settings d2))%Q
  /\ (frameLimit (DCapture.settings d2) <= inject_Z (Z.of_nat (DCapture.frames d2 + 1)))%Q
  /\ let o := DCapture.capture 1000 (plain_canvas []) d2 in
     thrown o = None
     /\ DCapture.stopped (final o) = true
     /\ adds (effects o) = [plain_canvas []]
     /\ scheduled (effects o)
        = [[StopEncoder; LogStopped; Save]; [StopEncoder; LogStopped; Save]].
Proof.
  cbn zeta. split; [reflexivity|]. split; [vm_compute; eauto|]. split; [reflexivity|].
  split; [reflexivity|]. split; [vm_compute; discriminate|]. split; [reflexivity|].
  split; [vm_compute; discriminate|].
  apply (both_limits_schedule_the_save_twice 1000 (plain_canvas [])
           (final (DCapture.capture 10 (plain_canvas [])
                     (final (DCapture.capture 5 (plain_canvas [])
                               (final (DCapture.start all_loaded 0 NoCallback
                                         (built (DCapture.constructor all_loaded
                                                   both_limits))))))))).
  - reflexivity.
  - vm_compute; eauto.
  - reflexivity.
  - reflexivity.
  - vm_compute; discriminate.
  - reflexivity.
  - vm_compute; discriminate.
Defined.

Lemma all_from_spec P count : forall n k,
  all_from count n P = true -> k < count -> P (n + N.of_nat k)%N = true.
Proof.
  induction count as [|count IH]; intros n k H Hk; [lia|].
  cbn [all_from] in H. apply andb_prop in H as [H0 H].
  destruct k as [|k].
  - by rewrite N.add_0_r.
  - replace (n + N.of_nat (S k))%N with (N.succ n + N.of_nat k)%N by lia.
    apply IH; [done|lia].
Qed.

Lemma four_hex_range :
  all_from (N.to_nat 65537) 65536
           (fun n => four_hex (substring_from 1 (toString16 n))) = true.
Proof. vm_compute. reflexivity. Qed.

Lemma four_hex_s4 r : (0 <= r)%Q -> (r <= 1)%Q -> four_hex (s4 r) = true.
Proof.
  intros H0 H1. unfold s4.
  set (n := Qfloor ((1 + r) * 65536)).
  assert (Hn : (65536 <= n <= 131072)%Z).
  { subst n. split.
    - change 65536%Z with (Qfloor (inject_Z 65536)). apply Qfloor_resp_le.
      apply Qle_trans with ((1 + 0) * 65536)%Q; [done|].
      apply Qmult_le_compat_r; [|done]. by apply Qplus_le_r.
    - change 131072%Z with (Qfloor (inject_Z 131072)). apply Qfloor_resp_le.
      apply Qle_trans with ((1 + 1) * 65536)%Q; [|done].
      apply Qmult_le_compat_r; [|done]. by apply Qplus_le_r. }
  pose proof (all_from_spec _ _ 65536%N (Z.to_nat (n - 65536)) four_hex_range) as Hall.
  cbv beta in Hall.
  replace (65536 + N.of_nat (Z.to_nat (n - 65536)))%N with (Z.to_N n) in Hall by lia.
  apply Hall. lia.
Qed.

Lemma four_hex_inv s :
  four_hex s = true ->
  exists a b c d,
    s = String a (String b (String c (String d EmptyString)))
    /\ is_hex a = true /\ is_hex b = true /\ is_hex c = true /\ is_hex d = true.
Proof.
  destruct s as [|a [|b [|c [|d [|]]]]]; try discriminate. cbn [four_hex]. intros H.
  apply andb_prop in H as [H Hd]. apply andb_prop in H as [H Hc].
  apply andb_prop in H as [Ha Hb]. by exists a, b, c, d.
Qed.

(** X17. guid() always returns 36 characters in the groups 8-4-4-4-12:
    dashes at the positions 8, 13, 18 and 23 and lower-case hexadecimal
    digits everywhere else, whatever Math.random() returns.  Nothing marks
    a version: when Math.random() returns 0 each time, the result is
    00000000-0000-0000-0000-000000000000. *)
Theorem guid_has_the_shape_of_a_uuid (random : nat -> Q) :
  (forall i, i < 8 -> (0 <= random i)%Q /\ (random i <= 1)%Q) ->
  String.length (guid random) = 36
  /\ (forall i, i < 36 ->
        exists a, String.get i (guid random) = Some a
                  /\ if is_dash_position i then a = "-"%char else is_hex a = true)
  /\ guid (fun _ => 0%Q) = "00000000-0000-0000-0000-000000000000".
Proof.
  intros Hr.
  assert (H4 : forall i, i < 8 -> four_hex (s4 (random i)) = true).
  { intros i Hi. destruct (Hr i Hi). by apply four_hex_s4. }
  unfold guid.
  destruct (four_hex_inv _ (H4 0 ltac:(lia))) as (a0 & b0 & c0 & d0 & -> & ? & ? & ? & ?).
  destruct (four_hex_inv _ (H4 1 ltac:(lia))) as (a1 & b1 & c1 & d1 & -> & ? & ? & ? & ?).
  destruct (four_hex_inv _ (H4 2 ltac:(lia))) as (a2 & b2 & c2 & d2 & -> & ? & ? & ? & ?).
  destruct (four_hex_inv _ (H4 3 ltac:(lia))) as (a3 & b3 & c3 & d3 & -> & ? & ? & ? & ?).
  destruct (four_hex_inv _ (H4 4 ltac:(lia))) as (a4 & b4 & c4 & d4 & -> & ? & ? & ? & ?).
  destruct (four_hex_inv _ (H4 5 ltac:(lia))) as (a5 & b5 & c5 & d5 & -> & ? & ? & ? & ?).
  destruct (four_hex_inv _ (H4 6 ltac:(lia))) as (a6 & b6 & c6 & d6 & -> & ? & ? & ? & ?).
  destruct (four_hex_inv _ (H4 7 ltac:(lia))) as (a7 & b7 & c7 & d7 & -> & ? & ? & ? & ?).
  cbv [String.append]. split; [reflexivity|]. split; [|vm_compute; reflexivity].
  intros i Hi.
  do 36 (destruct i as [|i]; [eexists; split; [reflexivity|]; cbn; done|]). lia.
Qed.

Lemma guid_has_the_shape_of_a_uuid_witness :
  let random := fun i : nat => if Nat.even i then (1 # 3)%Q else 1%Q in
  (forall i, i < 8 -> (0 <= random i)%Q /\ (random i <= 1)%Q)
  /\ String.length (guid random) = 36
  /\ (forall i, i < 36 ->
        exists a, String.get i (guid random) = Some a
                  /\ if is_dash_position i then a = "-"%char else is_hex a = true)
  /\ guid (fun _ => 0%Q) = "00000000-0000-0000-0000-000000000000".
Proof.
  cbn zeta.
  assert (H : forall i, i < 8 ->
            (0 <= if Nat.even i then 1 # 3 else 1)%Q
            /\ ((if Nat.even i then 1 # 3 else 1) <= 1)%Q).
  { intros i _. destruct (Nat.even i); split; discriminate. }
  split; [exact H|].
  apply (guid_has_the_shape_of_a_uuid
           (fun i : nat => if Nat.even i then (1 # 3)%Q else 1%Q) H).
Defined.

(** X18. After setupPolyfills() window.requestAnimationFrame is always
    defined; a requestAnimationFrame that exists is never replaced, so
    that a second call changes nothing; the prefixed functions are left
    alone; and the timer of 1000/60 ms is used only when none of the four
    prefixed functions exists. *)
Theorem setupPolyfills_defines_requestAnimationFrame_once (w : Window) :
  let w' := setupPolyfills w in
  is_Some (requestAnimationFrame w')
  /\ (is_Some (requestAnimationFrame w) -> w' = w)
  /\ setupPolyfills w' = w'
  /\ (webkitRequestAnimationFrame w', mozRequestAnimationFrame w',
      oRequestAnimationFrame w', msRequestAnimationFrame w')
     = (webkitRequestAnimationFrame w, mozRequestAnimationFrame w,
        oRequestAnimationFrame w, msRequestAnimationFrame w)
  /\ (requestAnimationFrame w' = Some EverySixtieth ->
      requestAnimationFrame w = Some EverySixtieth
      \/ (webkitRequestAnimationFrame w, mozRequestAnimationFrame w,
          oRequestAnimationFrame w, msRequestAnimationFrame w)
         = (None, None, None, None)).
Proof.
  destruct w as [[r|] [a|] [b|] [c|] [d|]]; cbn; repeat split; eauto; try discriminate;
    intros [? H]; discriminate.
Qed.

(** capture when no limit is set: the frame goes to the encoder and
    nothing else happens. *)
Lemma capture_plain now c d enc :
  DCapture.stopped d = false -> DCapture.encoder d = Some enc ->
  Qltb 0 (timeLimit (DCapture.settings d)) = false ->
  Qltb 0 (frameLimit (DCapture.settings d)) = false ->
  let o := DCapture.capture now c d in
  thrown o = None
  /\ DCapture.encoder (final o) = Some (final (Encoder.add c enc))
  /\ DCapture.stopped (final o) = false
  /\ DCapture.settings (final o) = DCapture.settings d
  /\ effects o = EncoderAdd c :: effects (Encoder.add c enc).
Proof.
  intros Hs He Ht Hf. destruct d as [s st fr scb sp en di]. cbn in *. subst.
  pose proof (total_add c enc) as Hadd. unfold total in Hadd.
  dc_eval.
  destruct (Qltb 1 _); dc_eval; rewrite Hadd; dc_eval; [done|].
  destruct (settings_display s), di; dc_eval; rewrite Ht; cbn [andb]; dc_eval;
    rewrite Hf; cbn [andb]; dc_eval; rewrite ?app_nil_r; done.
Qed.

Lemma perform_capture_plain now c w enc :
  DCapture.stopped (capturer w) = false -> DCapture.encoder (capturer w) = Some enc ->
  Qltb 0 (timeLimit (DCapture.settings (capturer w))) = false ->
  Qltb 0 (frameLimit (DCapture.settings (capturer w))) = false ->
  let w' := perform (Capture now c) w in
  let o := Encoder.add c enc in
  globals w' = globals w
  /\ DCapture.encoder (capturer w') = Some (final o)
  /\ DCapture.stopped (capturer w') = false
  /\ DCapture.settings (capturer w') = DCapture.settings (capturer w)
  /\ tasks w' = tasks w ++ requested (effects o)
  /\ microtasks w' = microtasks w
  /\ detached w' = detached w /\ parked w' = parked w
  /\ log w' = log w ++ EncoderAdd c :: effects o.
Proof.
  intros Hs He Ht Hf.
  destruct (capture_plain now c _ enc Hs He Ht Hf) as (H1 & H2 & H3 & H4 & H5).
  cbn [perform]. unfold after. cbn [globals capturer detached microtasks parked tasks log].
  rewrite H1, H5.
  destruct (quiet_adds _ (quiet_add c enc)) as [_ Hsch].
  change (scheduled (EncoderAdd c :: effects (Encoder.add c enc)))
    with (scheduled (effects (Encoder.add c enc))).
  change (requested (EncoderAdd c :: effects (Encoder.add c enc)))
    with (requested (effects (Encoder.add c enc))).
  rewrite Hsch, ?app_nil_r. by conj.
Qed.

Lemma total_each_add cs : forall enc, thrown (each Encoder.add cs enc) = None.
Proof.
  induction cs as [|c cs IH]; intros enc; [done|].
  cbn [each]. rewrite andThen_normal by apply total_add. apply IH.
Qed.

Lemma run_captures_plain frames : forall w enc,
  DCapture.stopped (capturer w) = false -> DCapture.encoder (capturer w) = Some enc ->
  Qltb 0 (timeLimit (DCapture.settings (capturer w))) = false ->
  Qltb 0 (frameLimit (DCapture.settings (capturer w))) = false ->
  let w' := run (captures frames) w in
  let o := each Encoder.add (map snd frames) enc in
  globals w' = globals w
  /\ DCapture.encoder (capturer w') = Some (final o)
  /\ DCapture.stopped (capturer w') = false
  /\ DCapture.settings (capturer w') = DCapture.settings (capturer w)
  /\ tasks w' = tasks w ++ requested (effects o)
  /\ microtasks w' = microtasks w
  /\ detached w' = detached w /\ parked w' = parked w
  /\ log w' = log w ++ logged_adds (map snd frames) enc.
Proof.
  induction frames as [|[now c] frames IH]; intros w enc Hs He Ht Hf.
  - cbn. rewrite !app_nil_r. by conj.
  - cbn [captures map fst snd]. rewrite run_cons. fold (captures frames).
    destruct (perform_capture_plain now c w enc Hs He Ht Hf)
      as (P1 & P2 & P3 & P4 & P5 & P6 & P7 & P8 & P9).
    destruct (IH (perform (Capture now c) w) _ P3 P2)
      as (I1 & I2 & I3 & I4 & I5 & I6 & I7 & I8 & I9); [by rewrite P4..|].
    cbn [each logged_adds]. rewrite andThen_normal by apply total_add.
    cbn [final effects]. rewrite requested_app, I5, P5, I9, P9, <- !app_assoc.
    conj; try congruence. reflexivity.
Qed.

Lemma each_add_whammy cs : forall e,
  each Encoder.add cs (WhammyEncoder e)
  = lift WhammyEncoder (each DCWhammyEncoder.add cs e).
Proof.
  induction cs as [|c cs IH]; intros e; [done|].
  assert (H : thrown (DCWhammyEncoder.add c e) = None) by exact (total_add c (WhammyEncoder e)).
  cbn [each Encoder.add]. rewrite !andThen_normal by exact H.
  cbn [final effects lift]. by rewrite IH.
Qed.

Lemma each_add_gif cs : forall e,
  each Encoder.add cs (GIFEncoder e) = lift GIFEncoder (each DCGIFEncoder.add cs e).
Proof.
  induction cs as [|c cs IH]; intros e; [done|].
  assert (H : thrown (DCGIFEncoder.add c e) = None) by exact (total_add c (GIFEncoder e)).
  cbn [each Encoder.add]. rewrite !andThen_normal by exact H.
  cbn [final effects lift]. by rewrite IH.
Qed.

Lemma artifacts_logged_adds cs : forall enc,
  artifacts (logged_adds cs enc) = artifacts (effects (each Encoder.add cs enc)).
Proof.
  induction cs as [|c cs IH]; intros enc; [done|].
  cbn [logged_adds each]. rewrite andThen_normal by apply total_add. cbn [effects].
  change (artifacts (EncoderAdd c :: ?l)) with (artifacts l).
  by rewrite !artifacts_app, IH.
Qed.

Lemma raised_logged_adds cs : forall enc, raised (logged_adds cs enc) = [].
Proof.
  induction cs as [|c cs IH]; intros enc; [done|].
  cbn [logged_adds]. change (raised (EncoderAdd c :: ?l)) with (raised l).
  rewrite raised_app, IH, app_nil_r.
  by destruct (gentle_silent _ (internal_gentle _ (quiet_add c enc))) as (_ & _ & H).
Qed.

Lemma createEncoder_webm G s :
  degrades (format s) = false -> hasWhammy G = true ->
  exists e,
    DCapture.createEncoder G s = Built (WhammyEncoder e)
    /\ DCWhammyEncoder.settings e = s.
Proof.
  intros Hd HG. unfold degrades in Hd. unfold DCapture.createEncoder.
  apply orb_false_elim in Hd as [Hd H5]. apply orb_false_elim in Hd as [Hd H4].
  apply orb_false_elim in Hd as [Hd H3]. apply orb_false_elim in Hd as [H1 H2].
  rewrite H1, H2, H3, H4, H5. cbn [orb]. unfold DCWhammyEncoder.constructor. rewrite HG.
  cbn. eexists. split; reflexivity.
Qed.

Lemma start_webm G now cb d e :
  DCapture.encoder d = Some (WhammyEncoder e) -> hasWhammy G = true ->
  let w := perform (Start now cb) (load G d) in
  globals w = G
  /\ DCapture.encoder (capturer w) = Some (WhammyEncoder (final (DCWhammyEncoder.start G e)))
  /\ DCapture.stopped (capturer w) = DCapture.stopped d
  /\ DCapture.settings (capturer w) = DCapture.settings d
  /\ tasks w = [] /\ microtasks w = []
  /\ artifacts (log w) = [] /\ raised (log w) = [] /\ errors (log w) = [].
Proof.
  intros He HG. destruct d as [s st fr scb sp en di]. cbn in He. subst.
  cbn [perform load globals capturer]. unfold after, DCapture.start. dc_eval.
  cbn [Encoder.start]. rewrite (whammy_start_spec G e HG). dc_eval.
  destruct cb; dc_eval; cbn; conj; done.
Qed.

Lemma finish_webm id w e v :
  DCapture.encoder (capturer w) = Some (WhammyEncoder e) ->
  DCWhammyEncoder.encoder e = Some v -> microtasks w = [] ->
  let w' := run [Stop; Tick; Tick; SaveTo (Fn id)] w in
  artifacts (log w') = artifacts (log w) ++ [WebMVideo (DCWhammyEncoder.video_frames v)]
  /\ raised (log w') = raised (log w)
  /\ errors (log w') = errors (log w).
Proof.
  intros He Hv Hm. destruct w as [G d det mt pk ts lg]. cbn in He, Hm. subst mt.
  destruct d as [s st fr scb sp en di]. cbn in He. subst en.
  unfold run. cbn [fold_left perform]. unfold tick, after. cbn.
  destruct di; cbn; unfold DCWhammyEncoder.save; cbn; rewrite Hv; cbn;
    rewrite !artifacts_app, !raised_app, !errors_app; cbn; by rewrite ?app_nil_r.
Qed.

Lemma errors_logged_adds_whammy cs : forall e,
  errors (logged_adds cs (WhammyEncoder e))
  = errors (effects (each DCWhammyEncoder.add cs e)).
Proof.
  induction cs as [|c cs IH]; intros e; [done|].
  assert (H : thrown (DCWhammyEncoder.add c e) = None) by exact (total_add c (WhammyEncoder e)).
  cbn [logged_adds each Encoder.add lift final effects]. rewrite andThen_normal by exact H.
  cbn [effects]. change (errors (EncoderAdd c :: ?l)) with (errors l).
  by rewrite !errors_app, IH.
Qed.

(** X19. A WebM session from start to save.  For a capturer constructed
    for the format webm (or any format that is none of webm-mediarecorder,
    png, jpg, jpeg and gif) with no limits: after start(), capture calls
    for the frames, stop(), the two reactions of its promise and
    save(callback), the callback was called exactly once, with one video
    made of exactly the frames the library accepted, in the order they
    were captured; nothing was thrown to the caller, and one 'error' event
    was emitted for each frame that was dropped.  (At least one frame must
    have been accepted.) *)
Theorem webm_session_delivers_the_frames
    (G : Globals) (options : Options) (d : DCapture.t)
    (now : Z) (frames : list (Z * Canvas)) (id : nat) :
  DCapture.constructor G options = Built d ->
  degrades (format (DCapture.settings d)) = false ->
  (timeLimit (DCapture.settings d) == 0)%Q ->
  (frameLimit (DCapture.settings d) == 0)%Q ->
  let kept := List.filter drawable (map snd frames) in
  kept <> [] ->
  let w := session now frames id (load G d) in
  artifacts (log w) = [WebMVideo kept]
  /\ raised (log w) = []
  /\ length (errors (log w)) = length frames - length kept.
Proof.
  intros Hd Hfmt Ht Hf kept Hk.
  destruct (constructor_built _ _ _ Hd) as (Hs & Hst & _).
  assert (HG : hasWhammy G = true).
  { destruct (hasWhammy G) eqn:E; [done|]. exfalso.
    unfold DCapture.constructor in Hd. rewrite <- Hs in Hd.
    rewrite (createEncoder_throws G (DCapture.settings d)) in Hd; [done|done|].
    unfold backend_available. unfold degrades in Hfmt.
    apply orb_false_elim in Hfmt as [Hfmt H5]. apply orb_false_elim in Hfmt as [Hfmt H4].
    apply orb_false_elim in Hfmt as [Hfmt H3]. apply orb_false_elim in Hfmt as [H1 H2].
    by rewrite H1, H2, H3, H4, H5. }
  unfold DCapture.constructor in Hd.
  destruct (createEncoder_webm G (assign defaults options)) as (e & C1 & C2);
    [by rewrite <- Hs|done|].
  rewrite C1 in Hd. injection Hd as <-. cbn [DCapture.settings] in *.
  set (d := DCapture.Build_t _ _ _ _ _ _ _).
  destruct (start_webm G now NoCallback d e eq_refl HG)
    as (S1 & S2 & S3 & S4 & S5 & S6 & S7 & S8 & S9).
  set (w0 := perform (Start now NoCallback) (load G d)) in *.
  destruct (run_captures_plain frames w0 _ S3 S2)
    as (R1 & R2 & R3 & R4 & R5 & R6 & R7 & R8 & R9);
    [rewrite S4; by apply Qltb_zero..|].
  set (w1 := run (captures frames) w0) in *.
  rewrite each_add_whammy in R2, R5. cbn [lift final effects] in R2, R5.
  rewrite (whammy_start_spec G e HG) in R2, R5. cbn [final ret] in R2, R5.
  match type of R2 with
  | context [each _ _ ?e1] =>
      destruct (whammy_adds_spec (map snd frames) e1 _ eq_refl) as (B1 & B2 & B3 & B4 & B5);
      set (e2 := final (each DCWhammyEncoder.add (map snd frames) e1)) in *
  end.
  assert (Hreq : tasks w1 = []).
  { rewrite R5, S5. cbn [app].
    clear -B1. revert B1.
    match goal with |- context [each _ _ ?e1] => generalize e1 end.
    induction (map snd frames) as [|c cs IH]; intros e1 B1; [done|].
    cbn [each] in *.
    assert (H : thrown (DCWhammyEncoder.add c e1) = None)
      by exact (total_add c (WhammyEncoder e1)).
    rewrite andThen_normal in * by exact H. cbn [thrown final effects] in *.
    rewrite requested_app, (IH _ B1), app_nil_r.
    unfold DCWhammyEncoder.add. split_cases; rewrite ?requested_calls; done. }
  unfold session. change (run (Start now NoCallback :: captures frames) (load G d)) with w1.
  rewrite settle_idle by (done || congruence).
  destruct (finish_webm id w1 e2 _ R2 B2 ltac:(congruence)) as (F1 & F2 & F3).
  cbn [DCWhammyEncoder.video_frames app] in F1.
  rewrite F1, F2, F3, R9, artifacts_app, raised_app, errors_app, S7, S8, S9.
  rewrite artifacts_logged_adds, raised_logged_adds, errors_logged_adds_whammy.
  rewrite each_add_whammy. cbn [lift effects app].
  rewrite (whammy_start_spec G e HG). cbn [final ret].
  rewrite B5, B4, length_map. done.
Qed.

Lemma webm_session_delivers_the_frames_witness :
  let G := all_loaded in
  let d := built (DCapture.constructor G no_options) in
  let frames := [(10%Z, plain_canvas []); (20%Z, tainted_canvas);
                 (30%Z, plain_canvas [Byte.x01])] in
  DCapture.constructor G no_options = Built d
  /\ degrades (format (DCapture.settings d)) = false
  /\ (timeLimit (DCapture.settings d) == 0)%Q
  /\ (frameLimit (DCapture.settings d) == 0)%Q
  /\ List.filter drawable (map snd frames) <> []
  /\ let w := session 0 frames 7 (load G d) in
     artifacts (log w) = [WebMVideo [plain_canvas []; plain_canvas [Byte.x01]]]
     /\ raised (log w) = []
     /\ length (errors (log w)) = 1.
Proof.
  cbn zeta. split; [reflexivity|]. split; [reflexivity|]. split; [reflexivity|].
  split; [reflexivity|]. split; [discriminate|].
  apply (webm_session_delivers_the_frames all_loaded no_options
           (built (DCapture.constructor all_loaded no_options)) 0
           [(10%Z, plain_canvas []); (20%Z, tainted_canvas);
            (30%Z, plain_canvas [Byte.x01])] 7);
    try reflexivity. discriminate.
Defined.

Ltac undelivered_steps :=
  repeat (only_step;
          try (apply only_tar_emit; reflexivity);
          try (apply only_tar_dispose; reflexivity);
          try (apply only_tar_onload; reflexivity)).

Lemma undelivered_start G enc : only undelivered (Encoder.start G enc).
Proof.
  destruct enc; unfold Encoder.start, DCMediaRecorderEncoder.start, DCTarEncoder.start,
    DCGIFEncoder.start, DCWhammyEncoder.start, DCMediaRecorderEncoder.emit,
    DCGIFEncoder.emit, DCWhammyEncoder.emit; undelivered_steps.
Qed.

Lemma undelivered_add c enc : only undelivered (Encoder.add c enc).
Proof.
  destruct enc; unfold Encoder.add, DCMediaRecorderEncoder.add, DCPNGEncoder.add,
    DCJPEGEncoder.add, DCGIFEncoder.add, DCWhammyEncoder.add,
    DCMediaRecorderEncoder.step, DCGIFEncoder.step, DCWhammyEncoder.step,
    DCMediaRecorderEncoder.emit, DCPNGEncoder.emit, DCJPEGEncoder.emit,
    DCGIFEncoder.emit, DCWhammyEncoder.emit; undelivered_steps.
Qed.

Lemma undelivered_stop enc : only undelivered (Encoder.stop enc).
Proof.
  destruct enc; unfold Encoder.stop, DCMediaRecorderEncoder.stop, DCFrameEncoder.stop,
    DCGIFEncoder.stop, DCWhammyEncoder.stop, DCGIFEncoder.emit; undelivered_steps.
Qed.

Lemma undelivered_save enc : only undelivered (Encoder.save NoCallback enc).
Proof.
  destruct enc; unfold Encoder.save, DCMediaRecorderEncoder.save, DCTarEncoder.save,
    DCTarEncoder.call, DCGIFEncoder.save, DCGIFEncoder.call, DCWhammyEncoder.save,
    DCMediaRecorderEncoder.emit, DCWhammyEncoder.emit; undelivered_steps.
Qed.

Lemma undelivered_dispose G enc : only undelivered (Encoder.dispose G enc).
Proof.
  destruct enc; unfold Encoder.dispose, DCMediaRecorderEncoder.dispose,
    DCGIFEncoder.dispose, DCWhammyEncoder.dispose; undelivered_steps.
Qed.

Lemma undelivered_gif_listeners ls data : forall e,
  Forall (fun l => expects l = false) ls ->
  only undelivered (DCGIFEncoder.listeners ls data e).
Proof.
  induction ls as [|l ls IH]; intros e Hls; cbn [DCGIFEncoder.listeners].
  - apply only_ret.
  - apply Forall_cons in Hls as [Hl Hls]. apply only_andThen; [|intros; by apply IH].
    unfold DCGIFEncoder.listener, DCGIFEncoder.call, DCGIFEncoder.emit.
    destruct l as [| |[|id]]; try discriminate; undelivered_steps.
Qed.

Lemma gif_listeners_renderer ls data : forall e,
  DCGIFEncoder.encoder (final (DCGIFEncoder.listeners ls data e)) = DCGIFEncoder.encoder e.
Proof.
  induction ls as [|l ls IH]; intros e; [done|].
  cbn [DCGIFEncoder.listeners]. unfold andThen.
  destruct l, data; unfold DCGIFEncoder.listener, DCGIFEncoder.call;
    split_cases; rewrite ?IH; done.
Qed.

Lemma listening_expects event gif :
  Forall (fun p => expects (snd p) = false) (GIF.listeners gif) ->
  Forall (fun l => expects l = false) (GIF.listening event gif).
Proof.
  unfold GIF.listening. induction (GIF.listeners gif) as [|p ps IH]; intros H; [constructor|].
  apply Forall_cons in H as [Hp Hps]. rewrite filter_cons.
  destruct (decide _); cbn [map]; [constructor|]; auto.
Qed.

Lemma harmless_start G : harmless (Encoder.start G).
Proof.
  intros enc Hn. split; [apply undelivered_start|].
  destruct enc as [e|e|e|e|e]; try exact I. cbn.
  unfold DCGIFEncoder.start. destruct (hasGIF G); cbn; [repeat constructor|exact Hn].
Qed.

Lemma harmless_add c : harmless (Encoder.add c).
Proof.
  intros enc Hn. split; [apply undelivered_add|].
  destruct enc as [e|e|e|e|e]; try exact I. cbn in *.
  unfold DCGIFEncoder.add.
  destruct (DCGIFEncoder.encoder e) as [gif|] eqn:E; [|cbn; rewrite ?E; done].
  cbn; repeat (rewrite ?E; split_case; cbn); rewrite ?E; exact Hn.
Qed.

Lemma harmless_stop : harmless Encoder.stop.
Proof.
  intros enc Hn. split; [apply undelivered_stop|].
  destruct enc as [e|e|e|e|e]; try exact I. cbn in *.
  unfold DCGIFEncoder.stop.
  destruct (DCGIFEncoder.encoder e) as [gif|] eqn:E; [|cbn; rewrite ?E; done].
  destruct (GIF.running gif); cbn; rewrite ?E; exact Hn.
Qed.

Lemma harmless_save : harmless (Encoder.save NoCallback).
Proof.
  intros enc Hn. split; [apply undelivered_save|].
  destruct enc as [e|e|e|e|e]; try exact I. cbn in *.
  unfold DCGIFEncoder.save.
  destruct (DCGIFEncoder.savedBlob e); cbn; [exact Hn|].
  destruct (DCGIFEncoder.encoder e) as [gif|] eqn:E; cbn; rewrite ?E; [|done].
  apply Forall_app. split; [exact Hn|repeat constructor].
Qed.

Lemma harmless_dispose G : harmless (Encoder.dispose G).
Proof.
  intros enc Hn. split; [apply undelivered_dispose|].
  destruct enc as [e|e|e|e|e]; exact I.
Qed.

Lemma harmless_complete G task : harmless (Encoder.complete G task).
Proof.
  intros enc Hn. split.
  - destruct task as [b| | | |blob], enc as [e|e|e|e|e]; cbn [Encoder.complete];
      try (unfold DCPNGEncoder.toBlob_callback, DCJPEGEncoder.toBlob_callback,
             DCTarEncoder.add, DCTarEncoder.onerror, DCMediaRecorderEncoder.onstop,
             DCPNGEncoder.emit, DCJPEGEncoder.emit, DCMediaRecorderEncoder.emit;
           undelivered_steps; fail).
    cbn in Hn. unfold DCGIFEncoder.on_finished. apply only_lift.
    destruct (DCGIFEncoder.encoder e) as [gif|] eqn:E; [|apply only_ret].
    destruct (GIF.running gif); [|apply only_ret].
    by apply undelivered_gif_listeners, listening_expects.
  - destruct task, enc as [e|e|e|e|e]; try exact I; try exact Hn. cbn in *.
    unfold DCGIFEncoder.on_finished.
    destruct (DCGIFEncoder.encoder e) as [gif|] eqn:E; [|cbn; rewrite ?E; done].
    destruct (GIF.running gif); [|cbn; rewrite ?E; done].
    rewrite gif_listeners_renderer. cbn. exact Hn.
Qed.

Lemma harmless_data chunk :
  harmless (fun enc =>
              match enc with
              | MediaRecorderEncoder e =>
                  if bool_decide (is_Some (DCMediaRecorderEncoder.recorder e))
                  then lift MediaRecorderEncoder (DCMediaRecorderEncoder.ondataavailable chunk e)
                  else ret enc
              | _ => ret enc
              end).
Proof.
  intros enc Hn. destruct enc as [e|e|e|e|e]; try (split; [apply only_ret|exact Hn]).
  unfold DCMediaRecorderEncoder.ondataavailable.
  destruct (bool_decide _), chunk; split; try exact I; undelivered_steps.
Qed.

Lemma harmless_progress p :
  harmless (fun enc =>
              match enc with
              | GIFEncoder e => lift GIFEncoder (DCGIFEncoder.on_progress p e)
              | _ => ret enc
              end).
Proof.
  intros enc Hn. destruct enc as [e|e|e|e|e]; try (split; [apply only_ret|exact Hn]).
  cbn in Hn. unfold DCGIFEncoder.on_progress.
  destruct (DCGIFEncoder.encoder e) as [gif|] eqn:E;
    [|split; [apply only_lift, only_ret|cbn; by rewrite E]].
  destruct (GIF.running gif); [|split; [apply only_lift, only_ret|cbn; by rewrite E]].
  split.
  - apply only_lift, undelivered_gif_listeners, listening_expects, Hn.
  - cbn. rewrite gif_listeners_renderer, E. exact Hn.
Qed.

Lemma tidy_ret d : tidy d -> tidy_out (ret d).
Proof. intros H. split; [apply only_ret|exact H]. Qed.

Lemma tidy_throw msg d : tidy d -> tidy_out (throw msg d).
Proof. intros H. split; [apply only_throw|exact H]. Qed.

Lemma tidy_effect e d : undelivered e = true -> tidy d -> tidy_out (effect e d).
Proof. intros He H. split; [by apply only_effect|exact H]. Qed.

Lemma tidy_andThen o k :
  tidy_out o -> (forall d, tidy d -> tidy_out (k d)) -> tidy_out (o >>> k).
Proof.
  intros [Ho Ht] Hk. unfold andThen. destruct (thrown o); [by split|].
  destruct (Hk _ Ht) as [Hk1 Hk2]. split; [|exact Hk2].
  unfold only in *. cbn. by apply Forall_app.
Qed.

Lemma tidy_on_encoder call m d :
  undelivered call = true -> harmless m -> tidy d ->
  tidy_out (DCapture.on_encoder (fun enc => effect call enc >>> m) d).
Proof.
  intros Hc Hm Hd. unfold DCapture.on_encoder.
  destruct (DCapture.encoder d) as [enc|] eqn:E; [|by apply tidy_throw].
  destruct (Hm enc (Hd enc E)) as [H1 H2].
  unfold andThen, effect, lift. cbn [thrown final effects]. split.
  - unfold only. cbn. constructor; [done|exact H1].
  - intros enc' He. cbn in He. injection He as <-. exact H2.
Qed.

Lemma tidy_same d d' : DCapture.encoder d' = DCapture.encoder d -> tidy d -> tidy d'.
Proof. intros E H enc He. apply H. by rewrite <- E. Qed.

Lemma tidy_stop_then rest d : tidy d -> tidy_out (DCapture.stop_then rest d).
Proof. intros H. unfold DCapture.stop_then. apply tidy_effect; [done|]. by eapply tidy_same. Qed.

Lemma tidy_updateDisplayInfo now d : tidy d -> tidy (DCapture.updateDisplayInfo now d).
Proof.
  intros H. eapply tidy_same; [|exact H]. unfold DCapture.updateDisplayInfo.
  by destruct (DCapture.display d).
Qed.

Lemma tidy_start G now cb d : tidy d -> tidy_out (DCapture.start G now cb d).
Proof.
  intros H. unfold DCapture.start. apply tidy_andThen.
  - apply tidy_on_encoder; [done|apply harmless_start|]. by eapply tidy_same.
  - intros d' H'. destruct cb; [by apply tidy_ret|by apply tidy_effect].
Qed.

Lemma tidy_capture now c d : tidy d -> tidy_out (DCapture.capture now c d).
Proof.
  intros H. unfold DCapture.capture, DCapture.captureMotionBlur.
  destruct (DCapture.stopped d); [by apply tidy_ret|].
  destruct (DCapture.encoder d) eqn:E; [|by apply tidy_throw].
  destruct (Qltb 1 _).
  - apply tidy_on_encoder; [done|apply harmless_add|]. by eapply tidy_same.
  - cbv zeta. apply tidy_andThen; [|intros d1 H1; apply tidy_andThen].
    + apply tidy_on_encoder; [done|apply harmless_add|]. by eapply tidy_same.
    + destruct (_ && _); [apply tidy_stop_then|apply tidy_ret];
        destruct (settings_display _); auto using tidy_updateDisplayInfo.
    + intros d2 H2. destruct (_ && _); [by apply tidy_stop_then|by apply tidy_ret].
Qed.

Lemma tidy_save d : tidy d -> tidy_out (DCapture.save NoCallback d).
Proof.
  intros H. unfold DCapture.save. destruct (DCapture.encoder d); [|by apply tidy_throw].
  apply tidy_on_encoder; [done|apply harmless_save|done].
Qed.

Lemma tidy_dispose_encoder G d : tidy d -> tidy_out (DCapture.dispose_encoder G d).
Proof.
  intros H. unfold DCapture.dispose_encoder.
  set (d1 := match DCapture.display d with Some _ => _ | None => d end).
  assert (H1 : tidy d1).
  { eapply tidy_same; [|exact H]. unfold d1. by destruct (DCapture.display d). }
  destruct (DCapture.encoder d1); [|by apply tidy_ret].
  apply tidy_on_encoder; [done|apply harmless_dispose|done].
Qed.

Lemma tidy_dispose G d : tidy d -> tidy_out (DCapture.dispose G d).
Proof.
  intros H. unfold DCapture.dispose. apply tidy_andThen; [by apply tidy_dispose_encoder|].
  intros d' _. apply tidy_ret. intros enc He. discriminate He.
Qed.

Lemma tidy_react stage d : tidy d -> tidy_out (DCapture.react stage d).
Proof.
  intros H. destruct stage; cbn [DCapture.react].
  - apply tidy_on_encoder; [done|apply harmless_stop|done].
  - destruct (DCapture.display d); apply tidy_ret; [by eapply tidy_same|done].
  - by apply tidy_save.
Qed.

Lemma clean_after report o w :
  (forall msg, undelivered (report msg) = true) ->
  clean w -> tidy_out o -> clean (after report o w).
Proof.
  intros Hr (C1 & C2 & C3) [O1 O2]. unfold clean, after. cbn. split; [|by split].
  apply Forall_app. split; [exact C1|]. apply Forall_app. split; [exact O1|].
  destruct (thrown o); repeat constructor. apply Hr.
Qed.

Lemma clean_same w w' :
  log w' = log w -> capturer w' = capturer w -> detached w' = detached w ->
  clean w -> clean w'.
Proof. intros E1 E2 E3 H. unfold clean. by rewrite E1, E2, E3. Qed.

Lemma undelivered_progress l :
  Forall (fun e => is_progress e = true) l -> Forall (fun e => undelivered e = true) l.
Proof. intros H. eapply Forall_impl; [exact H|]. by intros []. Qed.

Lemma tidy_heard o d enc :
  only undelivered o -> DCapture.encoder d = enc -> (forall e, enc = Some e -> no_receiver e) ->
  tidy_out (heard o d).
Proof.
  intros Ho He Hn. unfold heard.
  destruct (relay_spec (effects o) d) as (R1 & R2 & R3).
  split; cbn.
  - apply Forall_app. split; [exact Ho|by apply undelivered_progress].
  - intros e E. apply Hn. by rewrite <- He, <- R2.
Qed.

Lemma clean_encoder_event m w : harmless m -> clean w -> clean (encoder_event m w).
Proof.
  intros Hm Hw. pose proof Hw as (C1 & C2 & C3). unfold encoder_event.
  destruct (DCapture.encoder (capturer w)) as [enc|] eqn:E.
  - destruct (Hm enc (C2 enc E)) as [H1 H2].
    apply clean_after; [done|done|].
    eapply tidy_heard; [exact H1|reflexivity|]. intros e He. cbn in He. by injection He as <-.
  - destruct (detached w) as [enc|] eqn:Ed; [|done].
    destruct (Hm enc (C3 enc eq_refl)) as [H1 H2].
    assert (Hc : clean (after Unhandled (heard (m enc) (capturer w)) w)).
    { apply clean_after; [done|done|].
      eapply tidy_heard; [exact H1|exact E|]. intros e He. discriminate He. }
    destruct Hc as (D1 & D2 & D3). split; [exact D1|]. split; [exact D2|].
    intros e He. cbn in He. by injection He as <-.
Qed.

Lemma clean_tick w : clean w -> clean (tick w).
Proof.
  intros Hw. unfold tick. destruct (microtasks w) as [|[|stage rest] chains];
    [done|by eapply clean_same|].
  set (w1 := after Unhandled _ _).
  assert (H1 : clean w1).
  { apply clean_after; [done|by eapply clean_same|]. apply tidy_react. apply Hw. }
  destruct (thrown _); [done|].
  destruct (match stage with StopEncoder => _ | _ => _ end);
    by eapply clean_same.
Qed.

Lemma clean_turn i task w : clean w -> clean (turn i task w).
Proof.
  intros Hw. unfold turn.
  set (w0 := set_tasks _ w).
  set (w1 := encoder_event _ w0).
  assert (H1 : clean w1).
  { apply clean_encoder_event; [apply harmless_complete|by eapply clean_same]. }
  destruct task; try exact H1.
  destruct (parked w1); [|exact H1].
  destruct (match target w0 with Some _ => _ | None => _ end); [exact H1|].
  by eapply clean_same.
Qed.

Lemma clean_perform a w : hands_over a = false -> clean w -> clean (perform a w).
Proof.
  intros Ha Hw. pose proof Hw as (C1 & C2 & C3).
  destruct a as [now cb|now c| |[|id]| | |i|i|chunk|p]; try discriminate; cbn [perform].
  - apply clean_after; [done|done|by apply tidy_start].
  - apply clean_after; [done|done|by apply tidy_capture].
  - apply clean_after; [done|done|by apply tidy_stop_then].
  - apply clean_after; [done|done|by apply tidy_save].
  - destruct (tidy_dispose_encoder (globals w) (capturer w) C2) as [D1 D2].
    destruct (DCapture.encoder (final _)) as [enc|] eqn:E.
    + apply clean_after; [done| |by apply tidy_dispose].
      split; [exact C1|]. split; [exact C2|]. intros e He. cbn in He.
      injection He as <-. by apply D2.
    + apply clean_after; [done|done|by apply tidy_dispose].
  - by apply clean_tick.
  - destruct (tasks w !! i); [by apply clean_turn|done].
  - destruct (tasks w !! i) as [[]|]; try done. by apply clean_turn.
  - apply clean_encoder_event; [apply harmless_data|done].
  - apply clean_encoder_event; [apply harmless_progress|done].
Qed.

Lemma clean_run acts : forall w,
  forallb (fun a => negb (hands_over a)) acts = true -> clean w -> clean (run acts w).
Proof.
  induction acts as [|a acts IH]; intros w Ha Hw; [done|].
  cbn [forallb] in Ha. apply andb_prop in Ha as [Ha Hacts].
  rewrite run_cons. apply IH; [done|]. apply clean_perform; [|done].
  by apply negb_true_iff.
Qed.

Lemma delivered_none l : Forall (fun e => undelivered e = true) l -> delivered l = [].
Proof.
  induction 1 as [|e l He _ IH]; [done|].
  unfold delivered. cbn [omap list_omap]. destruct e; try discriminate; exact IH.
Qed.

(** X20. A save callback is called only by an explicit save(callback):
    for a capturer made by the constructor, whatever the format and the
    settings, after any sequence of start, capture, stop, dispose and
    save() calls without a callback, with any turns of the event loop
    and events of the browser in between, no callback has received an
    artifact.  In particular the save that capture schedules when the time
    limit or the frame limit is reached, which calls save() without a
    callback, hands the recording to nobody. *)
Theorem only_an_explicit_save_delivers
    (G : Globals) (options : Options) (d : DCapture.t) (acts : list Action) :
  DCapture.constructor G options = Built d ->
  forallb (fun a => negb (hands_over a)) acts = true ->
  delivered (log (run acts (load G d))) = [].
Proof.
  intros Hd Ha. apply delivered_none.
  assert (Hc : clean (load G d)).
  { split; [constructor|]. split; [|intros enc He; discriminate He].
    intros enc He. unfold DCapture.constructor in Hd.
    destruct (DCapture.createEncoder G (assign defaults options)) as [enc0|] eqn:Hc;
      [|discriminate].
    injection Hd as <-. cbn in He. injection He as <-.
    unfold DCapture.createEncoder in Hc.
    destruct (String.eqb _ "webm-mediarecorder");
      [|destruct (String.eqb _ "png");
        [|destruct (_ || _);
          [|destruct (String.eqb _ "gif");
            [|destruct (DCWhammyEncoder.constructor _ _); [|discriminate]]]]];
      injection Hc as <-; exact I. }
  by destruct (clean_run acts (load G d) Ha Hc) as [H _].
Qed.

Lemma only_an_explicit_save_delivers_witness :
  let G := all_loaded in
  let d := built (DCapture.constructor G two_frames) in
  let c := plain_canvas [] in
  let acts := [Start 0 NoCallback; Capture 1 c; Capture 2 c; Tick; Tick; Tick;
               SaveTo NoCallback; Dispose] in
  DCapture.constructor G two_frames = Built d
  /\ forallb (fun a => negb (hands_over a)) acts = true
  /\ delivered (log (run acts (load G d))) = [].
Proof.
  cbn zeta. split; [reflexivity|]. split; [reflexivity|].
  apply (only_an_explicit_save_delivers all_loaded two_frames
           (built (DCapture.constructor all_loaded two_frames))); reflexivity.
Defined.

(** A task completes on the encoder of the capturer. *)
Lemma turn_plain task ts w enc :
  DCapture.encoder (capturer w) = Some enc -> tasks w = task :: ts ->
  task <> RecorderStopped ->
  let o := Encoder.complete (globals w) task enc in
  let w' := perform (Turn 0) w in
  globals w' = globals w
  /\ DCapture.encoder (capturer w') = Some (final o)
  /\ tasks w' = ts ++ requested (effects o)
  /\ microtasks w' = microtasks w
  /\ artifacts (log w') = artifacts (log w) ++ artifacts (effects o)
  /\ raised (log w') = raised (log w)
  /\ steady (capturer w) (capturer w').
Proof.
  intros He Ht Hr.
  pose proof (quiet_complete (globals w) task enc) as Hq.
  cbn [perform]. rewrite Ht. cbn [lookup list_lookup]. unfold turn.
  rewrite Ht. cbn [take drop app].
  set (w0 := set_tasks ts w).
  assert (Hev : encoder_event (Encoder.complete (globals w0) task) w0
                = after Unhandled
                    (heard (Encoder.complete (globals w) task enc)
                       (DCapture.set_encoder
                          (Some (final (Encoder.complete (globals w) task enc)))
                          (capturer w))) w0).
  { unfold encoder_event. cbn [w0 capturer set_tasks globals]. by rewrite He. }
  set (o := Encoder.complete (globals w) task enc) in *.
  destruct (relay_spec (effects o) (DCapture.set_encoder (Some (final o)) (capturer w)))
    as (R1 & R2 & R3).
  destruct (progress_silent _ R3) as (P1 & P2 & P3).
  destruct (passive_heard o (capturer w) Hq) as [Hsteady Hgentle].
  destruct (gentle_silent _ Hgentle) as (_ & _ & Hraised).
  destruct (artifacts_report (thrown o)) as (A1 & A2 & A3).
  replace (match task with RecorderStopped => _ | _ => _ end)
    with (encoder_event (Encoder.complete (globals w0) task) w0) by (by destruct task).
  rewrite Hev. unfold after.
  cbn [globals capturer detached microtasks parked tasks log w0 set_tasks].
  assert (Hth : thrown (heard o (DCapture.set_encoder (Some (final o)) (capturer w)))
                = thrown o) by reflexivity.
  assert (Hfin : DCapture.encoder
                   (final (heard o (DCapture.set_encoder (Some (final o)) (capturer w))))
                 = Some (final o)) by (unfold heard; cbn [final]; by rewrite R2).
  assert (Heff : effects (heard o (DCapture.set_encoder (Some (final o)) (capturer w)))
                 = effects o
                   ++ effects (DCapture.relay (effects o)
                                 (DCapture.set_encoder (Some (final o)) (capturer w))))
    by reflexivity.
  rewrite Hth, !artifacts_app, !raised_app, Hraised, A1, Heff.
  rewrite ?requested_app, ?scheduled_app, ?artifacts_app, ?P1, ?P2, ?P3.
  assert (Hrep : raised (match thrown o with
                         | Some msg => [Unhandled msg]
                         | None => []
                         end) = []) by (by destruct (thrown o)).
  rewrite Hrep, (quiet_unscheduled _ Hq), ?app_nil_r.
  conj; done.
Qed.

Lemma perform_stop w :
  let w' := perform Stop w in
  globals w' = globals w
  /\ DCapture.encoder (capturer w') = DCapture.encoder (capturer w)
  /\ DCapture.stopped (capturer w') = true
  /\ microtasks w' = microtasks w ++ [[StopEncoder; LogStopped]]
  /\ tasks w' = tasks w
  /\ log w' = log w ++ [Scheduled [StopEncoder; LogStopped]].
Proof.
  destruct w as [G d det mt pk ts lg]. cbn. rewrite ?app_nil_r. by conj.
Qed.

Lemma tick_stop_encoder w enc rest chains :
  microtasks w = (StopEncoder :: rest) :: chains ->
  DCapture.encoder (capturer w) = Some enc ->
  Encoder.stop_returns_promise enc = false ->
  let o := Encoder.stop enc in
  let w' := tick w in
  globals w' = globals w
  /\ DCapture.encoder (capturer w') = Some (final o)
  /\ microtasks w' = chains ++ [rest]
  /\ tasks w' = tasks w ++ requested (effects o)
  /\ log w' = log w ++ EncoderStop :: effects o.
Proof.
  intros Hm He Hp. destruct w as [G d det mt pk ts lg]. cbn in Hm, He. subst mt.
  destruct d as [s st fr scb sp en di]. cbn in He. subst en.
  pose proof (total_stop enc) as Ht. unfold total in Ht.
  destruct (quiet_adds _ (quiet_stop enc)) as [_ Hs].
  unfold tick. cbn [microtasks capturer DCapture.encoder]. rewrite Hp.
  cbn [DCapture.react]. dc_eval. rewrite Ht. unfold after.
  cbn [globals capturer detached microtasks parked tasks log set_microtasks set_parked
       thrown final effects]. dc_eval.
  change (scheduled (EncoderStop :: effects (Encoder.stop enc)))
    with (scheduled (effects (Encoder.stop enc))).
  change (requested (EncoderStop :: effects (Encoder.stop enc)))
    with (requested (effects (Encoder.stop enc))).
  rewrite Hs, !app_nil_r. cbn [DCapture.encoder]. by conj.
Qed.

Lemma tick_log_stopped w rest chains :
  microtasks w = (LogStopped :: rest) :: chains ->
  let w' := tick w in
  globals w' = globals w
  /\ DCapture.encoder (capturer w') = DCapture.encoder (capturer w)
  /\ microtasks w' = chains ++ [rest]
  /\ tasks w' = tasks w
  /\ log w' = log w.
Proof.
  intros Hm. destruct w as [G d det mt pk ts lg]. cbn in Hm. subst mt.
  destruct d as [s st fr scb sp en di].
  unfold tick. cbn [microtasks capturer DCapture.encoder DCapture.react DCapture.display].
  destruct di; unfold after; cbn; rewrite ?app_nil_r; by conj.
Qed.

Lemma perform_save cb w enc :
  DCapture.encoder (capturer w) = Some enc ->
  let o := Encoder.save cb enc in
  let w' := perform (SaveTo cb) w in
  globals w' = globals w
  /\ DCapture.encoder (capturer w') = Some (final o)
  /\ microtasks w' = microtasks w
  /\ tasks w' = tasks w ++ requested (effects o)
  /\ log w' = log w ++ EncoderSave cb :: effects o
                ++ match thrown o with Some msg => [Raised msg] | None => [] end.
Proof.
  intros He. destruct w as [G d det mt pk ts lg].
  destruct d as [s st fr scb sp en di]. cbn in He. subst en.
  destruct (quiet_adds _ (quiet_save cb enc)) as [_ Hs].
  cbn [perform capturer globals]. unfold after. dc_eval.
  cbn [globals capturer detached microtasks parked tasks log thrown final effects
       DCapture.encoder]. dc_eval.
  change (scheduled (EncoderSave cb :: effects (Encoder.save cb enc)))
    with (scheduled (effects (Encoder.save cb enc))).
  change (requested (EncoderSave cb :: effects (Encoder.save cb enc)))
    with (requested (effects (Encoder.save cb enc))).
  rewrite Hs, !app_nil_r. by conj.
Qed.

(** stop(), the two reactions of its promise and save(callback), for an
    encoder whose stop returns no promise. *)
Lemma finish_plain cb w enc :
  DCapture.encoder (capturer w) = Some enc -> microtasks w = [] ->
  Encoder.stop_returns_promise enc = false ->
  let o1 := Encoder.stop enc in
  let o2 := Encoder.save cb (final o1) in
  let w' := run [Stop; Tick; Tick; SaveTo cb] w in
  globals w' = globals w
  /\ DCapture.encoder (capturer w') = Some (final o2)
  /\ tasks w' = tasks w ++ requested (effects o1) ++ requested (effects o2)
  /\ log w' = log w ++ [Scheduled [StopEncoder; LogStopped]]
                ++ (EncoderStop :: effects o1)
                ++ (EncoderSave cb :: effects o2)
                ++ match thrown o2 with Some msg => [Raised msg] | None => [] end.
Proof.
  intros He Hm Hp. cbn zeta. unfold run. cbn [fold_left].
  set (w1 := perform Stop w). set (w2 := perform Tick w1). set (w3 := perform Tick w2).
  destruct (perform_stop w) as (A1 & A2 & _ & A4 & A5 & A6). fold w1 in A1, A2, A4, A5, A6.
  rewrite Hm in A4. cbn [app] in A4. rewrite He in A2.
  destruct (tick_stop_encoder w1 enc _ _ A4 A2 Hp) as (B1 & B2 & B3 & B4 & B5).
  change (tick w1) with w2 in B1, B2, B3, B4, B5. cbn [app] in B3.
  destruct (tick_log_stopped w2 _ _ B3) as (C1 & C2 & C3 & C4 & C5).
  change (tick w2) with w3 in C1, C2, C3, C4, C5. rewrite B2 in C2.
  destruct (perform_save cb w3 _ C2) as (D1 & D2 & D3 & D4 & D5).
  rewrite D1, D2, D4, D5, C1, C4, C5, B1, B4, B5, A1, A5, A6, <- !app_assoc. by conj.
Qed.

Lemma perform_start_plain G now cb d enc :
  DCapture.encoder d = Some enc ->
  let o := Encoder.start G enc in
  let w := perform (Start now cb) (load G d) in
  globals w = G
  /\ DCapture.encoder (capturer w) = Some (final o)
  /\ DCapture.stopped (capturer w) = DCapture.stopped d
  /\ DCapture.settings (capturer w) = DCapture.settings d
  /\ tasks w = requested (effects o)
  /\ microtasks w = []
  /\ log w = EncoderStart :: effects o
             ++ match cb with Fn id => [Called id] | NoCallback => [] end.
Proof.
  intros He. destruct d as [s st fr scb sp en di]. cbn in He. subst en.
  pose proof (total_start G enc) as Ht. unfold total in Ht.
  destruct (quiet_adds _ (quiet_start G enc)) as [_ Hs].
  cbn [perform load globals capturer]. unfold after, DCapture.start. dc_eval. rewrite Ht.
  dc_eval.
  destruct cb; dc_eval;
    cbn [globals capturer detached microtasks parked tasks log thrown final effects
         DCapture.encoder DCapture.stopped DCapture.settings];
    rewrite ?app_nil_r;
    change (scheduled (EncoderStart :: ?l)) with (scheduled l);
    change (requested (EncoderStart :: ?l)) with (requested l);
    rewrite ?scheduled_app, ?requested_app, Hs; cbn [scheduled requested omap list_omap app];
    rewrite ?app_nil_r; by conj.
Qed.

Lemma createEncoder_gif G s :
  format s = "gif" ->
  exists e,
    DCapture.createEncoder G s = Built (GIFEncoder e)
    /\ DCGIFEncoder.settings e = s
    /\ DCGIFEncoder.savedBlob e = None.
Proof.
  intros Hf. unfold DCapture.createEncoder. rewrite Hf. cbn.
  eexists. split; [reflexivity|]. done.
Qed.

Lemma requested_each_add_gif cs : forall e gif,
  gif_started e gif -> requested (effects (each DCGIFEncoder.add cs e)) = [].
Proof. intros e gif H. by destruct (gif_adds_spec cs e gif H) as (_ & _ & _ & _ & _ & _ & ?). Qed.

(** X21. A GIF session from start to save.  For a capturer constructed
    for the format gif, with the GIF library loaded and no limits: after
    start(), capture calls for the frames, stop(), the two reactions of
    its promise and save(callback), the renderer is at work on one image
    made of exactly the frames that could be drawn, in the order they were
    captured, each with the delay 1000 / (framerate || 60) ms, and the
    callback has not been called yet; when the renderer finishes, the
    callback is called exactly once, with that image, and nothing was
    thrown to the caller.  (At least one frame must have been drawn.) *)
Theorem gif_session_delivers_the_image
    (G : Globals) (options : Options) (d : DCapture.t)
    (now : Z) (frames : list (Z * Canvas)) (id : nat) :
  DCapture.constructor G options = Built d ->
  format (DCapture.settings d) = "gif" ->
  hasGIF G = true ->
  (timeLimit (DCapture.settings d) == 0)%Q ->
  (frameLimit (DCapture.settings d) == 0)%Q ->
  let delay := (1000 / Qor (framerate (DCapture.settings d)) 60)%Q in
  let kept := map (fun c => (c, delay)) (List.filter drawable (map snd frames)) in
  kept <> [] ->
  let w := session now frames id (load G d) in
  artifacts (log w) = []
  /\ tasks w = [GifFinished (GifImage kept)]
  /\ artifacts (log (perform (Turn 0) w)) = [GifImage kept]
  /\ raised (log (perform (Turn 0) w)) = [].
Proof.
  intros Hd Hfmt HG Ht Hf delay kept Hk.
  destruct (constructor_built _ _ _ Hd) as (Hs & Hst & _).
  unfold DCapture.constructor in Hd.
  destruct (createEncoder_gif G (assign defaults options)) as (e & C1 & C2 & C3);
    [by rewrite <- Hs|].
  rewrite C1 in Hd. injection Hd as <-. cbn [DCapture.settings] in *.
  set (d := DCapture.Build_t _ _ _ _ _ _ _).
  destruct (perform_start_plain G now NoCallback d _ eq_refl)
    as (S1 & S2 & S3 & S4 & S5 & S6 & S7).
  set (w0 := perform (Start now NoCallback) (load G d)) in *.
  cbn [Encoder.start lift final effects] in S2, S5, S7.
  destruct (gif_start_spec G e HG) as (T1 & T2 & T3 & T4 & T5 & T6 & T7).
  rewrite T2 in S5, S7. cbn [requested omap list_omap app] in S5, S7.
  destruct (run_captures_plain frames w0 _ S3 S2)
    as (R1 & R2 & R3 & R4 & R5 & R6 & R7 & R8 & R9);
    [rewrite S4; by apply Qltb_zero..|].
  set (w1 := run (captures frames) w0) in *.
  rewrite each_add_gif in R2, R5. cbn [lift final effects] in R2, R5.
  destruct (gif_adds_spec (map snd frames) _ _ T3)
    as (B1 & (g & [B2 B2'] & B3 & B4 & B5 & B6) & B7 & B8 & B9 & B10 & B11).
  set (e2 := final (each DCGIFEncoder.add (map snd frames) (final (DCGIFEncoder.start G e))))
    in *.
  rewrite B11, S5 in R5. cbn [app] in R5.
  rewrite T5, C2 in B3. cbn [GIF.frames GIF.new GIF.on app] in B3.
  fold delay in B3. fold kept in B3.
  cbn [GIF.running GIF.new GIF.on GIF.listeners app] in B5, B6.
  unfold session. change (run (Start now NoCallback :: captures frames) (load G d)) with w1.
  rewrite settle_idle by (done || congruence).
  destruct (finish_plain (Fn id) w1 _ R2 ltac:(congruence) eq_refl)
    as (F1 & F2 & F3 & F4).
  set (w2 := run [Stop; Tick; Tick; SaveTo (Fn id)] w1) in *.
  cbn [Encoder.stop Encoder.save lift final effects thrown] in F2, F3, F4.
  rewrite (gif_stop_spec e2 g B2 B5) in F2, F3, F4. cbn [final effects thrown] in F2, F3, F4.
  set (e3 := DCGIFEncoder.set_encoder (Some (GIF.set_running true g)) e2) in *.
  assert (K1 : DCGIFEncoder.encoder e3 = Some (GIF.set_running true g)) by reflexivity.
  assert (K2 : DCGIFEncoder.savedBlob e3 = None) by (cbn; by rewrite B7, T6).
  destruct (gif_saved_first e3 _ (GifImage kept) (Fn id) K1 eq_refl B6 K2)
    as (W1 & W2 & W3 & W4).
  rewrite W1 in F2, F3, F4. cbn [ret final effects thrown] in F2, F3, F4, W2, W3.
  rewrite R5, B3 in F3. cbn [requested omap list_omap app] in F3.
  assert (Hlog : artifacts (log w2) = [] /\ raised (log w2) = []).
  { rewrite F4, R9, S7, !artifacts_app, !raised_app.
    change (artifacts (EncoderStart :: ?l)) with (artifacts l).
    change (raised (EncoderStart :: ?l)) with (raised l).
    rewrite artifacts_logged_adds, raised_logged_adds, each_add_gif.
    cbn [lift effects]. rewrite B10. done. }
  destruct Hlog as [L1 L2].
  split; [exact L1|]. split; [exact F3|].
  destruct (turn_plain (GifFinished (GifImage kept)) [] w2 _ F2 F3 ltac:(discriminate))
    as (U1 & U2 & U3 & U4 & U5 & U6 & U7).
  rewrite U5, U6, L1, L2. cbn [Encoder.complete lift effects app]. rewrite W1 in W3.
  cbn [final ret] in W3. rewrite W3.
  change (artifacts (Emitted ?a ?b :: ?l)) with (artifacts l).
  by rewrite artifacts_app, artifacts_calls.
Qed.

Lemma gif_session_delivers_the_image_witness :
  let G := all_loaded in
  let d := built (DCapture.constructor G gif_at_25) in
  let frames := [(10%Z, plain_canvas []); (50%Z, plain_canvas [Byte.x01])] in
  let delay := (1000 / Qor (framerate (DCapture.settings d)) 60)%Q in
  let kept := map (fun c => (c, delay)) (List.filter drawable (map snd frames)) in
  DCapture.constructor G gif_at_25 = Built d
  /\ format (DCapture.settings d) = "gif"
  /\ hasGIF G = true
  /\ (timeLimit (DCapture.settings d) == 0)%Q
  /\ (frameLimit (DCapture.settings d) == 0)%Q
  /\ kept <> []
  /\ (delay == 40)%Q
  /\ let w := session 0 frames 7 (load G d) in
     artifacts (log w) = []
     /\ tasks w = [GifFinished (GifImage kept)]
     /\ artifacts (log (perform (Turn 0) w)) = [GifImage kept]
     /\ raised (log (perform (Turn 0) w)) = [].
Proof.
  cbn zeta. split; [reflexivity|]. split; [reflexivity|]. split; [reflexivity|].
  split; [reflexivity|]. split; [reflexivity|]. split; [discriminate|].
  split; [reflexivity|].
  apply (gif_session_delivers_the_image all_loaded gif_at_25
           (built (DCapture.constructor all_loaded gif_at_25)) 0
           [(10%Z, plain_canvas []); (50%Z, plain_canvas [Byte.x01])] 7);
    try reflexivity. discriminate.
Defined.

Lemma run_blurred acts : forall w,
  forallb observed acts = true ->
  DCapture.stopped (capturer w) = false ->
  is_Some (DCapture.encoder (capturer w)) ->
  blurred (capturer w) = true ->
  let w' := run acts w in
  DCapture.stopped (capturer w') = false
  /\ DCapture.frames (capturer w') = DCapture.frames (capturer w) + length (captured acts)
  /\ adds (log w') = adds (log w) ++ captured acts
  /\ scheduled (log w') = scheduled (log w)
  /\ raised (log w') = raised (log w).
Proof.
  induction acts as [|a acts IH]; intros w Hobs Hs He Hb.
  - cbn. rewrite Nat.add_0_r, app_nil_r. by repeat split.
  - rewrite run_cons. cbn [forallb] in Hobs. apply andb_prop in Hobs as [Ha Hobs].
    destruct (background a) eqn:Hbg.
    + assert (Hc : captured (a :: acts) = captured acts) by (by destruct a).
      rewrite Hc.
      pose proof (undisturbed_background a w Hbg) as Hu.
      destruct (undisturbed_silent _ _ Hu) as (U1 & U2 & U3).
      destruct Hu as (_ & (S1 & S2 & S3 & S4 & S5) & _).
      destruct (IH (perform a w) Hobs) as (I1 & I2 & I3 & I4 & I5);
        [congruence|auto|unfold blurred in *; by rewrite S3|].
      repeat split; congruence.
    + destruct a as [| now c | | | | | | | |]; try discriminate.
      cbn [captured omap list_omap] in *. fold (captured acts) in *.
      destruct (perform_capture_running now c w Hs He)
        as (_ & P2 & P3 & P4 & P5 & P6 & P7 & P8 & P9).
      rewrite Hb in P6, P9. cbn [negb andb] in P6. rewrite app_nil_r in P9.
      destruct (IH (perform (Capture now c) w) Hobs) as (I1 & I2 & I3 & I4 & I5);
        [done|auto|unfold blurred in *; by rewrite P3|].
      rewrite I2, I3, I4, I5, P2, P7, P8, P9. rewrite <- app_assoc.
      repeat split; auto. cbn [length]. lia.
Qed.

(** X22. With motionBlurFrames > 1 the limits are never tested: whatever
    timeLimit and frameLimit are, after start() and any sequence of capture
    calls, interleaved with any turns of the event loop, every canvas was
    handed to encoder.add once, in order, the frame counter is the number
    of capture calls, the session is not stopped, and no stop or save was
    scheduled. *)
Theorem motion_blur_never_stops_the_session
    (G : Globals) (options : Options) (d : DCapture.t)
    (now : Z) (callback : Callback) (acts : list Action) :
  DCapture.constructor G options = Built d ->
  (1 < motionBlurFrames (DCapture.settings d))%Q ->
  forallb observed acts = true ->
  let w := run (Start now callback :: acts) (load G d) in
  DCapture.frames (capturer w) = length (captured acts)
  /\ adds (log w) = captured acts
  /\ DCapture.stopped (capturer w) = false
  /\ scheduled (log w) = []
  /\ raised (log w) = [].
Proof.
  intros Hd Hm Hobs.
  destruct (constructor_built _ _ _ Hd) as (_ & C2 & _ & C4).
  destruct (perform_start G now callback d C4)
    as (_ & S2 & S3 & S4 & _ & S6 & S7 & S8 & S9).
  cbn zeta. rewrite run_cons.
  destruct (run_blurred acts (perform (Start now callback) (load G d)) Hobs)
    as (R1 & R2 & R3 & R4 & R5).
  - congruence.
  - done.
  - unfold blurred. rewrite S3. by apply Qltb_true.
  - rewrite R2, R3, R4, R5, S4, S7, S8, S9. done.
Qed.

Lemma motion_blur_never_stops_the_session_witness :
  let G := all_loaded in
  let d := built (DCapture.constructor G blurred_limits) in
  let acts := [Capture 5000 (plain_canvas []); Tick; Capture 9000 (plain_canvas [])] in
  let w := run (Start 0 NoCallback :: acts) (load G d) in
  DCapture.constructor G blurred_limits = Built d
  /\ (1 < motionBlurFrames (DCapture.settings d))%Q
  /\ (timeLimit (DCapture.settings d) == 1)%Q
  /\ (frameLimit (DCapture.settings d) == 1)%Q
  /\ forallb observed acts = true
  /\ DCapture.frames (capturer w) = 2
  /\ adds (log w) = [plain_canvas []; plain_canvas []]
  /\ DCapture.stopped (capturer w) = false
  /\ scheduled (log w) = []
  /\ raised (log w) = [].
Proof.
  cbn zeta. split; [reflexivity|]. split; [reflexivity|]. split; [reflexivity|].
  split; [reflexivity|]. split; [reflexivity|].
  apply (motion_blur_never_stops_the_session all_loaded blurred_limits
           (built (DCapture.constructor all_loaded blurred_limits)) 0 NoCallback
           [Capture 5000 (plain_canvas []); Tick; Capture 9000 (plain_canvas [])]);
    reflexivity.
Defined.



Lemma reported_app l1 l2 : reported (l1 ++ l2) = reported l1 ++ reported l2.
Proof. apply omap_app. Qed.

Lemma quiet_unreported l : Forall (fun e => internal e = true) l -> reported l = [].
Proof.
  induction 1 as [|e l He _ IH]; [done|].
  destruct e; try discriminate; cbn; exact IH.
Qed.

Lemma reported_logged_adds cs : forall enc, reported (logged_adds cs enc) = [].
Proof.
  induction cs as [|c cs IH]; intros enc; [done|].
  cbn [logged_adds]. change (reported (EncoderAdd c :: ?l)) with (reported l).
  by rewrite reported_app, IH, app_nil_r, (quiet_unreported _ (quiet_add c enc)).
Qed.

(** The renderer reports progress to a GIF encoder whose rendering runs. *)
Lemma perform_gif_progress p w e gif :
  DCapture.encoder (capturer w) = Some (GIFEncoder e) ->
  DCGIFEncoder.encoder e = Some gif -> GIF.running gif = true ->
  GIF.listening "progress" gif = [GIF.RelayProgress] ->
  listening "progress" (DCGIFEncoder.base e) = [RelayProgress] ->
  let w' := perform (GifProgress p) w in
  log w' = log w ++ [Emitted "progress" (Num p); Invoked RelayProgress (Num p)]
             ++ match onProgress (DCapture.settings (capturer w)) with
                | Some f => [Progress f (Num p)]
                | None => []
                end
  /\ DCapture.display (capturer w') = with_progress (p * 100) <$> DCapture.display (capturer w)
  /\ DCapture.encoder (capturer w') = Some (GIFEncoder e)
  /\ DCapture.settings (capturer w') = DCapture.settings (capturer w)
  /\ tasks w' = tasks w /\ microtasks w' = microtasks w.
Proof.
  intros He Hg Hr Hl Hb. destruct w as [G d det mt pk ts lg].
  destruct d as [s st fr scb sp en di]. cbn in He. subst en.
  cbn [perform]. unfold encoder_event. cbn [capturer DCapture.encoder].
  unfold DCGIFEncoder.on_progress. rewrite Hg, Hr, Hl.
  cbn [DCGIFEncoder.listeners DCGIFEncoder.listener].
  unfold DCGIFEncoder.emit, DCFrameEncoder.emit. rewrite calls_listening, Hb.
  unfold heard, after. cbn [map lift andThen ret thrown final effects app DCapture.relay].
  destruct (onProgress s) eqn:Hp; destruct di; cbn; rewrite ?Hp; cbn;
    rewrite ?app_nil_r; destruct e; by conj.
Qed.

Lemma with_progress_twice p q el : with_progress p (with_progress q el) = with_progress p el.
Proof. reflexivity. Qed.

Lemma run_gif_progress ps : forall w e gif,
  DCapture.encoder (capturer w) = Some (GIFEncoder e) ->
  DCGIFEncoder.encoder e = Some gif -> GIF.running gif = true ->
  GIF.listening "progress" gif = [GIF.RelayProgress] ->
  listening "progress" (DCGIFEncoder.base e) = [RelayProgress] ->
  let w' := run (map GifProgress ps) w in
  reported (log w')
  = reported (log w)
    ++ match onProgress (DCapture.settings (capturer w)) with
       | Some f => map (fun p => (f, p)) ps
       | None => []
       end
  /\ DCapture.display (capturer w') = bar_after ps <$> DCapture.display (capturer w)
  /\ raised (log w') = raised (log w)
  /\ artifacts (log w') = artifacts (log w)
  /\ tasks w' = tasks w.
Proof.
  induction ps as [|p ps IH]; intros w e gif He Hg Hr Hl Hb.
  - cbn. rewrite option_fmap_id.
    destruct (onProgress _); rewrite app_nil_r; by conj.
  - cbn [map]. rewrite run_cons.
    destruct (perform_gif_progress p w e gif He Hg Hr Hl Hb) as (P1 & P2 & P3 & P4 & P5 & P6).
    destruct (IH (perform (GifProgress p) w) e gif P3 Hg Hr Hl Hb) as (I1 & I2 & I3 & I4 & I5).
    rewrite I1, I2, I3, I4, I5, P1, P2, P4, P5.
    rewrite !reported_app, !raised_app, !artifacts_app.
    split.
    { destruct (onProgress (DCapture.settings (capturer w))); cbn; by rewrite <- app_assoc. }
    split.
    { destruct (DCapture.display (capturer w)) as [el|]; [|done]. cbn. f_equal.
      unfold bar_after. destruct ps as [|q ps]; [done|]. cbn [last]. rewrite last_cons.
      destruct (last ps); reflexivity. }
    destruct (onProgress (DCapture.settings (capturer w))); cbn; rewrite ?app_nil_r; by conj.
Qed.

Lemma perform_stop_settings w :
  DCapture.settings (capturer (perform Stop w)) = DCapture.settings (capturer w).
Proof. by destruct w as [G [s st fr scb sp en di] det mt pk ts lg]. Qed.

(** X24. The progress of the GIF renderer reaches the page.  For a
    capturer constructed for the format gif, with the GIF library loaded
    and no limits: after start(), capture calls for the frames, stop() and
    the first reaction of its promise, the renderer is at work; each
    progress value it then reports is passed to settings.onProgress, when
    one was given, exactly once and in the order of the reports, the bar
    of the status display, when there is one, shows the last value times
    100 percent with the rest of the display untouched, nothing is thrown
    and nothing is handed out.  Before that onProgress was never called.
    (At least one frame must have been drawn.) *)
Theorem gif_progress_reaches_the_page
    (G : Globals) (options : Options) (d : DCapture.t)
    (now : Z) (frames : list (Z * Canvas)) (ps : list Q) :
  DCapture.constructor G options = Built d ->
  format (DCapture.settings d) = "gif" ->
  hasGIF G = true ->
  (timeLimit (DCapture.settings d) == 0)%Q ->
  (frameLimit (DCapture.settings d) == 0)%Q ->
  List.filter drawable (map snd frames) <> [] ->
  let w := run (Start now NoCallback :: captures frames ++ [Stop; Tick]) (load G d) in
  let w' := run (map GifProgress ps) w in
  reported (log w) = []
  /\ reported (log w')
     = match onProgress (DCapture.settings d) with
       | Some f => map (fun p => (f, p)) ps
       | None => []
       end
  /\ DCapture.display (capturer w') = bar_after ps <$> DCapture.display (capturer w)
  /\ raised (log w') = []
  /\ artifacts (log w') = [].
Proof.
  intros Hd Hfmt HG Ht Hf Hk.
  destruct (constructor_built _ _ _ Hd) as (Hs & Hst & _).
  unfold DCapture.constructor in Hd.
  destruct (createEncoder_gif G (assign defaults options)) as (e & C1 & C2 & C3);
    [by rewrite <- Hs|].
  assert (Hbase : listening "progress" (DCGIFEncoder.base e) = [RelayProgress]).
  { unfold DCapture.createEncoder in C1. rewrite <- Hs, Hfmt in C1. cbn in C1.
    injection C1 as <-. reflexivity. }
  rewrite C1 in Hd. injection Hd as <-. cbn [DCapture.settings] in *.
  set (d := DCapture.Build_t _ _ _ _ _ _ _).
  destruct (perform_start_plain G now NoCallback d _ eq_refl)
    as (S1 & S2 & S3 & S4 & S5 & S6 & S7).
  set (w0 := perform (Start now NoCallback) (load G d)) in *.
  cbn [Encoder.start lift final effects] in S2, S5, S7.
  destruct (gif_start_spec G e HG) as (T1 & T2 & T3 & T4 & T5 & T6 & T7).
  rewrite T2 in S5, S7. cbn [requested omap list_omap app] in S5, S7.
  destruct (run_captures_plain frames w0 _ S3 S2)
    as (R1 & R2 & R3 & R4 & R5 & R6 & R7 & R8 & R9);
    [rewrite S4; by apply Qltb_zero..|].
  set (w1 := run (captures frames) w0) in *.
  rewrite each_add_gif in R2, R5. cbn [lift final effects] in R2, R5.
  destruct (gif_adds_spec (map snd frames) _ _ T3)
    as (B1 & (g & [B2 B2'] & B3 & B4 & B5 & B6) & B7 & B8 & B9 & B10 & B11).
  set (e2 := final (each DCGIFEncoder.add (map snd frames) (final (DCGIFEncoder.start G e))))
    in *.
  cbn [GIF.running GIF.new GIF.on GIF.listeners app] in B5, B6.
  cbn zeta. rewrite run_cons, run_app.
  change (run (captures frames) (perform (Start now NoCallback) (load G d))) with w1.
  change (run [Stop; Tick] w1) with (perform Tick (perform Stop w1)).
  set (w2 := perform Stop w1). set (w3 := perform Tick w2).
  destruct (perform_stop w1) as (A1 & A2 & _ & A4 & A5 & A6).
  fold w2 in A1, A2, A4, A5, A6. rewrite R6, S6 in A4. cbn [app] in A4. rewrite R2 in A2.
  destruct (tick_stop_encoder w2 _ _ _ A4 A2 eq_refl) as (E1 & E2 & E3 & E4 & E5).
  change (tick w2) with w3 in E1, E2, E3, E4, E5.
  cbn [Encoder.stop lift final effects] in E2, E5.
  rewrite (gif_stop_spec e2 g B2 B5) in E2, E5. cbn [final effects] in E2, E5.
  set (e3 := DCGIFEncoder.set_encoder (Some (GIF.set_running true g)) e2) in *.
  assert (Hset : DCapture.settings (capturer w3) = assign defaults options).
  { destruct (undisturbed_tick w2) as (_ & (_ & _ & U & _) & _).
    change (tick w2) with w3 in U. rewrite U. unfold w2.
    rewrite perform_stop_settings, R4, S4. reflexivity. }
  assert (Hlog : reported (log w3) = [] /\ raised (log w3) = [] /\ artifacts (log w3) = []).
  { rewrite E5, A6, R9, S7.
    rewrite !reported_app, !raised_app, !artifacts_app.
    change (reported (EncoderStart :: ?l)) with (reported l).
    change (raised (EncoderStart :: ?l)) with (raised l).
    change (artifacts (EncoderStart :: ?l)) with (artifacts l).
    rewrite reported_logged_adds, raised_logged_adds, artifacts_logged_adds, each_add_gif.
    cbn [lift effects]. rewrite B10. done. }
  destruct Hlog as (L1 & L2 & L3).
  destruct (run_gif_progress ps w3 e3 (GIF.set_running true g) E2 eq_refl eq_refl)
    as (P1 & P2 & P3 & P4 & P5).
  - unfold GIF.listening. cbn [GIF.set_running GIF.listeners]. rewrite B6. reflexivity.
  - change (listening "progress" (DCGIFEncoder.base e2) = [RelayProgress]).
    by rewrite B8, T7.
  - rewrite P1, P2, P3, P4, L1, L2, L3, Hset. by conj.
Qed.

Lemma gif_progress_reaches_the_page_witness :
  let G := all_loaded in
  let d := built (DCapture.constructor G gif_with_progress) in
  let frames := [(10%Z, plain_canvas [])] in
  let ps := [(1 # 2)%Q; 1%Q] in
  let w := run (Start 0 NoCallback :: captures frames ++ [Stop; Tick]) (load G d) in
  let w' := run (map GifProgress ps) w in
  DCapture.constructor G gif_with_progress = Built d
  /\ format (DCapture.settings d) = "gif"
  /\ hasGIF G = true
  /\ (timeLimit (DCapture.settings d) == 0)%Q
  /\ (frameLimit (DCapture.settings d) == 0)%Q
  /\ List.filter drawable (map snd frames) <> []
  /\ is_Some (DCapture.display (capturer w))
  /\ reported (log w) = []
  /\ reported (log w') = [(3, (1 # 2)%Q); (3, 1%Q)]
  /\ DCapture.display (capturer w') = bar_after ps <$> DCapture.display (capturer w)
  /\ raised (log w') = []
  /\ artifacts (log w') = [].
Proof.
  cbn zeta. split; [reflexivity|]. split; [reflexivity|]. split; [reflexivity|].
  split; [reflexivity|]. split; [reflexivity|]. split; [discriminate|].
  split; [vm_compute; eauto|].
  apply (gif_progress_reaches_the_page all_loaded gif_with_progress
           (built (DCapture.constructor all_loaded gif_with_progress)) 0
           [(10%Z, plain_canvas [])] [(1 # 2)%Q; 1%Q]);
    try reflexivity. discriminate.
Defined.

(** Reads into an archive that is never rotated. *)
Lemma reads_keep G evs : forall e tp,
  DCTarEncoder.tape e = Some tp ->
  (autoSaveTime (DCTarEncoder.settings e) <= 0)%Q ->
  let o := reads G evs e in
  thrown o = None
  /\ (exists tp',
        DCTarEncoder.tape (final o) = Some (tp ++ tp')
        /\ map fst tp'
           = map (entry_name (DCTarEncoder.fileExtension e))
                 (seq (DCTarEncoder.count e) (loaded evs)))
  /\ DCTarEncoder.fileExtension (final o) = DCTarEncoder.fileExtension e
  /\ DCTarEncoder.settings (final o) = DCTarEncoder.settings e
  /\ artifacts (effects o) = [].
Proof.
  induction evs as [|ev evs IH]; intros e tp Ht Ha.
  - cbn. split; [done|]. split; [|done]. exists []. by rewrite app_nil_r.
  - cbn [reads]. destruct ev as [result|].
    + destruct (onload_keeps G result e tp Ht (rotates_never e Ha))
        as (K1 & K2 & K3 & K4 & K5 & K6 & K7 & K8).
      cbn [read]. rewrite andThen_normal by exact K1. cbn [final effects].
      destruct (IH _ _ K2) as (I1 & (tp' & I2 & I3) & I4 & I5 & I6); [by rewrite K7|].
      split; [exact I1|]. split.
      * eexists. rewrite I2, <- app_assoc. split; [reflexivity|].
        cbn [app map fst loaded seq]. rewrite I3, K3, K6. do 3 f_equal. lia.
      * rewrite artifacts_app, K8, I6, I4, I5, K6, K7. done.
    + cbn [read]. unfold DCTarEncoder.onerror, DCTarEncoder.emit.
      cbn [lift andThen thrown final effects DCFrameEncoder.emit].
      set (e1 := DCTarEncoder.set_base (DCTarEncoder.base e) e).
      destruct (IH e1 tp) as (I1 & (tp' & I2 & I3) & I4 & I5 & I6); [done|done|].
      split; [exact I1|]. split; [by exists tp'|].
      rewrite I4, I5. split; [done|]. split; [done|].
      rewrite artifacts_app, I6, app_nil_r.
      change (artifacts (Emitted ?a ?b :: ?l)) with (artifacts l).
      apply artifacts_calls.
Qed.

Lemma tar_start_spec G e :
  hasTar G = true ->
  let o := DCTarEncoder.start G e in
  thrown o = None /\ effects o = []
  /\ DCTarEncoder.tape (final o) = Some []
  /\ DCTarEncoder.count (final o) = 0
  /\ DCTarEncoder.fileExtension (final o) = DCTarEncoder.fileExtension e
  /\ DCTarEncoder.settings (final o) = DCTarEncoder.settings e.
Proof.
  intros HG. unfold DCTarEncoder.start, DCTarEncoder.dispose. rewrite HG. cbn. by conj.
Qed.

(** X25. start() of the archive writer begins an empty archive whatever
    was read before: without auto-save, after start(), the reads of any
    frames, start() again, the reads of further frames and save(callback),
    nothing was thrown, the frames read before the second start() were
    never handed out, and the callback receives one archive that holds
    exactly the frames read after it, named from 000000 on. *)
Theorem restart_discards_the_open_archive
    (G : Globals) (e : DCTarEncoder.t) (evs1 evs2 : list ReadEvent) (id : nat) :
  hasTar G = true ->
  (autoSaveTime (DCTarEncoder.settings e) <= 0)%Q ->
  let first := DCTarEncoder.start G e >>> reads G evs1 in
  let again := DCTarEncoder.start G (final first) >>> reads G evs2 in
  let saved := DCTarEncoder.save (DCTarEncoder.call (Fn id)) (final again) in
  thrown first = None /\ thrown again = None /\ thrown saved = None
  /\ artifacts (effects first) = []
  /\ artifacts (effects again) = []
  /\ exists entries,
       effects saved = [Delivered id (TarArchive entries)]
       /\ length entries = loaded evs2
       /\ map fst entries
          = map (entry_name (DCTarEncoder.fileExtension e)) (seq 0 (loaded evs2)).
Proof.
  intros HG Ha. cbn zeta.
  destruct (tar_start_spec G e HG) as (S1 & S2 & S3 & S4 & S5 & S6).
  rewrite (andThen_normal _ _ S1). cbn [thrown final effects]. rewrite S2. cbn [app].
  destruct (reads_keep G evs1 _ _ S3) as (R1 & (tp1 & R2 & R3) & R4 & R5 & R6);
    [by rewrite S6|].
  set (e1 := final (reads G evs1 (final (DCTarEncoder.start G e)))) in *.
  destruct (tar_start_spec G e1 HG) as (T1 & T2 & T3 & T4 & T5 & T6).
  rewrite (andThen_normal _ _ T1). cbn [thrown final effects]. rewrite T2. cbn [app].
  destruct (reads_keep G evs2 _ _ T3) as (Q1 & (tp2 & Q2 & Q3) & Q4 & Q5 & Q6);
    [by rewrite T6, R5, S6|].
  cbn [app] in Q2. rewrite T4, T5, R4, S5 in Q3.
  unfold DCTarEncoder.save. rewrite Q2. cbn.
  conj; try done.
  exists tp2. split; [done|]. split; [|exact Q3].
  apply (f_equal length) in Q3. by rewrite !length_map, length_seq in Q3.
Qed.

Lemma restart_discards_the_open_archive_witness :
  let G := all_loaded in
  let e := DCPNGEncoder.super (DCPNGEncoder.constructor defaults) in
  let evs1 := [Loaded [Byte.x01]; Loaded [Byte.x02]] in
  let evs2 := [Loaded [Byte.x03]] in
  let first := DCTarEncoder.start G e >>> reads G evs1 in
  let again := DCTarEncoder.start G (final first) >>> reads G evs2 in
  let saved := DCTarEncoder.save (DCTarEncoder.call (Fn 7)) (final again) in
  hasTar G = true
  /\ (autoSaveTime (DCTarEncoder.settings e) <= 0)%Q
  /\ DCTarEncoder.names (final first) = ["000000.png"; "000001.png"]
  /\ thrown first = None /\ thrown again = None /\ thrown saved = None
  /\ artifacts (effects first) = []
  /\ artifacts (effects again) = []
  /\ exists entries,
       effects saved = [Delivered 7 (TarArchive entries)]
       /\ length entries = 1
       /\ map fst entries = ["000000.png"].
Proof.
  cbn zeta. split; [reflexivity|]. split; [discriminate|]. split; [reflexivity|].
  apply (restart_discards_the_open_archive all_loaded
           (DCPNGEncoder.super (DCPNGEncoder.constructor defaults))
           [Loaded [Byte.x01]; Loaded [Byte.x02]] [Loaded [Byte.x03]] 7);
    [reflexivity|discriminate].
Defined.
